(** * Power-plant query service: cleaning pipeline and data handler

    A shallow embedding of [util/data_cleaner.py] (class [DataCleaner]) and
    [services/data_handler.py] (class [PowerPlantDataHandler]), with the
    pydantic result models of [models/power_plant.py] they build, the
    request models of the same file and the three query endpoints of
    [main.py].

    Modelling conventions.
    - A pandas [DataFrame] is a list of labelled columns ([Series]) in column
      order; a column carries its dtype ([float64] or [object]) and its cells.
      Column labels are strings, pairwise distinct within a frame; the
      statements that need this, or that the columns have one length, say
      so.  Rows are addressed by position.
    - A cell is a float or a string.  A missing cell is the float NaN, which
      is what the spreadsheet reader produces for an empty cell.
    - A float64 is an exact rational, an infinity or NaN: binary rounding,
      overflow and the sign of zero are outside the model.
    - An exception is a value of [exn]; a method that can raise returns
      [result].
    - [DataFrame.sort_values] is called by the handler with its default
      [kind], numpy's quicksort, whose order among equal keys is not fixed
      by the library.  The index computation is therefore a parameter
      ([argsort_desc]) of the handler's methods; the theorems assume of it
      what the library promises (a permutation of the positions, keys in
      descending order, NaN last). *)

From Stdlib Require Import List String Ascii Bool Arith ZArith QArith Qreduction Lia.
From Stdlib Require Import Permutation Sorted.
Import ListNotations.

Local Open Scope string_scope.
Local Open Scope Z_scope.

(* ===================================================================== *)
(** ** Floats *)
(* ===================================================================== *)

Module Float64.

Inductive F64 : Type :=
| Fin (q : Q)
| PInf
| NInf
| NaN.

Definition of_Z (z : Z) : F64 := Fin (inject_Z z).

Definition zero : F64 := of_Z 0.
Definition hundred : F64 := of_Z 100.

Definition is_nan (x : F64) : bool :=
  match x with NaN => true | _ => false end.

Definition sgn (q : Q) : comparison := (Qnum q ?= 0)%Z.

Definition fadd (x y : F64) : F64 :=
  match x, y with
  | NaN, _ | _, NaN => NaN
  | PInf, NInf | NInf, PInf => NaN
  | PInf, _ | _, PInf => PInf
  | NInf, _ | _, NInf => NInf
  | Fin p, Fin q => Fin (Qred (p + q))
  end.

Definition inf_of (c : comparison) : F64 :=
  match c with Gt => PInf | Lt => NInf | Eq => NaN end.

Definition fsign (x : F64) : comparison :=
  match x with
  | Fin q => sgn q
  | PInf => Gt
  | NInf => Lt
  | NaN => Eq
  end.

Definition cmul (a b : comparison) : comparison :=
  match a, b with
  | Eq, _ | _, Eq => Eq
  | Gt, c | c, Gt => c
  | Lt, Lt => Gt
  end.

Definition fmul (x y : F64) : F64 :=
  match x, y with
  | NaN, _ | _, NaN => NaN
  | Fin p, Fin q => Fin (Qred (p * q))
  | _, _ => inf_of (cmul (fsign x) (fsign y))
  end.

(** True division as numpy does it on float64 arrays: no exception,
    [x / 0] is an infinity of the sign of [x], [0 / 0] is NaN. *)
Definition fdiv (x y : F64) : F64 :=
  match x, y with
  | NaN, _ | _, NaN => NaN
  | Fin p, Fin q =>
      match sgn q with
      | Eq => inf_of (sgn p)
      | _ => Fin (Qred (p / q))
      end
  | Fin _, _ => zero
  | _, Fin q =>
      match sgn q with
      | Lt => inf_of (cmul (fsign x) Lt)
      | _ => x
      end
  | _, _ => NaN
  end.

(** [x <= y]; false as soon as an operand is NaN. *)
Definition fleb (x y : F64) : bool :=
  match x, y with
  | NaN, _ | _, NaN => false
  | NInf, _ | _, PInf => true
  | Fin p, Fin q => Qle_bool p q
  | _, _ => false
  end.

(** [x == y]; false as soon as an operand is NaN. *)
Definition feqb (x y : F64) : bool :=
  match x, y with
  | Fin p, Fin q => Qeq_bool p q
  | PInf, PInf | NInf, NInf => true
  | _, _ => false
  end.

(** Sum of a column with [skipna=True], as [sum] aggregates: NaN cells are
    left out, the empty sum is [0.0]. *)
Definition nansum (xs : list F64) : F64 :=
  fold_left fadd (filter (fun x => negb (is_nan x)) xs) zero.

End Float64.
Export Float64.

(* ===================================================================== *)
(** ** Python strings *)
(* ===================================================================== *)

Module Py.

Definition chars (s : string) : list ascii := list_ascii_of_string s.
Definition str (l : list ascii) : string := string_of_list_ascii l.

Definition code (c : ascii) : nat := nat_of_ascii c.

Definition is_upper (c : ascii) : bool :=
  (65 <=? code c)%nat && (code c <=? 90)%nat.

Definition lower_char (c : ascii) : ascii :=
  if is_upper c then ascii_of_nat (code c + 32) else c.

(** [s.lower()] on ASCII text. *)
Definition lower (s : string) : string := str (map lower_char (chars s)).

Fixpoint starts_with (p s : list ascii) : bool :=
  match p, s with
  | [], _ => true
  | _ :: _, [] => false
  | a :: p', b :: s' => Ascii.eqb a b && starts_with p' s'
  end.

Fixpoint contains_chars (p s : list ascii) : bool :=
  starts_with p s ||
  match s with
  | [] => false
  | _ :: s' => contains_chars p s'
  end.

(** [p in s]. *)
Definition contains (p s : string) : bool := contains_chars (chars p) (chars s).

Fixpoint lstrip_chars (f : ascii -> bool) (s : list ascii) : list ascii :=
  match s with
  | c :: s' => if f c then lstrip_chars f s' else s
  | [] => []
  end.

Definition rstrip_chars (f : ascii -> bool) (s : list ascii) : list ascii :=
  rev (lstrip_chars f (rev s)).

(** [s.rstrip('%')]: every trailing percent sign goes, not only one. *)
Definition rstrip_percent (s : string) : string :=
  str (rstrip_chars (Ascii.eqb "%"%char) (chars s)).

(** [s.replace(old, new)] for a non-empty [old]: every occurrence, found
    left to right without overlap.  [skip] counts the characters of a
    match still to be dropped. *)
Fixpoint replace_chars (old new : list ascii) (skip : nat) (s : list ascii)
  : list ascii :=
  match s with
  | [] => []
  | c :: s' =>
      match skip with
      | S k => replace_chars old new k s'
      | O =>
          if starts_with old s
          then new ++ replace_chars old new (List.length old - 1)%nat s'
          else c :: replace_chars old new O s'
      end
  end.

Definition replace (old new s : string) : string :=
  str (replace_chars (chars old) (chars new) O (chars s)).



(** Number of non-overlapping occurrences, [s.count(old)]. *)
Fixpoint count_chars (old : list ascii) (skip : nat) (s : list ascii) : nat :=
  match s with
  | [] => O
  | _ :: s' =>
      match skip with
      | S k => count_chars old k s'
      | O =>
          if starts_with old s
          then S (count_chars old (List.length old - 1)%nat s')
          else count_chars old O s'
      end
  end.

Definition count (old s : string) : nat := count_chars (chars old) O (chars s).

(** [re.sub(',', '', s)]: what [Series.replace(',', '', regex=True)] does to
    a string cell. *)
Definition remove_commas (s : string) : string :=
  str (filter (fun c => negb (Ascii.eqb c ","%char)) (chars s)).

(** *** [float(s)]

    Python's grammar for the argument of [float]: optional surrounding
    white space, an optional sign, then [inf], [infinity] or [nan] in any
    case, or a decimal number with an optional fraction and an optional
    exponent, where single underscores may separate digits. *)

Definition is_space (c : ascii) : bool :=
  let n := code c in
  ((9 <=? n)%nat && (n <=? 13)%nat) || ((28 <=? n)%nat && (n <=? 32)%nat).

Definition is_digit (c : ascii) : bool :=
  (48 <=? code c)%nat && (code c <=? 57)%nat.

Definition digit_val (c : ascii) : Z := Z.of_nat (code c - 48).

(** The digits of [digit (["_"] digit)*] read off the front of [s], and
    what is left.  It is entered on a digit or just after one. *)
Fixpoint digit_run (s : list ascii) : list Z * list ascii :=
  match s with
  | [] => ([], [])
  | c :: s' =>
      if is_digit c then
        let (ds, r) := digit_run s' in (digit_val c :: ds, r)
      else if Ascii.eqb c "_"%char then
        match s' with
        | d :: _ => if is_digit d then digit_run s' else ([], s)
        | [] => ([], s)
        end
      else ([], s)
  end.

Definition digitpart (s : list ascii) : option (list Z * list ascii) :=
  match s with
  | c :: _ => if is_digit c then Some (digit_run s) else None
  | [] => None
  end.

Definition read_sign (s : list ascii) : bool * list ascii :=
  match s with
  | "-"%char :: r => (true, r)
  | "+"%char :: r => (false, r)
  | _ => (false, s)
  end.

Definition digits_value (ds : list Z) : Z :=
  fold_left (fun acc d => 10 * acc + d) ds 0.

(** [m * 10 ^ e] as a float. *)
Definition scale10 (m e : Z) : F64 :=
  match e with
  | Zneg p => Fin (Qred (Qmake m (Pos.pow 10 p)))
  | _ => Fin (inject_Z (m * 10 ^ e))
  end.

(** [("e" | "E") [sign] digitpart], or nothing. *)
Definition read_exponent (s : list ascii) : option (Z * list ascii) :=
  match s with
  | c :: r =>
      if Ascii.eqb c "e"%char || Ascii.eqb c "E"%char then
        let (neg, r1) := read_sign r in
        match digitpart r1 with
        | Some (ds, r2) =>
            Some (if neg then - digits_value ds else digits_value ds, r2)
        | None => None
        end
      else Some (0, s)
  | [] => Some (0, [])
  end.

(** [[digitpart] "." digitpart | digitpart ["."]], then the exponent; the
    whole of [s] has to be used up. *)
Definition read_number (s : list ascii) : option F64 :=
  let finish (ip fp : list Z) (r : list ascii) :=
    match read_exponent r with
    | Some (e, []) =>
        Some (scale10 (digits_value (ip ++ fp)) (e - Z.of_nat (List.length fp)))
    | _ => None
    end in
  match s with
  | "."%char :: r =>
      match digitpart r with
      | Some (fp, r') => finish [] fp r'
      | None => None
      end
  | _ =>
      match digitpart s with
      | Some (ip, "."%char :: r) =>
          match digitpart r with
          | Some (fp, r') => finish ip fp r'
          | None => finish ip [] r
          end
      | Some (ip, r) => finish ip [] r
      | None => None
      end
  end.

Definition fneg (x : F64) : F64 :=
  match x with
  | Fin q => Fin (Qred (- q))
  | PInf => NInf
  | NInf => PInf
  | NaN => NaN
  end.

Definition float_of_chars (s : list ascii) : option F64 :=
  let body := rstrip_chars is_space (lstrip_chars is_space s) in
  let (neg, r) := read_sign body in
  let word := str (map lower_char r) in
  let abs :=
    if String.eqb word "inf" || String.eqb word "infinity" then Some PInf
    else if String.eqb word "nan" then Some NaN
    else read_number r in
  match abs with
  | Some x => Some (if neg then fneg x else x)
  | None => None
  end.

(** [float(s)]; [None] stands for the [ValueError] it raises. *)
Definition float_of_string (s : string) : option F64 :=
  float_of_chars (chars s).

(** *** [s.isalpha()] and [s.upper()], on ASCII text *)

Definition is_lower (c : ascii) : bool :=
  (97 <=? code c)%nat && (code c <=? 122)%nat.

Definition is_alpha (c : ascii) : bool := is_upper c || is_lower c.

Definition upper_char (c : ascii) : ascii :=
  if is_lower c then ascii_of_nat (code c - 32) else c.

(** [s.upper()]. *)
Definition upper (s : string) : string := str (map upper_char (chars s)).

(** [s.isalpha()]: at least one character, and letters only. *)
Definition isalpha (s : string) : bool :=
  match chars s with
  | [] => false
  | cs => forallb is_alpha cs
  end.

(** [s.isascii()]. *)
Definition isascii (s : string) : bool :=
  forallb (fun c => (code c <? 128)%nat) (chars s).

End Py.

(* ===================================================================== *)
(** ** Exceptions *)
(* ===================================================================== *)

Inductive exn : Type :=
| BadMetricError (message : string)
| DataNotFoundExceptionError (message : string)
| KeyError (label : string)
| ValueError (message : string)
| ValidationError (field : string).

Inductive result (A : Type) : Type :=
| Ok (a : A)
| Raise (e : exn).

Arguments Ok {A} a.
Arguments Raise {A} e.

Definition bind {A B : Type} (m : result A) (k : A -> result B) : result B :=
  match m with
  | Ok a => k a
  | Raise e => Raise e
  end.

Notation "x <- m ;; k" := (bind m (fun x => k))
  (at level 61, m at next level, right associativity).

Fixpoint mapM {A B : Type} (f : A -> result B) (l : list A) : result (list B) :=
  match l with
  | [] => Ok []
  | a :: l' =>
      b <- f a ;;
      bs <- mapM f l' ;;
      Ok (b :: bs)
  end.

(* ===================================================================== *)
(** ** Frames *)
(* ===================================================================== *)

Inductive cell : Type :=
| CFloat (x : F64)
| CStr (s : string).

Inductive dtype : Type :=
| float64
| object.

Record Series : Type := mkSeries {
  name : string;
  dtype_of : dtype;
  values : list cell
}.

Definition DataFrame : Type := list Series.

Definition nan : cell := CFloat NaN.

(** [pd.isna] on a cell. *)
Definition isna (c : cell) : bool :=
  match c with
  | CFloat x => is_nan x
  | CStr _ => false
  end.

(** Whether two cells are the same value for hashing purposes (duplicate
    detection, join keys, group keys): floats by value with NaN equal to
    itself, strings by content, a float never equal to a string. *)
Definition cell_same (a b : cell) : bool :=
  match a, b with
  | CFloat x, CFloat y => (is_nan x && is_nan y) || feqb x y
  | CStr s, CStr t => String.eqb s t
  | _, _ => false
  end.

Fixpoint row_same (r1 r2 : list cell) : bool :=
  match r1, r2 with
  | [], [] => true
  | a :: r1', b :: r2' => cell_same a b && row_same r1' r2'
  | _, _ => false
  end.

(** The float in a cell of a float64 column. *)
Definition float_of_cell (c : cell) : F64 :=
  match c with
  | CFloat x => x
  | CStr _ => NaN
  end.

Definition columns (df : DataFrame) : list string := map name df.

Definition has_column (df : DataFrame) (label : string) : bool :=
  existsb (String.eqb label) (columns df).

(** [df[label]]. *)
Definition getitem (df : DataFrame) (label : string) : result Series :=
  match find (fun c => String.eqb (name c) label) df with
  | Some c => Ok c
  | None => Raise (KeyError label)
  end.

Definition nrows (df : DataFrame) : nat :=
  match df with
  | [] => O
  | c :: _ => List.length (values c)
  end.

Definition cell_at (c : Series) (i : nat) : cell := nth i (values c) nan.

Definition with_values (c : Series) (vs : list cell) : Series :=
  mkSeries (name c) (dtype_of c) vs.

Definition map_values (f : cell -> cell) (c : Series) : Series :=
  with_values c (map f (values c)).

(** [df.take(idx)]: the rows at the given positions, in that order. *)
Definition take (idx : list nat) (df : DataFrame) : DataFrame :=
  map (fun c => with_values c (map (cell_at c) idx)) df.

(** [mask.nonzero()]: the positions where a boolean array is true. *)
Fixpoint nonzero_from (i : nat) (mask : list bool) : list nat :=
  match mask with
  | [] => []
  | b :: mask' =>
      if b then i :: nonzero_from (S i) mask' else nonzero_from (S i) mask'
  end.

Definition nonzero (mask : list bool) : list nat := nonzero_from O mask.

(** [df[mask]] for a boolean mask. *)
Definition getitem_mask (df : DataFrame) (mask : list bool) : DataFrame :=
  take (nonzero mask) df.

(** The cells of row [i], in column order. *)
Definition row_values (df : DataFrame) (i : nat) : list cell :=
  map (fun c => cell_at c i) df.

(** A row as a record, from label to cell. *)
Definition record : Type := list (string * cell).

(** Row [i]: what [iterrows] yields and what [to_dict(orient="records")]
    lists. *)
Definition row (df : DataFrame) (i : nat) : record :=
  map (fun c => (name c, cell_at c i)) df.

Definition positions (df : DataFrame) : list nat := seq O (nrows df).

Definition to_records (df : DataFrame) : list record :=
  map (row df) (positions df).

(** [row[label]] on a record. *)
Definition record_get (r : record) (label : string) : result cell :=
  match find (fun kv => String.eqb (fst kv) label) r with
  | Some kv => Ok (snd kv)
  | None => Raise (KeyError label)
  end.

(** [df.head(n)], that is [df.iloc[:n]]: a negative [n] counts from the
    end. *)
Definition slice_stop (len : nat) (n : Z) : nat :=
  if 0 <=? n then Z.to_nat n else (len - Z.to_nat (- n))%nat.

Definition head (n : Z) (df : DataFrame) : DataFrame :=
  map (fun c => with_values c (firstn (slice_stop (List.length (values c)) n) (values c))) df.

Definition dtype_eqb (a b : dtype) : bool :=
  match a, b with
  | float64, float64 | object, object => true
  | _, _ => false
  end.

(** [df.select_dtypes(include=[d]).columns]. *)
Definition select_dtypes (d : dtype) (df : DataFrame) : list string :=
  columns (filter (fun c => dtype_eqb (dtype_of c) d) df).

Definition mem (label : string) (labels : list string) : bool :=
  existsb (String.eqb label) labels.

Definition fillna_cell (v : cell) (c : cell) : cell :=
  if isna c then v else c.

(** [df[labels] = df[labels].fillna(v)]. *)
Definition fillna_in (labels : list string) (v : cell) (df : DataFrame)
  : DataFrame :=
  map (fun c => if mem (name c) labels then map_values (fillna_cell v) c else c) df.

(** Whether row [i] has a missing cell in one of the columns [labels]. *)
Definition row_has_na (labels : list string) (df : DataFrame) (i : nat) : bool :=
  existsb (fun c => mem (name c) labels &&
                    match nth_error (values c) i with
                    | Some x => isna x
                    | None => false
                    end) df.

(** [df[labels] = df[labels].dropna()]: [dropna] removes the rows with a
    missing cell in one of the selected columns, and the assignment aligns
    on the row index, so a removed row comes back with NaN in those
    columns. *)
Definition dropna_in (labels : list string) (df : DataFrame) : DataFrame :=
  map (fun c =>
         if mem (name c) labels
         then with_values c
                (map (fun ix => if row_has_na labels df (fst ix) then nan else snd ix)
                     (combine (seq O (List.length (values c))) (values c)))
         else c) df.

(** [~df.duplicated()] with [keep='first'], as the positions to keep: a
    row goes when an earlier row has the same cells. *)
Fixpoint first_seen (seen : list (list cell)) (i : nat) (rows : list (list cell))
  : list nat :=
  match rows with
  | [] => []
  | r :: rows' =>
      if existsb (row_same r) seen
      then first_seen seen (S i) rows'
      else i :: first_seen (r :: seen) (S i) rows'
  end.

(** [df.drop_duplicates()]. *)
Definition drop_duplicates (df : DataFrame) : DataFrame :=
  take (first_seen [] O (map (row_values df) (positions df))) df.

(* ===================================================================== *)
(** ** [util/data_cleaner.py] *)
(* ===================================================================== *)

Module DataCleaner.

Record t : Type := mk {
  data : DataFrame;
  percentage_columns : list string
}.

Definition set_data (self : t) (df : DataFrame) : t :=
  mk df (percentage_columns self).

Definition __init__ (data : DataFrame) : t :=
  mk data
     (filter (fun col => Py.contains "percent" (Py.lower col)) (columns data)).

(** [self.data = self.data.iloc[1:]], then the index is renumbered. *)
Definition _remove_metadata_row (self : t) : t :=
  set_data self (map (fun c => with_values c (tl (values c))) (data self)).

(** What [float] raises on text it cannot read. *)
Definition could_not_convert (s : string) : exn :=
  ValueError ("could not convert string to float: '" ++ s ++ "'").

(** One cell of [col.astype(str).str.rstrip('%').astype('float') / 100].
    A float cell goes through its own [repr], which [float] reads back to
    the same float; [float] raises [ValueError] on any other text. *)
Definition percent_cell (c : cell) : result cell :=
  match c with
  | CFloat x => Ok (CFloat (fdiv x hundred))
  | CStr s =>
      match Py.float_of_string (Py.rstrip_percent s) with
      | Some x => Ok (CFloat (fdiv x hundred))
      | None => Raise (could_not_convert (Py.rstrip_percent s))
      end
  end.

(** [df.loc[:, col] = vs]: the cells of every column labelled [col]. *)
Definition assign (col : string) (vs : list cell) (df : DataFrame) : DataFrame :=
  map (fun c => if String.eqb (name c) col then with_values c vs else c) df.

Definition convert_percentage_column (df : DataFrame) (col : string)
  : result DataFrame :=
  c <- getitem df col ;;
  vs <- mapM percent_cell (values c) ;;
  Ok (assign col vs df).

Fixpoint convert_percentage_loop (cols : list string) (df : DataFrame)
  : result DataFrame :=
  match cols with
  | [] => Ok df
  | col :: cols' =>
      df' <- convert_percentage_column df col ;;
      convert_percentage_loop cols' df'
  end.

Definition _convert_percentages (self : t) : result t :=
  df <- convert_percentage_loop (percentage_columns self) (data self) ;;
  Ok (set_data self (fillna_in (percentage_columns self) (CFloat zero) df)).

(** [col.replace(',', '', regex=True)]: string cells lose their commas. *)
Definition replace_commas (c : cell) : cell :=
  match c with
  | CStr s => CStr (Py.remove_commas s)
  | CFloat _ => c
  end.

(** One cell of [astype(float)]. *)
Definition float_cell (c : cell) : result cell :=
  match c with
  | CFloat _ => Ok c
  | CStr s =>
      match Py.float_of_string s with
      | Some x => Ok (CFloat x)
      | None => Raise (could_not_convert s)
      end
  end.

Definition astype_float (col : Series) : result Series :=
  vs <- mapM float_cell (values col) ;;
  Ok (mkSeries (name col) float64 vs).

(** The [try] with its bare [except]. *)
Definition _convert_to_numerical (col : Series) : Series :=
  match astype_float (map_values replace_commas col) with
  | Ok converted => converted
  | Raise _ => col
  end.

(** [self.data.apply(self._convert_to_numerical)]: column by column. *)
Definition _convert_columns_to_numerical (self : t) : t :=
  set_data self (map _convert_to_numerical (data self)).

Definition _fill_missing_values (self : t) : t :=
  let numerical_columns := select_dtypes float64 (data self) in
  let df1 := fillna_in numerical_columns (CFloat zero) (data self) in
  let df2 := dropna_in numerical_columns df1 in
  let categorical_columns := select_dtypes object df2 in
  set_data self (fillna_in categorical_columns (CStr "Unknown") df2).

Definition _remove_duplicates (self : t) : t :=
  set_data self (drop_duplicates (data self)).

Definition clean_data (self : t) : result DataFrame :=
  let self1 := _remove_metadata_row self in
  self2 <- _convert_percentages self1 ;;
  let self3 := _convert_columns_to_numerical self2 in
  let self4 := _fill_missing_values self3 in
  let self5 := _remove_duplicates self4 in
  Ok (data self5).

End DataCleaner.

(* ===================================================================== *)
(** ** [models/power_plant.py]: the result models *)
(* ===================================================================== *)

Record TopPowerPlant : Type := mkTopPowerPlant {
  tp_name : string;
  tp_state : string;
  tp_metric : string;
  tp_metric_value : F64
}.

Definition TopPowerPlantList : Type := list TopPowerPlant.

Record StateSummaryItem : Type := mkStateSummaryItem {
  plant_state_abbreviation : string;
  metric : string;
  absolute_value : F64;
  percentage : F64
}.

Definition StateSummary : Type := list StateSummaryItem.

Definition DataFrameModel : Type := list record.

(** pydantic's validation of a [str] field: a string passes, a number is
    refused. *)
Definition validate_str (field : string) (c : cell) : result string :=
  match c with
  | CStr s => Ok s
  | CFloat _ => Raise (ValidationError field)
  end.

(** pydantic's validation of a [float] field on a cell of a float64 column. *)
Definition validate_float (field : string) (c : cell) : result F64 :=
  match c with
  | CFloat x => Ok x
  | CStr _ => Raise (ValidationError field)
  end.

(* ===================================================================== *)
(** ** Sorting helpers *)
(* ===================================================================== *)

Section Insertion.
Context {A : Type} (leb : A -> A -> bool).

Fixpoint insert_sorted (x : A) (l : list A) : list A :=
  match l with
  | [] => [x]
  | y :: l' => if leb x y then x :: l else y :: insert_sorted x l'
  end.

Definition insertion_sort (l : list A) : list A :=
  fold_right insert_sorted [] l.
End Insertion.

(** The order [sort_values(ascending=False)] puts keys in: [x] may come
    before [y] when [y] is NaN, or neither is and [y <= x]. *)
Definition desc_before (x y : F64) : bool :=
  is_nan y || (negb (is_nan x) && fleb y x).

(** Two index computations that sort in that order.  The first keeps rows
    with equal keys in their original order, the second reverses them. *)
Definition key_before (strict : bool) (a b : F64 * nat) : bool :=
  if strict
  then negb (desc_before (fst b) (fst a))
  else desc_before (fst a) (fst b).

Definition argsort_by (strict : bool) (keys : list F64) : list nat :=
  map snd (insertion_sort (key_before strict)
                          (combine keys (seq O (List.length keys)))).

Definition argsort_desc_stable : list F64 -> list nat := argsort_by false.

(** The order in which group keys come out of [groupby]: numbers before
    strings, numbers by value, strings by code point. *)
Definition key_leb (a b : cell) : bool :=
  match a, b with
  | CFloat x, CFloat y => fleb x y
  | CFloat _, CStr _ => true
  | CStr _, CFloat _ => false
  | CStr s, CStr t => String.leb s t
  end.

(** The distinct keys of a column in order of first appearance; a missing
    key forms no group ([dropna=True]). *)
Fixpoint unique_keys (seen : list cell) (ks : list cell) : list cell :=
  match ks with
  | [] => []
  | k :: ks' =>
      if isna k || existsb (cell_same k) seen
      then unique_keys seen ks'
      else k :: unique_keys (k :: seen) ks'
  end.

(* ===================================================================== *)
(** ** [services/data_handler.py] *)
(* ===================================================================== *)

Module PowerPlantDataHandler.

Record t : Type := mk {
  plant_data : DataFrame;
  state_data : DataFrame
}.

Definition __init__ (plant_data state_data : DataFrame) : result t :=
  p <- DataCleaner.clean_data (DataCleaner.__init__ plant_data) ;;
  s <- DataCleaner.clean_data (DataCleaner.__init__ state_data) ;;
  Ok (mk p s).

Definition is_numeric_dtype (c : Series) : bool :=
  dtype_eqb (dtype_of c) float64.

(** [df.sort_values(by=label, ascending=False)] with the index
    computation [argsort_desc] of the sort kind in use.  The call names no
    [kind], so pandas takes its default, 'quicksort'; its documentation lists
    'mergesort' and 'stable' as the only stable kinds.  NaN keys go last
    ([na_position='last']). *)
Definition sort_values (argsort_desc : list F64 -> list nat)
           (by_ : string) (df : DataFrame) : result DataFrame :=
  c <- getitem df by_ ;;
  Ok (take (argsort_desc (map float_of_cell (values c))) df).

Definition top_power_plant (metric : string) (r : record) : result TopPowerPlant :=
  n <- record_get r "Plant name" ;;
  name <- validate_str "name" n ;;
  s <- record_get r "Plant state abbreviation" ;;
  state <- validate_str "state" s ;;
  v <- record_get r metric ;;
  value <- validate_float "metric_value" v ;;
  Ok (mkTopPowerPlant name state metric value).

Definition get_top_n_plants (argsort_desc : list F64 -> list nat)
           (self : t) (top_number : Z) (metric : string)
  : result TopPowerPlantList :=
  if negb (has_column (plant_data self) metric) then
    Raise (BadMetricError
             ("The specified metric '" ++ metric ++ "' does not exist."))
  else
    c <- getitem (plant_data self) metric ;;
    top_n_plants <-
      (if is_numeric_dtype c then
         sorted <- sort_values argsort_desc metric (plant_data self) ;;
         Ok (head top_number sorted)
       else
         Raise (BadMetricError
                  ("The specified metric '" ++ metric
                   ++ "' is not numerical and cannot be used for sorting. "
                   ++ "Please choose a numerical column."))) ;;
    mapM (top_power_plant metric) (to_records top_n_plants).

(** The two indexers of a left join: for each left row in order, the
    right rows with the same key in order, or no right row. *)
Definition matches (rkeys : list cell) (k : cell) : list nat :=
  nonzero (map (cell_same k) rkeys).

Definition join_row (rkeys : list cell) (ik : nat * cell)
  : list (nat * option nat) :=
  match matches rkeys (snd ik) with
  | [] => [(fst ik, None)]
  | js => map (fun j => (fst ik, Some j)) js
  end.

Definition left_join (lkeys rkeys : list cell) : list (nat * option nat) :=
  flat_map (join_row rkeys) (combine (seq O (List.length lkeys)) lkeys).

Definition take_opt (idx : list (option nat)) (df : DataFrame) : DataFrame :=
  map (fun c =>
         with_values c
           (map (fun o => match o with
                          | Some j => cell_at c j
                          | None => nan
                          end) idx)) df.

Definition is_str (c : cell) : bool :=
  match c with CStr _ => true | CFloat _ => false end.

(** The values of an object column that pandas infers to be text: some cell
    is a string, or there is no cell at all. *)
Definition inferred_text (vs : list cell) : bool :=
  existsb is_str vs || match vs with [] => true | _ :: _ => false end.

(** pandas refuses to join a float64 key column with an object one that it
    infers to be text. *)
Definition keys_clash (lk rk : Series) : bool :=
  match dtype_of lk, dtype_of rk with
  | float64, object => inferred_text (values rk)
  | object, float64 => inferred_text (values lk)
  | _, _ => false
  end.

(** [left.merge(right, how='left', left_on=..., right_on=...)]: the columns
    of [left] and then those of [right], row by row of the join.  A label
    that both frames carry outside the keys comes out with a suffix, so it is
    no longer found under its own name; the caller reads [state_metric] from
    the result, which is the one label of [right] this can happen to, and
    checks for it after the call. *)
Definition merge (left right : DataFrame) (left_on right_on : string)
  : result DataFrame :=
  rk <- getitem right right_on ;;
  lk <- getitem left left_on ;;
  if keys_clash lk rk then
    Raise (ValueError "You are trying to merge on columns of different types")
  else
    let ix := left_join (values lk) (values rk) in
    Ok (take (map fst ix) left ++ take_opt (map snd ix) right)%list.

Definition percentage_cell (p s : cell) : cell :=
  CFloat (fmul (fdiv (float_of_cell p) (float_of_cell s)) hundred).

Definition cells_at (vs : list cell) (idx : list nat) : list F64 :=
  map (fun i => float_of_cell (nth i vs nan)) idx.

(** One group of [groupby(key).agg({plant_metric: 'sum', 'percentage':
    'sum'})], as the record [to_dict] makes of it after the renaming. *)
Definition summary_record (plant_metric : string)
           (keys values percentages : list cell) (k : cell)
  : result StateSummaryItem :=
  let rows := nonzero (map (cell_same k) keys) in
  abbreviation <- validate_str "plant_state_abbreviation" k ;;
  Ok (mkStateSummaryItem abbreviation plant_metric
        (nansum (cells_at values rows))
        (nansum (cells_at percentages rows))).

Definition get_plant_metric_summary_by_state (self : t) (plant_metric : string)
  : result StateSummary :=
  let state_metric := Py.replace "Plant" "State" plant_metric in
  if negb (has_column (plant_data self) plant_metric) then
    Raise (BadMetricError
             ("The specified plant metric '" ++ plant_metric
              ++ "' does not exist."))
  else if negb (has_column (state_data self) state_metric) then
    Raise (BadMetricError
             ("The specified state metric '" ++ state_metric
              ++ "' does not exist."))
  else
    pc <- getitem (plant_data self) plant_metric ;;
    sc <- getitem (state_data self) state_metric ;;
    if negb (is_numeric_dtype pc) then
      Raise (BadMetricError
               ("The specified plant metric '" ++ plant_metric
                ++ "' is not numerical and cannot be used for this summary. "
                ++ "Please choose a numerical column."))
    else if negb (is_numeric_dtype sc) then
      Raise (BadMetricError
               ("Sorry. We do not have state level numerical data for this metric "
                ++ plant_metric ++ "."))
    else
      abbreviations <- getitem (state_data self) "State abbreviation" ;;
      if String.eqb state_metric "State abbreviation" then
        Raise (ValueError "The column label 'State abbreviation' is not unique.")
      else
        merged_data <-
          merge (plant_data self) [abbreviations; sc]
                "Plant state abbreviation" "State abbreviation" ;;
        if has_column (plant_data self) state_metric then
          Raise (KeyError state_metric)
        else
          p <- getitem merged_data plant_metric ;;
          s <- getitem merged_data state_metric ;;
          let percentages :=
            map (fun ps => percentage_cell (fst ps) (snd ps))
                (combine (values p) (values s)) in
          k <- getitem merged_data "Plant state abbreviation" ;;
          if String.eqb plant_metric "Plant state abbreviation" then
            Raise (ValueError
                     "cannot insert Plant state abbreviation, already exists")
          else
            mapM (summary_record plant_metric (values k) (values p) percentages)
                 (insertion_sort key_leb (unique_keys [] (values k))).

Definition get_data_by_state (self : t) (state : string) : result DataFrameModel :=
  c <- getitem (plant_data self) "Plant state abbreviation" ;;
  let mask := map (cell_same (CStr state)) (values c) in
  if negb (existsb (fun b => b) mask) then
    Raise (DataNotFoundExceptionError
             ("No data found for the state '" ++ state ++ "'"))
  else
    Ok (to_records (getitem_mask (plant_data self) mask)).

End PowerPlantDataHandler.

(* ===================================================================== *)
(** ** [models/power_plant.py]: the request models *)
(* ===================================================================== *)

(** The arguments are taken to have the type of their field already: an
    integer for [top_number], a string for [metric] and [state].  pydantic
    reports a constraint that fails, and a [ValueError] that a field
    validator raises, as a [ValidationError] on the field. *)
Definition field_validator {A : Type} (field : string) (r : result A) : result A :=
  match r with
  | Ok a => Ok a
  | Raise _ => Raise (ValidationError field)
  end.

Module TopPlantsRequest.

Record t : Type := mk {
  top_number : Z;
  metric : string
}.

Definition default_metric : string := "Plant annual net generation (MWh)".

Definition validate_number (value : Z) : result Z :=
  if value <=? 0 then Raise (ValueError "top_number must be greater than 0")
  else Ok value.

(** [TopPlantsRequest(top_number=..., metric=...)]: the constraint [gt=0] of
    the field, then its validator; [metric] may be left out. *)
Definition new (top_number : Z) (metric : option string) : result t :=
  if 0 <? top_number then
    n <- field_validator "top_number" (validate_number top_number) ;;
    Ok (mk n (match metric with
              | Some m => m
              | None => default_metric
              end))
  else Raise (ValidationError "top_number").

End TopPlantsRequest.

Module StateFilterRequest.

Record t : Type := mk {
  state : string
}.

Definition validate_state (value : string) : result string :=
  if negb (Py.isalpha value) then
    Raise (ValueError "State must contain only alphabetic characters")
  else Ok (Py.upper value).

(** [StateFilterRequest(state=...)]: [min_length=2] and [max_length=2], then
    the validator. *)
Definition new (state : string) : result t :=
  if (2 <=? String.length state)%nat && (String.length state <=? 2)%nat then
    s <- field_validator "state" (validate_state state) ;;
    Ok (mk s)
  else Raise (ValidationError "state").

End StateFilterRequest.

Module StatesInfoRequest.

Record t : Type := mk {
  metric : string
}.

Definition new (metric : string) : result t := Ok (mk metric).

End StatesInfoRequest.

(* ===================================================================== *)
(** ** [main.py]: the endpoints *)
(* ===================================================================== *)

(** The three query endpoints, as functions of the request object they are
    handed and of the handler that [load_data] has built. *)
Module Main.

Definition get_top_n_plants (argsort_desc : list F64 -> list nat)
           (data_handler : PowerPlantDataHandler.t) (request : TopPlantsRequest.t)
  : result TopPowerPlantList :=
  PowerPlantDataHandler.get_top_n_plants
    argsort_desc data_handler
    (TopPlantsRequest.top_number request) (TopPlantsRequest.metric request).

Definition get_states_info (data_handler : PowerPlantDataHandler.t)
           (request : StatesInfoRequest.t) : result StateSummary :=
  PowerPlantDataHandler.get_plant_metric_summary_by_state
    data_handler (StatesInfoRequest.metric request).

Definition get_plants_by_state (data_handler : PowerPlantDataHandler.t)
           (request : StateFilterRequest.t) : result DataFrameModel :=
  PowerPlantDataHandler.get_data_by_state
    data_handler (StateFilterRequest.state request).

End Main.

(* ===================================================================== *)
(** ** Well-formed frames *)
(* ===================================================================== *)

(** What pandas guarantees of any frame: the columns have one length, and a
    float64 column holds floats only.  The labels of the frames at hand are
    pairwise distinct. *)

Definition rectangular (df : DataFrame) : bool :=
  forallb (fun c => Nat.eqb (List.length (values c)) (nrows df)) df.

Definition is_float (c : cell) : bool :=
  match c with CFloat _ => true | CStr _ => false end.

Definition well_typed_column (c : Series) : bool :=
  match dtype_of c with
  | float64 => forallb is_float (values c)
  | object => true
  end.

Definition well_typed (df : DataFrame) : bool := forallb well_typed_column df.

Fixpoint distinct (labels : list string) : bool :=
  match labels with
  | [] => true
  | l :: labels' => negb (mem l labels') && distinct labels'
  end.

Definition wf_frame (df : DataFrame) : bool :=
  distinct (columns df) && rectangular df && well_typed df.

(** A column of the frame with the given label and dtype. *)
Definition column_is (df : DataFrame) (label : string) (d : dtype) : bool :=
  match getitem df label with
  | Ok c => dtype_eqb (dtype_of c) d
  | Raise _ => false
  end.

(** A column of text: present, and every cell a string. *)
Definition text_column (df : DataFrame) (label : string) : bool :=
  match getitem df label with
  | Ok c => forallb PowerPlantDataHandler.is_str (values c)
  | Raise _ => false
  end.

(** The plant table as the handler reads it: a name and a state
    abbreviation, both text, on every row. *)
Definition plant_table (df : DataFrame) : bool :=
  wf_frame df && text_column df "Plant name"
  && text_column df "Plant state abbreviation".

Local Open Scope nat_scope.

(* ===================================================================== *)
(** ** Reference definitions used in the statements *)
(* ===================================================================== *)

(** *** The numeric conversion step *)

(** Whether [astype(float)] accepts a cell once the commas are out. *)
Definition convertible (c : cell) : bool :=
  match c with
  | CFloat _ => true
  | CStr s =>
      match Py.float_of_string (Py.remove_commas s) with
      | Some _ => true
      | None => false
      end
  end.

(** The float a convertible cell becomes. *)
Definition converted (c : cell) : cell :=
  match c with
  | CFloat _ => c
  | CStr s =>
      match Py.float_of_string (Py.remove_commas s) with
      | Some x => CFloat x
      | None => c
      end
  end.

(** *** Filling and de-duplicating *)

(** One pass of the last two cleaning steps. *)
Definition fill_and_dedup (self : DataCleaner.t) : DataCleaner.t :=
  DataCleaner._remove_duplicates (DataCleaner._fill_missing_values self).

(** Name, dtype and length of every column. *)
Definition shape (df : DataFrame) : list (string * dtype * nat) :=
  map (fun c => (name c, dtype_of c, List.length (values c))) df.

(** No cell of the frame, or of the column, is missing. *)
Definition no_na (df : DataFrame) : Prop :=
  forall c, In c df -> forall x, In x (values c) -> isna x = false.

Definition col_no_na (c : Series) : Prop :=
  forall x, In x (values c) -> isna x = false.

(** The rows [first_seen] keeps. *)
Fixpoint kept_rows (seen rows : list (list cell)) : list (list cell) :=
  match rows with
  | [] => []
  | r :: rows' =>
      if existsb (row_same r) seen
      then kept_rows seen rows'
      else r :: kept_rows (r :: seen) rows'
  end.

(** Names and lengths of the columns. *)
Definition dims (df : DataFrame) : list (string * nat) :=
  map (fun c => (name c, List.length (values c))) df.

(** *** The percentage step *)

(** A percentage column: its label has "percent" in it, in any case. *)
Definition is_percentage (label : string) : bool :=
  Py.contains "percent" (Py.lower label).

(** A cell the percentage step can read: a float (a missing cell is one), or
    text that [float] accepts once the trailing percent signs are off. *)
Definition percent_ok (c : cell) : bool :=
  match c with
  | CFloat _ => true
  | CStr s =>
      match Py.float_of_string (Py.rstrip_percent s) with
      | Some _ => true
      | None => false
      end
  end.

(** What the step leaves in such a cell: the number over 100, and [0.0] for
    a missing one. *)
Definition percent_of (x : F64) : cell :=
  if is_nan x then CFloat zero else CFloat (fdiv x hundred).

Definition percent_value (c : cell) : cell :=
  match c with
  | CFloat x => percent_of x
  | CStr s =>
      match Py.float_of_string (Py.rstrip_percent s) with
      | Some x => percent_of x
      | None => c
      end
  end.

(** Every percentage column of the frame is readable. *)
Definition percentages_ok (df : DataFrame) : bool :=
  forallb (fun c => negb (is_percentage (name c)) || forallb percent_ok (values c)) df.

(** The frame a cleaner holds. *)
Definition table_of (self : DataCleaner.t) : DataFrame := DataCleaner.data self.

(** The raw cell the loop leaves, before the fill. *)
Definition percent_raw (c : cell) : cell :=
  match DataCleaner.percent_cell c with
  | Ok v => v
  | Raise _ => c
  end.

(** The frame after the loop has run over the labels [cols]. *)
Definition loop_result (cols : list string) (df : DataFrame) : DataFrame :=
  map (fun c => if mem (name c) cols then map_values percent_raw c else c) df.

(** Every column the loop visits is readable. *)
Definition loop_ok (cols : list string) (df : DataFrame) : bool :=
  forallb (fun c => negb (mem (name c) cols) || forallb percent_ok (values c)) df.

(** The value a missing cell takes in a column of the given dtype. *)
Definition fill_value (d : dtype) : cell :=
  match d with
  | float64 => CFloat zero
  | object => CStr "Unknown"
  end.

(** *** Sorting and [get_top_n_plants] *)

(** What [sort_values(ascending=False)] promises of its index computation,
    whatever the sort kind: the positions come back permuted, with their keys
    in descending order and the missing ones last. *)
Definition sorts_descending (argsort_desc : list F64 -> list nat) : Prop :=
  forall keys : list F64,
    Permutation (argsort_desc keys) (seq 0 (List.length keys))
    /\ StronglySorted
         (fun i j => desc_before (nth i keys NaN) (nth j keys NaN) = true)
         (argsort_desc keys).

(** The text, or the float, of the cell in row [i] of the column labelled
    [label]. *)
Definition cell_of (df : DataFrame) (label : string) (i : nat) : cell :=
  match getitem df label with
  | Ok c => cell_at c i
  | Raise _ => nan
  end.

Definition text_at (df : DataFrame) (label : string) (i : nat) : string :=
  match cell_of df label i with
  | CStr s => s
  | CFloat _ => ""
  end.

Definition float_at (df : DataFrame) (label : string) (i : nat) : F64 :=
  float_of_cell (cell_of df label i).

(** The entry [get_top_n_plants] makes of row [i]. *)
Definition plant_entry (df : DataFrame) (metric : string) (i : nat) : TopPowerPlant :=
  mkTopPowerPlant (text_at df "Plant name" i)
                  (text_at df "Plant state abbreviation" i)
                  metric
                  (float_at df metric i).

(** The sort keys: the floats of the metric column, in row order. *)
Definition metric_keys (df : DataFrame) (metric : string) : list F64 :=
  map (float_at df metric) (positions df).

(** The rows [get_top_n_plants] returns: the first ones of the sorted
    positions, as far as the slice goes. *)
Definition top_positions (argsort_desc : list F64 -> list nat) (df : DataFrame)
           (top_number : Z) (metric : string) : list nat :=
  firstn (slice_stop (nrows df) top_number) (argsort_desc (metric_keys df metric)).

(** The two messages of [BadMetricError]. *)
Definition msg_absent (metric : string) : string :=
  "The specified metric '" ++ metric ++ "' does not exist.".

Definition msg_not_numerical (metric : string) : string :=
  "The specified metric '" ++ metric
  ++ "' is not numerical and cannot be used for sorting. "
  ++ "Please choose a numerical column.".

(** Descending order of the metric, on positions and on entries. *)
Definition rows_descending (df : DataFrame) (metric : string) (idx : list nat) : Prop :=
  StronglySorted
    (fun i j => desc_before (float_at df metric i) (float_at df metric j) = true)
    idx.


(** *** [get_data_by_state] *)

(** Whether the state abbreviation of row [i] is exactly [state]. *)
Definition in_state (df : DataFrame) (state : string) (i : nat) : bool :=
  match cell_of df "Plant state abbreviation" i with
  | CStr s => String.eqb s state
  | CFloat _ => false
  end.

(** The message of [DataNotFoundExceptionError]. *)
Definition msg_no_data (state : string) : string :=
  "No data found for the state '" ++ state ++ "'".

(** *** [get_plant_metric_summary_by_state] *)

(** The message for a state metric that is no column. *)
Definition msg_no_state_metric (state_metric : string) : string :=
  "The specified state metric '" ++ state_metric ++ "' does not exist.".

(** No two cells of the list are the same key. *)
Fixpoint unique_cells (l : list cell) : bool :=
  match l with
  | [] => true
  | x :: l' => negb (existsb (cell_same x) l') && unique_cells l'
  end.

(** The row of the right table a key is joined to. *)
Definition first_match (rkeys : list cell) (k : cell) : option nat :=
  hd_error (PowerPlantDataHandler.matches rkeys k).

(** The positions of the plant rows of a state, in table order. *)
Definition state_rows (df : DataFrame) (state : string) : list nat :=
  filter (in_state df state) (positions df).

(** The abbreviations of the state table, in row order. *)
Definition state_keys (sdf : DataFrame) : list cell :=
  map (cell_of sdf "State abbreviation") (positions sdf).

(** The state metric of the state: the cell of the first row of the state
    table with that abbreviation, NaN when the table has none. *)
Definition state_total (sdf : DataFrame) (state_metric state : string) : F64 :=
  match filter (fun j => cell_same (CStr state) (cell_of sdf "State abbreviation" j))
               (positions sdf) with
  | j :: _ => float_at sdf state_metric j
  | [] => NaN
  end.

(** One plant's share of its state's total, in percent. *)
Definition plant_share (x total : F64) : F64 := fmul (fdiv x total) hundred.

(** The summary entry of a state: the sum of the plant metric over the
    state's plants, and the sum of their shares. *)
Definition summary_item (self : PowerPlantDataHandler.t) (plant_metric state : string)
  : StateSummaryItem :=
  let pdf := PowerPlantDataHandler.plant_data self in
  let sdf := PowerPlantDataHandler.state_data self in
  let state_metric := Py.replace "Plant" "State" plant_metric in
  mkStateSummaryItem
    state plant_metric
    (nansum (map (float_at pdf plant_metric) (state_rows pdf state)))
    (nansum (map (fun i => plant_share (float_at pdf plant_metric i)
                                       (state_total sdf state_metric state))
                 (state_rows pdf state))).

(** The text of a key. *)
Definition key_text (k : cell) : string :=
  match k with
  | CStr s => s
  | CFloat _ => ""
  end.

(** *** Duplicate rows *)

(** Row [i] is the first of its kind: no earlier row has the same cells. *)
Definition first_occurrence (df : DataFrame) (i : nat) : Prop :=
  i < nrows df
  /\ forall j, j < i -> row_same (row_values df i) (row_values df j) = false.

(** No row of the frame repeats an earlier one. *)
Definition no_duplicate_rows (df : DataFrame) : Prop :=
  forall i j, j < i -> i < nrows df ->
              row_same (row_values df i) (row_values df j) = false.

(** *** The whole pipeline *)

(** What is under the first row of a sheet. *)
Definition below_header (df : DataFrame) : list (string * dtype * list cell) :=
  map (fun c => (name c, dtype_of c, tl (values c))) df.

(** The table before the duplicates go: the first row off, the percentage
    columns read, the columns that read as numbers converted, the missing
    cells filled by dtype. *)
Definition cleaned_with_duplicates (df : DataFrame) : DataFrame :=
  let df1 := map (fun c => with_values c (tl (values c))) df in
  let df2 := map (fun c => if is_percentage (name c)
                           then map_values percent_value c else c) df1 in
  let df3 := map DataCleaner._convert_to_numerical df2 in
  map (fun c => map_values (fillna_cell (fill_value (dtype_of c))) c) df3.

(** *** More of [get_plant_metric_summary_by_state] *)

(** The other three messages of its [BadMetricError]. *)
Definition msg_no_plant_metric (plant_metric : string) : string :=
  "The specified plant metric '" ++ plant_metric ++ "' does not exist.".

Definition msg_plant_not_numerical (plant_metric : string) : string :=
  "The specified plant metric '" ++ plant_metric
  ++ "' is not numerical and cannot be used for this summary. "
  ++ "Please choose a numerical column.".

Definition msg_state_not_numerical (plant_metric : string) : string :=
  "Sorry. We do not have state level numerical data for this metric "
  ++ plant_metric ++ ".".

(** Strings in strictly ascending order, by code point. *)
Definition strictly_ascending (l : list string) : Prop :=
  StronglySorted (fun a b => String.ltb a b = true) l.

(** The float under a label of a record, NaN when there is none. *)
Definition record_float (label : string) (r : record) : F64 :=
  match record_get r label with
  | Ok c => float_of_cell c
  | Raise _ => NaN
  end.

(** *** The request models *)

(** Exactly two ASCII letters. *)
Definition two_letters (s : string) : bool :=
  match Py.chars s with
  | [a; b] => Py.is_alpha a && Py.is_alpha b
  | _ => false
  end.

(* ===================================================================== *)
(** ** Worked tables *)
(* ===================================================================== *)

Definition generation : string := "Plant annual net generation (MWh)".

(** A plant sheet with its metadata row, comma-formatted numbers, a
    percentage column with a missing cell, and a repeated row. *)
Definition raw_plants : DataFrame :=
  [ mkSeries "Plant name" object
      [CStr "PNAME"; CStr "Plant A"; CStr "Plant B"; CStr "Plant C"; CStr "Plant A"];
    mkSeries "Plant state abbreviation" object
      [CStr "PSTATABB"; CStr "CA"; CStr "NY"; CStr "CA"; CStr "CA"];
    mkSeries generation object
      [CStr "PLNGENAN"; CStr "1,000"; CStr "2,000"; CFloat (of_Z 500); CStr "1,000"];
    mkSeries "Plant coal generation percent" object
      [CStr "PLCLPR"; CStr "10%"; nan; CStr "5.5%"; CStr "10%"] ].

(** The state sheet that goes with it. *)
Definition raw_states : DataFrame :=
  [ mkSeries "State name" object
      [CStr "STNAME"; CStr "California"; CStr "New York"];
    mkSeries "State abbreviation" object
      [CStr "PSTATABB"; CStr "CA"; CStr "NY"];
    mkSeries "State annual net generation (MWh)" object
      [CStr "STNGENAN"; CStr "10,000"; CStr "20,000"] ].

(** What [clean_data] makes of the two sheets. *)
Definition cleaned_plants : DataFrame :=
  [ mkSeries "Plant name" object [CStr "Plant A"; CStr "Plant B"; CStr "Plant C"];
    mkSeries "Plant state abbreviation" object [CStr "CA"; CStr "NY"; CStr "CA"];
    mkSeries generation float64
      [CFloat (of_Z 1000); CFloat (of_Z 2000); CFloat (of_Z 500)];
    mkSeries "Plant coal generation percent" float64
      [CFloat (Fin (1 # 10)); CFloat zero; CFloat (Fin (11 # 200))] ].

Definition cleaned_states : DataFrame :=
  [ mkSeries "State name" object [CStr "California"; CStr "New York"];
    mkSeries "State abbreviation" object [CStr "CA"; CStr "NY"];
    mkSeries "State annual net generation (MWh)" float64
      [CFloat (of_Z 10000); CFloat (of_Z 20000)] ].

Definition example_handler : PowerPlantDataHandler.t :=
  PowerPlantDataHandler.mk cleaned_plants cleaned_states.

(** A state sheet that lists California twice. *)
Definition raw_states_twice : DataFrame :=
  [ mkSeries "State name" object
      [CStr "STNAME"; CStr "California"; CStr "California (revised)"; CStr "New York"];
    mkSeries "State abbreviation" object
      [CStr "PSTATABB"; CStr "CA"; CStr "CA"; CStr "NY"];
    mkSeries "State annual net generation (MWh)" object
      [CStr "STNGENAN"; CStr "10,000"; CStr "20,000"; CStr "20,000"] ].

(** Sheets that share the label of a numeric column. *)
Definition raw_plants_year : DataFrame :=
  [ mkSeries "Plant name" object [CStr "PNAME"; CStr "Plant A"];
    mkSeries "Plant state abbreviation" object [CStr "PSTATABB"; CStr "CA"];
    mkSeries "Data Year" object [CStr "YEAR"; CFloat (of_Z 2021)] ].

Definition raw_states_year : DataFrame :=
  [ mkSeries "State abbreviation" object [CStr "PSTATABB"; CStr "CA"];
    mkSeries "Data Year" object [CStr "YEAR"; CFloat (of_Z 2021)] ].

(** A percentage column with a cell that is not a number. *)
Definition raw_bad_percent : DataFrame :=
  [ mkSeries "Plant name" object [CStr "PNAME"; CStr "Plant A"; CStr "Plant B"];
    mkSeries "Plant coal generation percent" object
      [CStr "PLCLPR"; CStr "10%"; CStr "withheld"] ].




(** The records of the Californian plants of the cleaned table. *)
Definition california_records : DataFrameModel :=
  [ [ ("Plant name", CStr "Plant A");
      ("Plant state abbreviation", CStr "CA");
      (generation, CFloat (of_Z 1000));
      ("Plant coal generation percent", CFloat (Fin (1 # 10))) ];
    [ ("Plant name", CStr "Plant C");
      ("Plant state abbreviation", CStr "CA");
      (generation, CFloat (of_Z 500));
      ("Plant coal generation percent", CFloat (Fin (11 # 200))) ] ].

(** A plant table without the column of names. *)
Definition unnamed_plants : DataFrame :=
  [ mkSeries "Plant state abbreviation" object [CStr "CA"; CStr "NY"];
    mkSeries generation float64 [CFloat (of_Z 1000); CFloat (of_Z 2000)] ].

(* ===================================================================== *)
(** ** General lemmas *)
(* ===================================================================== *)

Section MapM.
Context {A B : Type} (f : A -> result B).

Lemma mapM_ok_map (g : A -> B) (l : list A) :
  (forall x, In x l -> f x = Ok (g x)) -> mapM f l = Ok (map g l).
Proof.
  induction l as [|a l IH]; intros H; simpl; [reflexivity|].
  rewrite (H a (or_introl eq_refl)). simpl.
  rewrite IH by (intros x Hx; apply H; now right). reflexivity.
Qed.

Lemma mapM_ok_inv (l : list A) (l' : list B) :
  mapM f l = Ok l' -> Forall2 (fun x y => f x = Ok y) l l'.
Proof.
  revert l'. induction l as [|a l IH]; intros l' H; simpl in H.
  - injection H as <-. constructor.
  - destruct (f a) as [b|e] eqn:Ea; simpl in H; [|discriminate].
    destruct (mapM f l) as [bs|e] eqn:El; simpl in H; [|discriminate].
    injection H as <-. constructor; auto.
Qed.

Lemma mapM_length (l : list A) (l' : list B) :
  mapM f l = Ok l' -> List.length l' = List.length l.
Proof.
  intros H. apply mapM_ok_inv in H. symmetry. eapply Forall2_length; eauto.
Qed.

Lemma mapM_raise (l : list A) (x : A) :
  In x l -> (exists e, f x = Raise e) ->
  exists y e, In y l /\ f y = Raise e /\ mapM f l = Raise e.
Proof.
  induction l as [|a l IH]; intros Hin Hx; [contradiction|].
  simpl. destruct (f a) as [b|e] eqn:Ea.
  - destruct Hin as [->|Hin].
    + destruct Hx as [e He]. congruence.
    + destruct (IH Hin Hx) as (y & e & Hy & Hfy & Hm).
      exists y, e. rewrite Hm. simpl. auto.
  - exists a, e. simpl. auto.
Qed.

Lemma mapM_raise_inv (l : list A) (e : exn) :
  mapM f l = Raise e -> exists x, In x l /\ f x = Raise e.
Proof.
  induction l as [|a l IH]; simpl; intros H; [discriminate|].
  destruct (f a) as [b|e'] eqn:Ea; simpl in H.
  - destruct (mapM f l) as [bs|e''] eqn:El; simpl in H; [discriminate|].
    injection H as ->. destruct (IH eq_refl) as (x & Hx & Hfx).
    exists x. auto.
  - injection H as ->. exists a. auto.
Qed.
End MapM.

Lemma mem_In (l : string) (ls : list string) : mem l ls = true <-> In l ls.
Proof.
  unfold mem. rewrite existsb_exists. split.
  - intros (x & Hx & E). apply String.eqb_eq in E. now subst.
  - intros H. exists l. split; [assumption|apply String.eqb_refl].
Qed.

Lemma has_column_In (df : DataFrame) (l : string) :
  has_column df l = true <-> In l (columns df).
Proof. apply mem_In. Qed.

Lemma getitem_Ok_inv (df : DataFrame) (l : string) (c : Series) :
  getitem df l = Ok c -> In c df /\ name c = l.
Proof.
  unfold getitem. destruct (find _ df) as [c'|] eqn:E; [|discriminate].
  intros H. injection H as <-. apply find_some in E.
  destruct E as [Hin E]. apply String.eqb_eq in E. auto.
Qed.

Lemma getitem_has_column (df : DataFrame) (l : string) :
  has_column df l = true -> exists c, getitem df l = Ok c.
Proof.
  intros H. apply has_column_In in H. unfold getitem.
  destruct (find _ df) as [c|] eqn:E; [eauto|].
  exfalso. unfold columns in H. apply in_map_iff in H.
  destruct H as (c & Hn & Hc).
  apply (find_none _ _ E) in Hc. rewrite Hn, String.eqb_refl in Hc. discriminate.
Qed.

(** *** Shapes *)

Lemma shape_nrows (df df' : DataFrame) :
  shape df = shape df' -> nrows df = nrows df'.
Proof.
  destruct df as [|c df], df' as [|c' df']; simpl; intros H;
    try discriminate; [reflexivity|].
  now injection H.
Qed.

Lemma rectangular_shape (df : DataFrame) :
  rectangular df = forallb (fun t => Nat.eqb (snd t) (nrows df)) (shape df).
Proof.
  unfold rectangular, shape. generalize (nrows df) as n. intros n.
  induction df as [|c df IH]; simpl; [reflexivity|]. now rewrite IH.
Qed.

Lemma shape_rectangular (df df' : DataFrame) :
  shape df = shape df' -> rectangular df = rectangular df'.
Proof.
  intros H. rewrite !rectangular_shape, (shape_nrows _ _ H), H. reflexivity.
Qed.

Lemma shape_select_dtypes (d : dtype) (df df' : DataFrame) :
  shape df = shape df' -> select_dtypes d df = select_dtypes d df'.
Proof.
  revert df'. induction df as [|c df IH]; intros [|c' df'] H;
    try discriminate; [reflexivity|].
  simpl in H. injection H as Hn Hd Hl Hs.
  unfold select_dtypes in *. simpl. rewrite Hd.
  destruct (dtype_eqb (dtype_of c') d); simpl; rewrite (IH _ Hs); congruence.
Qed.

Lemma rectangular_length (df : DataFrame) (c : Series) :
  rectangular df = true -> In c df -> List.length (values c) = nrows df.
Proof.
  unfold rectangular. rewrite forallb_forall. intros H Hc.
  apply Nat.eqb_eq. now apply H.
Qed.

(* ===================================================================== *)
(** ** The numeric conversion step *)
(* ===================================================================== *)

Lemma float_cell_replace_commas (c : cell) :
  DataCleaner.float_cell (DataCleaner.replace_commas c)
  = if convertible c then Ok (converted c)
    else Raise (DataCleaner.could_not_convert
                  match c with
                  | CStr s => Py.remove_commas s
                  | CFloat _ => ""
                  end).
Proof.
  destruct c as [x|s]; simpl; [reflexivity|].
  destruct (Py.float_of_string (Py.remove_commas s)); reflexivity.
Qed.

Lemma mapM_map {A B C : Type} (f : B -> result C) (h : A -> B) (l : list A) :
  mapM f (map h l) = mapM (fun x => f (h x)) l.
Proof.
  induction l as [|a l IH]; simpl; [reflexivity|]. now rewrite IH.
Qed.

Lemma astype_float_all (col : Series) :
  forallb convertible (values col) = true ->
  DataCleaner.astype_float (map_values DataCleaner.replace_commas col)
  = Ok (mkSeries (name col) float64 (map converted (values col))).
Proof.
  intros H. unfold DataCleaner.astype_float, map_values, with_values. simpl.
  rewrite mapM_map, (mapM_ok_map _ converted); [reflexivity|].
  intros c Hc. rewrite forallb_forall in H.
  now rewrite float_cell_replace_commas, (H c Hc).
Qed.

Lemma astype_float_some (col : Series) :
  forallb convertible (values col) = false ->
  exists e, DataCleaner.astype_float (map_values DataCleaner.replace_commas col)
            = Raise e.
Proof.
  intros H.
  assert (Hx : exists c, In c (values col) /\ convertible c = false).
  { induction (values col) as [|c l IH]; simpl in H; [discriminate|].
    destruct (convertible c) eqn:E; simpl in H.
    - destruct (IH H) as (c' & Hc' & E'). exists c'. simpl. auto.
    - exists c. simpl. auto. }
  destruct Hx as (c & Hc & E).
  unfold DataCleaner.astype_float, map_values, with_values. simpl.
  destruct (mapM_raise DataCleaner.float_cell
              (map DataCleaner.replace_commas (values col))
              (DataCleaner.replace_commas c)) as (y & e & _ & _ & Hm).
  - now apply in_map.
  - rewrite float_cell_replace_commas, E. eauto.
  - rewrite Hm. simpl. eauto.
Qed.

Lemma convert_to_numerical_spec (col : Series) :
  DataCleaner._convert_to_numerical col
  = if forallb convertible (values col)
    then mkSeries (name col) float64 (map converted (values col))
    else col.
Proof.
  unfold DataCleaner._convert_to_numerical.
  destruct (forallb convertible (values col)) eqn:E.
  - now rewrite astype_float_all.
  - destruct (astype_float_some col E) as [e ->]. reflexivity.
Qed.


(* ===================================================================== *)
(** ** Filling and de-duplicating *)
(* ===================================================================== *)

Lemma map_nth_seq {A : Type} (d : A) (l : list A) :
  map (fun i => nth i l d) (seq 0 (List.length l)) = l.
Proof.
  induction l as [|a l IH]; simpl; [reflexivity|].
  f_equal. rewrite <- seq_shift, map_map. exact IH.
Qed.

Lemma map_snd_combine_seq {A : Type} (l : list A) (i : nat) :
  map snd (combine (seq i (List.length l)) l) = l.
Proof.
  revert i. induction l as [|a l IH]; intros i; simpl; [reflexivity|].
  now rewrite IH.
Qed.

Lemma map_id_in {A : Type} (f : A -> A) (l : list A) :
  (forall x, In x l -> f x = x) -> map f l = l.
Proof.
  intros H. rewrite <- (map_id l) at 2. now apply map_ext_in.
Qed.

Lemma fillna_cell_id (v x : cell) : isna x = false -> fillna_cell v x = x.
Proof. unfold fillna_cell. now intros ->. Qed.

Lemma fillna_cell_no_na (v x : cell) :
  isna v = false -> isna (fillna_cell v x) = false.
Proof. unfold fillna_cell. intros Hv. destruct (isna x) eqn:E; assumption. Qed.

Lemma map_values_fillna_id (v : cell) (c : Series) :
  col_no_na c -> map_values (fillna_cell v) c = c.
Proof.
  intros H. destruct c as [n d vs]. unfold map_values, with_values. simpl.
  f_equal. apply map_id_in.
  intros x Hx. apply fillna_cell_id. now apply H.
Qed.

Lemma map_values_fillna_no_na (v : cell) (c : Series) :
  isna v = false -> col_no_na (map_values (fillna_cell v) c).
Proof.
  intros Hv x Hx. simpl in Hx. apply in_map_iff in Hx.
  destruct Hx as (y & <- & _). now apply fillna_cell_no_na.
Qed.

Lemma fillna_in_shape (labels : list string) (v : cell) (df : DataFrame) :
  shape (fillna_in labels v df) = shape df.
Proof.
  unfold shape, fillna_in. rewrite map_map. apply map_ext. intros c.
  destruct (mem (name c) labels); simpl; [now rewrite length_map|reflexivity].
Qed.

Lemma fillna_in_id (labels : list string) (v : cell) (df : DataFrame) :
  no_na df -> fillna_in labels v df = df.
Proof.
  intros H. unfold fillna_in. apply map_id_in. intros c Hc.
  destruct (mem (name c) labels); [|reflexivity].
  apply map_values_fillna_id. exact (H c Hc).
Qed.

Lemma fillna_in_column (labels : list string) (v : cell) (df : DataFrame)
      (c' : Series) :
  In c' (fillna_in labels v df) ->
  exists c, In c df /\ name c' = name c /\ dtype_of c' = dtype_of c
            /\ (mem (name c) labels = true ->
                c' = map_values (fillna_cell v) c)
            /\ (mem (name c) labels = false -> c' = c).
Proof.
  unfold fillna_in. intros H. apply in_map_iff in H.
  destruct H as (c & <- & Hc). exists c.
  destruct (mem (name c) labels); simpl; repeat split; auto; discriminate.
Qed.

Lemma row_has_na_false (labels : list string) (df : DataFrame) (i : nat) :
  (forall c, In c df -> mem (name c) labels = true -> col_no_na c) ->
  row_has_na labels df i = false.
Proof.
  intros H. unfold row_has_na.
  apply not_true_is_false. intros E. apply existsb_exists in E.
  destruct E as (c & Hc & E). apply andb_true_iff in E. destruct E as [Em Ex].
  destruct (nth_error (values c) i) as [x|] eqn:En; [|discriminate].
  apply nth_error_In in En. rewrite (H c Hc Em x En) in Ex. discriminate.
Qed.

Lemma dropna_in_id (labels : list string) (df : DataFrame) :
  (forall c, In c df -> mem (name c) labels = true -> col_no_na c) ->
  dropna_in labels df = df.
Proof.
  intros H. unfold dropna_in. apply map_id_in. intros c Hc.
  destruct (mem (name c) labels); [|reflexivity].
  destruct c as [n d vs]. unfold with_values. simpl. f_equal.
  etransitivity; [|apply (map_snd_combine_seq vs 0)].
  apply map_ext. intros [i x]. simpl. now rewrite row_has_na_false.
Qed.

Lemma select_dtypes_In (d : dtype) (df : DataFrame) (c : Series) :
  In c df -> dtype_of c = d -> mem (name c) (select_dtypes d df) = true.
Proof.
  intros Hc Hd. apply mem_In. unfold select_dtypes, columns.
  apply in_map. apply filter_In. split; [assumption|].
  rewrite Hd. now destruct d.
Qed.

Section Fill.
Variable df : DataFrame.

Let numerical_columns := select_dtypes float64 df.
Let df1 := fillna_in numerical_columns (CFloat zero) df.
Let categorical_columns := select_dtypes object df1.
Let df3 := fillna_in categorical_columns (CStr "Unknown") df1.

Lemma fill_step1_no_na (c : Series) :
  In c df1 -> mem (name c) numerical_columns = true -> col_no_na c.
Proof.
  intros Hc Hm. destruct (fillna_in_column _ _ _ _ Hc)
    as (c0 & Hc0 & Hn & Hd & Hyes & _).
  rewrite Hn in Hm. rewrite (Hyes Hm).
  now apply map_values_fillna_no_na.
Qed.

Lemma fill_step1_float (c : Series) :
  In c df1 -> dtype_of c = float64 -> col_no_na c.
Proof.
  intros Hc Hd. apply fill_step1_no_na; [assumption|].
  destruct (fillna_in_column _ _ _ _ Hc) as (c0 & Hc0 & Hn & Hd0 & _).
  rewrite Hn. apply select_dtypes_In; congruence.
Qed.

Lemma fill_frame_eq (pcs : list string) :
  DataCleaner.data (DataCleaner._fill_missing_values (DataCleaner.mk df pcs))
  = df3.
Proof.
  unfold DataCleaner._fill_missing_values. simpl.
  fold numerical_columns. fold df1.
  rewrite (dropna_in_id numerical_columns df1 fill_step1_no_na).
  reflexivity.
Qed.

Lemma fill_frame_no_na : no_na df3.
Proof.
  intros c Hc. destruct (fillna_in_column _ _ _ _ Hc)
    as (c1 & Hc1 & Hn & Hd & Hyes & Hno).
  destruct (mem (name c1) categorical_columns) eqn:Em.
  - rewrite (Hyes eq_refl). now apply map_values_fillna_no_na.
  - rewrite (Hno eq_refl). apply fill_step1_float; [assumption|].
    destruct (dtype_of c1) eqn:Ed; [reflexivity|].
    unfold categorical_columns in Em.
    rewrite (select_dtypes_In object df1 c1 Hc1 Ed) in Em. discriminate.
Qed.

Lemma fill_frame_shape : shape df3 = shape df.
Proof. unfold df3, df1. now rewrite !fillna_in_shape. Qed.

End Fill.

Lemma fill_missing_values_no_na (self : DataCleaner.t) :
  no_na (DataCleaner.data (DataCleaner._fill_missing_values self)).
Proof. destruct self as [df pcs]. rewrite fill_frame_eq. apply fill_frame_no_na. Qed.

Lemma fill_missing_values_shape (self : DataCleaner.t) :
  shape (DataCleaner.data (DataCleaner._fill_missing_values self))
  = shape (DataCleaner.data self).
Proof. destruct self as [df pcs]. rewrite fill_frame_eq. apply fill_frame_shape. Qed.

Lemma fill_missing_values_id (self : DataCleaner.t) :
  no_na (DataCleaner.data self) -> DataCleaner._fill_missing_values self = self.
Proof.
  destruct self as [df pcs]. simpl. intros H.
  unfold DataCleaner._fill_missing_values, DataCleaner.set_data. simpl.
  rewrite (fillna_in_id _ _ df H).
  rewrite (dropna_in_id _ df) by (intros c Hc _; exact (H c Hc)).
  now rewrite (fillna_in_id _ _ df H).
Qed.

(** *** [take] *)

Lemma take_columns (idx : list nat) (df : DataFrame) :
  columns (take idx df) = columns df.
Proof. unfold columns, take. rewrite map_map. reflexivity. Qed.

Lemma take_nrows (idx : list nat) (df : DataFrame) :
  df <> [] -> nrows (take idx df) = List.length idx.
Proof.
  destruct df as [|c df]; [congruence|]. intros _. simpl. apply length_map.
Qed.

Lemma take_nrows_le (idx : list nat) (df : DataFrame) :
  nrows (take idx df) <= List.length idx.
Proof.
  destruct df as [|c df]; simpl; [lia|]. now rewrite length_map.
Qed.

Lemma take_column (idx : list nat) (df : DataFrame) (c' : Series) :
  In c' (take idx df) ->
  exists c, In c df /\ c' = with_values c (map (cell_at c) idx).
Proof.
  unfold take. intros H. apply in_map_iff in H.
  destruct H as (c & <- & Hc). eauto.
Qed.

Lemma take_no_na (idx : list nat) (df : DataFrame) :
  rectangular df = true -> no_na df ->
  Forall (fun i => i < nrows df) idx -> no_na (take idx df).
Proof.
  intros Hr Hn Hi c' Hc' x Hx.
  destruct (take_column _ _ _ Hc') as (c & Hc & ->). simpl in Hx.
  apply in_map_iff in Hx. destruct Hx as (i & <- & Hin).
  rewrite Forall_forall in Hi. specialize (Hi i Hin).
  apply (Hn c Hc). unfold cell_at. apply nth_In.
  now rewrite (rectangular_length df c Hr Hc).
Qed.

Lemma take_all (n : nat) (df : DataFrame) :
  (forall c, In c df -> List.length (values c) = n) ->
  take (seq 0 n) df = df.
Proof.
  intros H. unfold take. apply map_id_in. intros c Hc.
  destruct c as [l d vs]. unfold with_values, cell_at. simpl.
  f_equal. specialize (H _ Hc). simpl in H. subst n. apply map_nth_seq.
Qed.

Lemma take_take_all (idx : list nat) (df : DataFrame) :
  take (seq 0 (List.length idx)) (take idx df) = take idx df.
Proof.
  apply take_all. intros c' Hc'.
  destruct (take_column _ _ _ Hc') as (c & _ & ->). simpl. apply length_map.
Qed.

Lemma row_values_take (idx : list nat) (df : DataFrame) (k : nat) :
  k < List.length idx ->
  row_values (take idx df) k = row_values df (nth k idx 0).
Proof.
  intros Hk. unfold row_values, take. rewrite map_map.
  apply map_ext. intros c. unfold cell_at at 1. simpl.
  rewrite (nth_indep _ nan (cell_at c 0)) by now rewrite length_map.
  now rewrite map_nth.
Qed.

Lemma map_nth_positions {A B : Type} (f : A -> B) (d : A) (l : list A) :
  map (fun k => f (nth k l d)) (seq 0 (List.length l)) = map f l.
Proof.
  rewrite <- (map_map (fun k => nth k l d) f). now rewrite map_nth_seq.
Qed.

Lemma rows_of_take (idx : list nat) (df : DataFrame) :
  df <> [] ->
  map (row_values (take idx df)) (positions (take idx df))
  = map (row_values df) idx.
Proof.
  intros Hdf. unfold positions. rewrite (take_nrows idx df Hdf).
  rewrite <- (map_nth_positions (row_values df) 0 idx).
  apply map_ext_in. intros k Hk. apply in_seq in Hk.
  apply row_values_take. lia.
Qed.

(** *** Duplicates *)

Lemma first_seen_bounds (seen rows : list (list cell)) (i0 : nat) :
  Forall (fun i => i0 <= i < i0 + List.length rows) (first_seen seen i0 rows).
Proof.
  revert seen i0. induction rows as [|r rows IH]; intros seen i0; simpl.
  - constructor.
  - destruct (existsb (row_same r) seen).
    + eapply Forall_impl; [|apply IH]. simpl. intros; lia.
    + constructor; [lia|].
      eapply Forall_impl; [|apply IH]. simpl. intros; lia.
Qed.

Lemma first_seen_length (seen rows : list (list cell)) (i0 : nat) :
  List.length (first_seen seen i0 rows) <= List.length rows.
Proof.
  revert seen i0. induction rows as [|r rows IH]; intros seen i0; simpl.
  - lia.
  - destruct (existsb (row_same r) seen); simpl.
    + specialize (IH seen (S i0)). lia.
    + specialize (IH (r :: seen) (S i0)). lia.
Qed.

Lemma first_seen_kept (seen rows : list (list cell)) (i0 : nat) :
  map (fun i => nth (i - i0) rows []) (first_seen seen i0 rows)
  = kept_rows seen rows.
Proof.
  revert seen i0. induction rows as [|r rows IH]; intros seen i0; simpl.
  - reflexivity.
  - assert (E : forall s, map (fun i => nth (i - i0) (r :: rows) [])
                              (first_seen s (S i0) rows)
                          = kept_rows s rows).
    { intros s. rewrite <- (IH s (S i0)). apply map_ext_in. intros i Hi.
      pose proof (first_seen_bounds s rows (S i0)) as B.
      rewrite Forall_forall in B. specialize (B i Hi).
      replace (i - i0) with (S (i - S i0)) by lia. reflexivity. }
    destruct (existsb (row_same r) seen); simpl.
    + apply E.
    + rewrite Nat.sub_diag. f_equal. apply E.
Qed.

Lemma first_seen_of_kept (seen rows : list (list cell)) (i0 : nat) :
  first_seen seen i0 (kept_rows seen rows)
  = seq i0 (List.length (kept_rows seen rows)).
Proof.
  revert seen i0. induction rows as [|r rows IH]; intros seen i0; simpl.
  - reflexivity.
  - destruct (existsb (row_same r) seen) eqn:E; simpl.
    + apply IH.
    + rewrite E. f_equal. apply IH.
Qed.

Lemma drop_duplicates_rows (df : DataFrame) :
  df <> [] ->
  map (row_values (drop_duplicates df)) (positions (drop_duplicates df))
  = kept_rows [] (map (row_values df) (positions df)).
Proof.
  intros Hdf. unfold drop_duplicates. rewrite (rows_of_take _ _ Hdf).
  set (rows := map (row_values df) (positions df)).
  rewrite <- (first_seen_kept [] rows 0).
  apply map_ext_in. intros i Hi.
  pose proof (first_seen_bounds [] rows 0) as B.
  rewrite Forall_forall in B. specialize (B i Hi).
  rewrite Nat.sub_0_r. unfold rows in *. rewrite length_map in B.
  rewrite (nth_indep _ [] (row_values df 0)) by (rewrite length_map; lia).
  rewrite map_nth. f_equal. unfold positions in *. rewrite length_seq in B.
  rewrite seq_nth; lia.
Qed.

Lemma drop_duplicates_idempotent (df : DataFrame) :
  drop_duplicates (drop_duplicates df) = drop_duplicates df.
Proof.
  destruct df as [|c0 df0] eqn:Edf; [reflexivity|]. rewrite <- Edf.
  assert (Hdf : df <> []) by (subst; discriminate).
  unfold drop_duplicates at 1. rewrite (drop_duplicates_rows df Hdf).
  rewrite first_seen_of_kept.
  rewrite <- (first_seen_kept [] _ 0), length_map.
  unfold drop_duplicates. apply take_take_all.
Qed.

Lemma drop_duplicates_no_na (df : DataFrame) :
  rectangular df = true -> no_na df -> no_na (drop_duplicates df).
Proof.
  intros Hr Hn. apply take_no_na; [assumption..|].
  pose proof (first_seen_bounds [] (map (row_values df) (positions df)) 0) as B.
  eapply Forall_impl; [|exact B]. simpl. intros i Hi.
  rewrite length_map in Hi. unfold positions in Hi. rewrite length_seq in Hi. lia.
Qed.

(** C9.  One pass of fill-then-dedup followed by a second pass gives the
    table the first pass gave, for every frame whose columns have one
    length. *)
Theorem fill_dedup_idempotent (self : DataCleaner.t) :
  rectangular (DataCleaner.data self) = true ->
  fill_and_dedup (fill_and_dedup self) = fill_and_dedup self.
Proof.
  intros Hr. unfold fill_and_dedup.
  set (filled := DataCleaner._fill_missing_values self).
  assert (Hn : no_na (DataCleaner.data (DataCleaner._remove_duplicates filled))).
  { assert (Hf : rectangular (DataCleaner.data filled) = true).
    { unfold filled.
      now rewrite (shape_rectangular _ _ (fill_missing_values_shape self)). }
    apply drop_duplicates_no_na; [exact Hf|].
    apply fill_missing_values_no_na. }
  rewrite (fill_missing_values_id _ Hn).
  unfold DataCleaner._remove_duplicates, DataCleaner.set_data. simpl.
  now rewrite drop_duplicates_idempotent.
Qed.

(* ===================================================================== *)
(** ** Distinct labels *)
(* ===================================================================== *)

Lemma distinct_NoDup (labels : list string) :
  distinct labels = true <-> NoDup labels.
Proof.
  induction labels as [|l labels IH]; simpl.
  - split; [constructor|reflexivity].
  - rewrite andb_true_iff, negb_true_iff, IH. split.
    + intros [Hm Hn]. constructor; [|assumption].
      intros Hin. apply mem_In in Hin. congruence.
    + intros H. inversion H as [|? ? Hnin Hnd]; subst. split; [|assumption].
      apply not_true_is_false. intros Hm. apply mem_In in Hm. contradiction.
Qed.

Lemma distinct_name_inj (df : DataFrame) (c c' : Series) :
  distinct (columns df) = true -> In c df -> In c' df ->
  name c = name c' -> c = c'.
Proof.
  rewrite distinct_NoDup. unfold columns.
  induction df as [|a df IH]; intros Hd Hc Hc' Hn; [contradiction|].
  simpl in Hd. inversion Hd as [|? ? Hnin Hnd]; subst.
  destruct Hc as [->|Hc], Hc' as [->|Hc'].
  - reflexivity.
  - exfalso. apply Hnin. rewrite Hn. now apply in_map.
  - exfalso. apply Hnin. rewrite <- Hn. now apply in_map.
  - now apply IH.
Qed.

Lemma getitem_distinct (df : DataFrame) (c : Series) :
  distinct (columns df) = true -> In c df -> getitem df (name c) = Ok c.
Proof.
  intros Hd Hc.
  destruct (getitem_has_column df (name c)) as [c' Hc'].
  { apply has_column_In. unfold columns. now apply in_map. }
  rewrite Hc'. f_equal. apply getitem_Ok_inv in Hc'. destruct Hc' as [Hin Hn].
  now apply (distinct_name_inj df).
Qed.

Lemma mem_cons (l a : string) (ls : list string) :
  mem l (a :: ls) = String.eqb l a || mem l ls.
Proof. reflexivity. Qed.

Lemma shape_dims (df df' : DataFrame) : shape df = shape df' -> dims df = dims df'.
Proof.
  intros H. unfold dims.
  assert (E : forall d, map (fun c => (name c, List.length (values c))) d
                        = map (fun t => (fst (fst t), snd t)) (shape d)).
  { intros d. unfold shape. rewrite map_map. reflexivity. }
  now rewrite !E, H.
Qed.

Lemma dims_columns (df df' : DataFrame) :
  dims df = dims df' -> columns df = columns df'.
Proof.
  intros H. unfold columns.
  assert (E : forall d, map name d = map fst (dims d)).
  { intros d. unfold dims. rewrite map_map. reflexivity. }
  now rewrite !E, H.
Qed.

Lemma dims_nrows (df df' : DataFrame) : dims df = dims df' -> nrows df = nrows df'.
Proof.
  destruct df as [|c df], df' as [|c' df']; simpl; intros H;
    try discriminate; [reflexivity|].
  now injection H.
Qed.

Lemma dims_rectangular (df df' : DataFrame) :
  dims df = dims df' -> rectangular df = rectangular df'.
Proof.
  intros H.
  assert (E : forall d, rectangular d
                        = forallb (fun t => Nat.eqb (snd t) (nrows d)) (dims d)).
  { intros d. unfold rectangular, dims. generalize (nrows d). intros n.
    induction d as [|c d IH]; simpl; [reflexivity|]. now rewrite IH. }
  now rewrite !E, (dims_nrows _ _ H), H.
Qed.

Lemma map_dims (f : Series -> Series) (df : DataFrame) :
  (forall c, In c df ->
             name (f c) = name c
             /\ List.length (values (f c)) = List.length (values c)) ->
  dims (map f df) = dims df.
Proof.
  intros H. unfold dims. rewrite map_map. apply map_ext_in.
  intros c Hc. destruct (H c Hc) as [-> ->]. reflexivity.
Qed.

(* ===================================================================== *)
(** ** The percentage step *)
(* ===================================================================== *)

Lemma is_nan_fdiv_hundred (x : F64) : is_nan (fdiv x hundred) = is_nan x.
Proof.
  destruct x as [q| | |]; reflexivity.
Qed.

Lemma percent_cell_ok (c : cell) :
  percent_ok c = true -> DataCleaner.percent_cell c = Ok (percent_raw c).
Proof.
  unfold percent_raw. destruct c as [x|s]; simpl; [reflexivity|].
  destruct (Py.float_of_string (Py.rstrip_percent s)); [reflexivity|discriminate].
Qed.

Lemma percent_cell_not_ok (c : cell) :
  percent_ok c = false -> exists m, DataCleaner.percent_cell c = Raise (ValueError m).
Proof.
  destruct c as [x|s]; simpl; [discriminate|].
  destruct (Py.float_of_string (Py.rstrip_percent s)); [discriminate|].
  intros _. unfold DataCleaner.could_not_convert. eauto.
Qed.

Lemma percent_value_raw (c : cell) :
  percent_ok c = true ->
  fillna_cell (CFloat zero) (percent_raw c) = percent_value c.
Proof.
  unfold percent_raw, fillna_cell, percent_of.
  destruct c as [x|s]; simpl.
  - unfold percent_of. now rewrite is_nan_fdiv_hundred.
  - destruct (Py.float_of_string (Py.rstrip_percent s)) as [x|]; [|discriminate].
    simpl. unfold percent_of. now rewrite is_nan_fdiv_hundred.
Qed.

Lemma forallb_false_exists {A : Type} (p : A -> bool) (l : list A) :
  forallb p l = false -> exists x, In x l /\ p x = false.
Proof.
  induction l as [|a l IH]; simpl; [discriminate|].
  destruct (p a) eqn:E; simpl.
  - intros H. destruct (IH H) as (x & Hx & Hp). eauto.
  - intros _. eauto.
Qed.

Lemma forallb_map_ext_in {A B : Type} (p : A -> bool) (q : B -> bool)
      (f : A -> B) (l : list A) :
  (forall x, In x l -> p x = q (f x)) -> forallb p l = forallb q (map f l).
Proof.
  induction l as [|a l IH]; intros H; simpl; [reflexivity|].
  rewrite (H a (or_introl eq_refl)), IH; [reflexivity|].
  intros x Hx. apply H. now right.
Qed.

Lemma percent_column_ok (c : Series) :
  forallb percent_ok (values c) = true ->
  mapM DataCleaner.percent_cell (values c) = Ok (map percent_raw (values c)).
Proof.
  intros H. apply mapM_ok_map. intros x Hx. apply percent_cell_ok.
  rewrite forallb_forall in H. now apply H.
Qed.

Lemma percent_column_not_ok (c : Series) :
  forallb percent_ok (values c) = false ->
  exists m, mapM DataCleaner.percent_cell (values c) = Raise (ValueError m).
Proof.
  intros H. apply forallb_false_exists in H. destruct H as (x & Hx & Hp).
  destruct (mapM_raise DataCleaner.percent_cell (values c) x Hx)
    as (y & e & Hy & Hfy & Hm).
  { destruct (percent_cell_not_ok x Hp) as [m Hm]. eauto. }
  destruct (percent_ok y) eqn:Ey.
  - rewrite (percent_cell_ok y Ey) in Hfy. discriminate.
  - destruct (percent_cell_not_ok y Ey) as [m Hm']. exists m. congruence.
Qed.

Lemma assign_distinct (df : DataFrame) (c : Series) (f : cell -> cell) :
  distinct (columns df) = true -> In c df ->
  DataCleaner.assign (name c) (map f (values c)) df
  = map (fun c' => if String.eqb (name c') (name c) then map_values f c' else c') df.
Proof.
  intros Hd Hc. unfold DataCleaner.assign. apply map_ext_in. intros c' Hc'.
  destruct (String.eqb (name c') (name c)) eqn:E; [|reflexivity].
  apply String.eqb_eq in E.
  now rewrite (distinct_name_inj df c' c Hd Hc' Hc E).
Qed.

Lemma convert_percentage_loop_spec (cols : list string) :
  forall df : DataFrame,
    NoDup cols -> distinct (columns df) = true ->
    (forall col, In col cols -> In col (columns df)) ->
    if loop_ok cols df
    then DataCleaner.convert_percentage_loop cols df = Ok (loop_result cols df)
    else exists m, DataCleaner.convert_percentage_loop cols df
                   = Raise (ValueError m).
Proof.
  induction cols as [|col cols IH]; intros df Hnd Hd Hsub.
  - assert (E : loop_ok [] df = true).
    { unfold loop_ok. apply forallb_forall. intros; reflexivity. }
    rewrite E. simpl. f_equal. unfold loop_result. symmetry.
    apply map_id_in. intros; reflexivity.
  - inversion Hnd as [|? ? Hnin Hnd']; subst.
    assert (Hcol : In col (columns df)) by (apply Hsub; now left).
    unfold columns in Hcol. apply in_map_iff in Hcol.
    destruct Hcol as (c & Hn & Hc). subst col.
    simpl. unfold DataCleaner.convert_percentage_column.
    rewrite (getitem_distinct df c Hd Hc). simpl.
    destruct (forallb percent_ok (values c)) eqn:Eok.
    + rewrite (percent_column_ok c Eok). simpl.
      rewrite (assign_distinct df c percent_raw Hd Hc).
      set (df' := map (fun c' => if String.eqb (name c') (name c)
                                 then map_values percent_raw c' else c') df).
      assert (Hcols : columns df' = columns df).
      { unfold df', columns. rewrite map_map. apply map_ext. intros c'.
        now destruct (String.eqb (name c') (name c)). }
      specialize (IH df' Hnd').
      rewrite Hcols in IH. specialize (IH Hd).
      assert (Hsub' : forall col, In col cols -> In col (columns df))
        by (intros; apply Hsub; now right).
      specialize (IH Hsub').
      assert (Hmemc : mem (name c) cols = false).
      { apply not_true_is_false. intros Hm. apply mem_In in Hm. contradiction. }
      assert (Eb : loop_ok (name c :: cols) df = loop_ok cols df').
      { unfold loop_ok, df'. apply forallb_map_ext_in. intros c' Hc'.
        rewrite mem_cons.
        destruct (String.eqb (name c') (name c)) eqn:E; simpl.
        - apply String.eqb_eq in E.
          rewrite (distinct_name_inj df c' c Hd Hc' Hc E), Hmemc, Eok.
          reflexivity.
        - reflexivity. }
      assert (Er : loop_result (name c :: cols) df = loop_result cols df').
      { unfold loop_result, df'. rewrite map_map. apply map_ext_in. intros c' Hc'.
        rewrite mem_cons.
        destruct (String.eqb (name c') (name c)) eqn:E; simpl.
        - apply String.eqb_eq in E. rewrite E, Hmemc. reflexivity.
        - reflexivity. }
      rewrite Eb, Er. exact IH.
    + assert (Eb : loop_ok (name c :: cols) df = false).
      { unfold loop_ok. apply not_true_is_false. intros H.
        rewrite forallb_forall in H. specialize (H c Hc).
        rewrite mem_cons, String.eqb_refl, Eok in H. discriminate. }
      rewrite Eb. destruct (percent_column_not_ok c Eok) as [m ->].
      simpl. eauto.
Qed.

Lemma remove_metadata_row_table (df : DataFrame) :
  table_of (DataCleaner._remove_metadata_row (DataCleaner.__init__ df))
  = map (fun c => with_values c (tl (values c))) df.
Proof. reflexivity. Qed.

Lemma remove_metadata_row_columns (df : DataFrame) :
  columns (map (fun c => with_values c (tl (values c))) df) = columns df.
Proof. unfold columns. rewrite map_map. reflexivity. Qed.

Lemma mem_filter (p : string -> bool) (l : string) (ls : list string) :
  In l ls -> mem l (filter p ls) = p l.
Proof.
  intros Hin. destruct (p l) eqn:E.
  - apply mem_In, filter_In. auto.
  - apply not_true_is_false. intros H. apply mem_In, filter_In in H.
    destruct H. congruence.
Qed.

Lemma convert_percentages_spec (df : DataFrame) :
  distinct (columns df) = true ->
  let self := DataCleaner.mk df (filter is_percentage (columns df)) in
  if percentages_ok df
  then DataCleaner._convert_percentages self
       = Ok (DataCleaner.set_data self
               (map (fun c => if is_percentage (name c)
                              then map_values percent_value c else c) df))
  else exists m, DataCleaner._convert_percentages self = Raise (ValueError m).
Proof.
  intros Hd self. set (cols := filter is_percentage (columns df)).
  assert (Hmem : forall c, In c df -> mem (name c) cols = is_percentage (name c)).
  { intros c Hc. apply mem_filter. unfold columns. now apply in_map. }
  pose proof (convert_percentage_loop_spec cols df) as L.
  assert (Eok : loop_ok cols df = percentages_ok df).
  { unfold loop_ok, percentages_ok. rewrite <- (map_id df) at 2.
    apply forallb_map_ext_in. intros c Hc. now rewrite (Hmem c Hc). }
  rewrite Eok in L.
  specialize (L (NoDup_filter _ (proj1 (distinct_NoDup _) Hd)) Hd).
  assert (Hsub : forall col, In col cols -> In col (columns df)).
  { intros col H. apply filter_In in H. tauto. }
  specialize (L Hsub).
  unfold DataCleaner._convert_percentages. simpl. fold cols.
  destruct (percentages_ok df) eqn:E.
  - rewrite L. simpl. f_equal. unfold DataCleaner.set_data. simpl. f_equal.
    unfold fillna_in, loop_result. rewrite map_map. apply map_ext_in.
    intros c Hc. rewrite (Hmem c Hc).
    destruct (is_percentage (name c)) eqn:Ep; simpl.
    + rewrite (Hmem c Hc), Ep.
      unfold map_values, with_values. simpl. f_equal. rewrite map_map.
      apply map_ext_in. intros x Hx. apply percent_value_raw.
      unfold percentages_ok in E. rewrite forallb_forall in E.
      specialize (E c Hc). rewrite Ep in E. simpl in E.
      rewrite forallb_forall in E. now apply E.
    + now rewrite (Hmem c Hc), Ep.
  - destruct L as [m ->]. simpl. eauto.
Qed.

(** C1, as the code has it.  On a frame with distinct labels, [clean_data]
    raises exactly when a percentage column holds, below the metadata row, a
    text cell that [float] does not accept once its trailing percent signs
    are stripped, and what it raises is that [ValueError].  When every such
    cell is readable, the percentage step turns each cell of a percentage
    column into its number over 100, a missing cell into 0.0, leaves the
    other columns alone, and [clean_data] returns a table. *)
Theorem clean_data_raises_on_unreadable_percentage (df : DataFrame) :
  distinct (columns df) = true ->
  let self := DataCleaner._remove_metadata_row (DataCleaner.__init__ df) in
  if percentages_ok (table_of self)
  then (exists self',
           DataCleaner._convert_percentages self = Ok self'
           /\ table_of self'
              = map (fun c => if is_percentage (name c)
                              then map_values percent_value c else c)
                    (table_of self))
       /\ exists out, DataCleaner.clean_data (DataCleaner.__init__ df) = Ok out
  else exists m,
      DataCleaner.clean_data (DataCleaner.__init__ df) = Raise (ValueError m).
Proof.
  intros Hd self.
  set (df1 := map (fun c => with_values c (tl (values c))) df).
  assert (Hc1 : columns df1 = columns df) by apply remove_metadata_row_columns.
  assert (Hd1 : distinct (columns df1) = true) by now rewrite Hc1.
  assert (Es : self = DataCleaner.mk df1 (filter is_percentage (columns df1))).
  { unfold self. rewrite Hc1. reflexivity. }
  pose proof (convert_percentages_spec df1 Hd1) as S. simpl in S.
  unfold DataCleaner.clean_data. fold self.
  replace (table_of self) with df1 by reflexivity.
  rewrite Es.
  destruct (percentages_ok df1).
  - rewrite S. split.
    + eexists. split; reflexivity.
    + simpl. eexists. reflexivity.
  - destruct S as [m ->]. simpl. eauto.
Qed.

(* ===================================================================== *)
(** ** Invariants of [clean_data] *)
(* ===================================================================== *)

Lemma convert_percentage_column_dims (df df' : DataFrame) (col : string) :
  rectangular df = true ->
  DataCleaner.convert_percentage_column df col = Ok df' ->
  dims df' = dims df.
Proof.
  intros Hr. unfold DataCleaner.convert_percentage_column.
  destruct (getitem df col) as [c|e] eqn:Eg; simpl; [|discriminate].
  destruct (mapM DataCleaner.percent_cell (values c)) as [vs|e] eqn:Em;
    simpl; [|discriminate].
  intros H. injection H as <-.
  apply getitem_Ok_inv in Eg. destruct Eg as [Hc _].
  apply mapM_length in Em.
  unfold DataCleaner.assign. apply map_dims. intros c' Hc'.
  destruct (String.eqb (name c') col); simpl; [|auto].
  split; [reflexivity|].
  rewrite Em, (rectangular_length df c Hr Hc).
  symmetry. now apply rectangular_length.
Qed.

Lemma convert_percentage_loop_dims (cols : list string) :
  forall df df' : DataFrame,
    rectangular df = true ->
    DataCleaner.convert_percentage_loop cols df = Ok df' ->
    dims df' = dims df.
Proof.
  induction cols as [|col cols IH]; intros df df' Hr; simpl.
  - intros H. now injection H as <-.
  - destruct (DataCleaner.convert_percentage_column df col) as [df1|e] eqn:E;
      simpl; [|discriminate].
    intros H. pose proof (convert_percentage_column_dims _ _ _ Hr E) as D.
    rewrite <- D. apply IH; [|assumption].
    now rewrite (dims_rectangular _ _ D).
Qed.

Lemma convert_percentages_dims (self self' : DataCleaner.t) :
  rectangular (table_of self) = true ->
  DataCleaner._convert_percentages self = Ok self' ->
  dims (table_of self') = dims (table_of self).
Proof.
  intros Hr. unfold DataCleaner._convert_percentages.
  destruct (DataCleaner.convert_percentage_loop _ _) as [df1|e] eqn:E;
    simpl; [|discriminate].
  intros H. injection H as <-. unfold table_of. simpl.
  rewrite (shape_dims _ _ (fillna_in_shape _ _ df1)).
  now apply (convert_percentage_loop_dims _ _ _ Hr E).
Qed.

Lemma convert_columns_to_numerical_dims (self : DataCleaner.t) :
  dims (table_of (DataCleaner._convert_columns_to_numerical self))
  = dims (table_of self).
Proof.
  unfold table_of. simpl. apply map_dims. intros c _.
  rewrite convert_to_numerical_spec.
  destruct (forallb convertible (values c)); simpl; [|auto].
  now rewrite length_map.
Qed.

Lemma remove_metadata_row_nrows (df : DataFrame) :
  nrows (map (fun c => with_values c (tl (values c))) df) = pred (nrows df).
Proof. destruct df as [|c df]; simpl; [reflexivity|]. now destruct (values c). Qed.

Lemma remove_metadata_row_rectangular (df : DataFrame) :
  rectangular df = true ->
  rectangular (map (fun c => with_values c (tl (values c))) df) = true.
Proof.
  intros Hr. unfold rectangular. rewrite remove_metadata_row_nrows.
  apply forallb_forall. intros c' Hc'. apply in_map_iff in Hc'.
  destruct Hc' as (c & <- & Hc). simpl. apply Nat.eqb_eq.
  rewrite <- (rectangular_length df c Hr Hc). now destruct (values c).
Qed.

Lemma drop_duplicates_nrows (df : DataFrame) :
  nrows (drop_duplicates df) <= nrows df.
Proof.
  unfold drop_duplicates.
  etransitivity; [apply take_nrows_le|].
  etransitivity; [apply first_seen_length|].
  rewrite length_map. unfold positions. now rewrite length_seq.
Qed.

Lemma select_dtypes_mem (d : dtype) (df : DataFrame) (c : Series) :
  distinct (columns df) = true -> In c df ->
  mem (name c) (select_dtypes d df) = dtype_eqb (dtype_of c) d.
Proof.
  intros Hd Hc. destruct (dtype_eqb (dtype_of c) d) eqn:E.
  - apply mem_In. unfold select_dtypes, columns. apply in_map.
    apply filter_In. auto.
  - apply not_true_is_false. intros H. apply mem_In in H.
    unfold select_dtypes, columns in H. apply in_map_iff in H.
    destruct H as (c' & Hn & Hf). apply filter_In in Hf. destruct Hf as [Hc' E'].
    rewrite (distinct_name_inj df c' c Hd Hc' Hc Hn) in E'. congruence.
Qed.

Lemma fill_missing_values_spec (self : DataCleaner.t) :
  distinct (columns (table_of self)) = true ->
  table_of (DataCleaner._fill_missing_values self)
  = map (fun c => map_values (fillna_cell (fill_value (dtype_of c))) c)
        (table_of self).
Proof.
  destruct self as [df pcs]. unfold table_of. intros Hd.
  rewrite fill_frame_eq. cbn [DataCleaner.data] in *.
  set (df1 := fillna_in (select_dtypes float64 df) (CFloat zero) df).
  assert (E1 : df1 = map (fun c => if dtype_eqb (dtype_of c) float64
                                   then map_values (fillna_cell (CFloat zero)) c
                                   else c) df).
  { unfold df1, fillna_in. apply map_ext_in. intros c Hc.
    now rewrite (select_dtypes_mem float64 df c Hd Hc). }
  assert (Es : select_dtypes object df1 = select_dtypes object df).
  { apply shape_select_dtypes. apply fillna_in_shape. }
  rewrite Es, E1. unfold fillna_in. rewrite map_map. apply map_ext_in.
  intros c Hc. destruct (dtype_of c) eqn:Edt; simpl.
  - assert (Em : mem (name c) (select_dtypes object df) = false).
    { rewrite (select_dtypes_mem object df c Hd Hc), Edt. reflexivity. }
    rewrite Em. reflexivity.
  - assert (Em : mem (name c) (select_dtypes object df) = true).
    { rewrite (select_dtypes_mem object df c Hd Hc), Edt. reflexivity. }
    rewrite Em. reflexivity.
Qed.

(** C8.  For a raw table with its metadata row, the table [clean_data]
    returns has the labels of the input in the same order, at most the input's
    row count minus one rows, and no missing cell in a float64 column; the
    fill step itself replaces a missing cell by 0.0 in a float64 column and by
    "Unknown" in an object column, and changes no other cell. *)
Theorem clean_data_invariants (df out : DataFrame) :
  rectangular df = true ->
  1 <= nrows df ->
  DataCleaner.clean_data (DataCleaner.__init__ df) = Ok out ->
  columns out = columns df
  /\ (Z.of_nat (nrows out) <= Z.of_nat (nrows df) - 1)%Z
  /\ (forall c, In c out -> dtype_of c = float64 ->
                forall x, In x (values c) -> isna x = false)
  /\ (forall self : DataCleaner.t,
         distinct (columns (table_of self)) = true ->
         table_of (DataCleaner._fill_missing_values self)
         = map (fun c => map_values (fillna_cell (fill_value (dtype_of c))) c)
               (table_of self)).
Proof.
  intros Hr Hn H. unfold DataCleaner.clean_data in H.
  set (self1 := DataCleaner._remove_metadata_row (DataCleaner.__init__ df)) in H.
  destruct (DataCleaner._convert_percentages self1) as [self2|e] eqn:E2;
    simpl in H; [|discriminate].
  injection H as <-.
  set (self3 := DataCleaner._convert_columns_to_numerical self2).
  set (self4 := DataCleaner._fill_missing_values self3).
  assert (R1 : rectangular (table_of self1) = true)
    by now apply remove_metadata_row_rectangular.
  pose proof (convert_percentages_dims _ _ R1 E2) as D2.
  pose proof (convert_columns_to_numerical_dims self2) as D3. fold self3 in D3.
  pose proof (shape_dims _ _ (fill_missing_values_shape self3)) as D4.
  fold self4 in D4. fold (table_of self4) in D4. fold (table_of self3) in D4.
  assert (D : dims (table_of self4) = dims (table_of self1))
    by (rewrite D4, D3; exact D2).
  assert (R4 : rectangular (table_of self4) = true)
    by (rewrite (dims_rectangular _ _ D); exact R1).
  split; [|split; [|split]].
  - change (columns (drop_duplicates (table_of self4)) = columns df).
    unfold drop_duplicates. rewrite take_columns, (dims_columns _ _ D).
    apply remove_metadata_row_columns.
  - change (Z.of_nat (nrows (drop_duplicates (table_of self4)))
            <= Z.of_nat (nrows df) - 1)%Z.
    pose proof (drop_duplicates_nrows (table_of self4)) as L.
    rewrite (dims_nrows _ _ D) in L.
    unfold self1 in L. rewrite remove_metadata_row_table in L.
    rewrite remove_metadata_row_nrows in L. lia.
  - intros c Hc _. revert c Hc.
    change (no_na (drop_duplicates (table_of self4))).
    apply drop_duplicates_no_na; [exact R4|].
    apply fill_missing_values_no_na.
  - exact fill_missing_values_spec.
Qed.

(* ===================================================================== *)
(** ** Sorting *)
(* ===================================================================== *)

Lemma fleb_total (x y : F64) :
  is_nan x = false -> is_nan y = false -> fleb x y = true \/ fleb y x = true.
Proof.
  destruct x as [p| | |], y as [q| | |]; simpl; intros Hx Hy;
    try discriminate; auto.
  destruct (Qlt_le_dec p q) as [H|H].
  - left. apply Qle_bool_iff. now apply Qlt_le_weak.
  - right. now apply Qle_bool_iff.
Qed.

Lemma fleb_trans (x y z : F64) :
  fleb x y = true -> fleb y z = true -> fleb x z = true.
Proof.
  destruct x as [p| | |], y as [q| | |], z as [r| | |]; simpl;
    intros Hxy Hyz; try discriminate; try reflexivity.
  apply Qle_bool_iff. apply Qle_bool_iff in Hxy, Hyz.
  now apply (Qle_trans _ q).
Qed.

Lemma desc_before_total (x y : F64) :
  desc_before x y = true \/ desc_before y x = true.
Proof.
  unfold desc_before.
  destruct (is_nan y) eqn:Ey; [now left|].
  destruct (is_nan x) eqn:Ex; [now right|]. simpl.
  destruct (fleb_total x y Ex Ey); auto.
Qed.

Lemma desc_before_trans (x y z : F64) :
  desc_before x y = true -> desc_before y z = true -> desc_before x z = true.
Proof.
  unfold desc_before. intros Hxy Hyz.
  destruct (is_nan z) eqn:Ez; [reflexivity|]. simpl in *.
  apply andb_true_iff in Hyz. destruct Hyz as [Hy Hzy].
  apply negb_true_iff in Hy. rewrite Hy in Hxy. simpl in Hxy.
  apply andb_true_iff in Hxy. destruct Hxy as [Hx Hyx].
  rewrite Hx. simpl. now apply (fleb_trans z y x).
Qed.

Section InsertionSort.
Context {A : Type} (leb : A -> A -> bool) (R : A -> A -> Prop).
Hypothesis leb_true : forall a b, leb a b = true -> R a b.
Hypothesis leb_false : forall a b, leb a b = false -> R b a.
Hypothesis R_trans : forall a b c, R a b -> R b c -> R a c.

Lemma insert_sorted_perm (x : A) (l : list A) :
  Permutation (insert_sorted leb x l) (x :: l).
Proof.
  induction l as [|y l IH]; simpl; [reflexivity|].
  destruct (leb x y); [reflexivity|].
  rewrite IH. apply perm_swap.
Qed.

Lemma insertion_sort_perm (l : list A) : Permutation (insertion_sort leb l) l.
Proof.
  induction l as [|x l IH]; simpl; [reflexivity|].
  rewrite insert_sorted_perm. now constructor.
Qed.

Lemma insert_sorted_sorted (x : A) (l : list A) :
  StronglySorted R l -> StronglySorted R (insert_sorted leb x l).
Proof.
  induction l as [|y l IH]; simpl; intros H.
  - repeat constructor.
  - inversion H as [|? ? Hs Hf]; subst.
    destruct (leb x y) eqn:E.
    + constructor; [assumption|]. constructor; [now apply leb_true|].
      eapply Forall_impl; [|exact Hf]. intros z Hz.
      apply (R_trans x y z); [now apply leb_true|assumption].
    + constructor; [now apply IH|].
      rewrite insert_sorted_perm. constructor; [now apply leb_false|assumption].
Qed.

Lemma insertion_sort_sorted (l : list A) : StronglySorted R (insertion_sort leb l).
Proof.
  induction l as [|x l IH]; simpl; [constructor|].
  now apply insert_sorted_sorted.
Qed.
End InsertionSort.

Lemma firstn_In {A : Type} (n : nat) (l : list A) (x : A) :
  In x (firstn n l) -> In x l.
Proof.
  intros H. rewrite <- (firstn_skipn n l). apply in_or_app. now left.
Qed.


Lemma map_snd_combine {A B : Type} (l : list A) (l' : list B) :
  List.length l = List.length l' -> map snd (combine l l') = l'.
Proof.
  revert l'. induction l as [|a l IH]; intros [|b l'] H;
    try discriminate; [reflexivity|].
  simpl. f_equal. apply IH. simpl in H. lia.
Qed.

Lemma in_combine_seq (keys : list F64) (i0 : nat) (k : F64) (i : nat) :
  In (k, i) (combine keys (seq i0 (List.length keys))) ->
  i0 <= i /\ nth (i - i0) keys NaN = k.
Proof.
  revert i0. induction keys as [|a keys IH]; intros i0; simpl; [contradiction|].
  intros [H|H].
  - injection H as -> ->. rewrite Nat.sub_diag. auto.
  - destruct (IH _ H) as [Hle Hn]. split; [lia|].
    replace (i - i0) with (S (i - S i0)) by lia. exact Hn.
Qed.

Lemma StronglySorted_map_in {A B : Type} (R : A -> A -> Prop) (R' : B -> B -> Prop)
      (f : A -> B) (l : list A) :
  (forall a b, In a l -> In b l -> R a b -> R' (f a) (f b)) ->
  StronglySorted R l -> StronglySorted R' (map f l).
Proof.
  induction l as [|x l IH]; intros H Hs; simpl; [constructor|].
  inversion Hs as [|? ? Hs' Hf]; subst. constructor.
  - apply IH; [|assumption]. intros a b Ha Hb. apply H; now right.
  - rewrite Forall_forall in *. intros y Hy. apply in_map_iff in Hy.
    destruct Hy as (z & <- & Hz). apply H; [now left|now right|now apply Hf].
Qed.

Lemma argsort_by_sorts (strict : bool) : sorts_descending (argsort_by strict).
Proof.
  intros keys. unfold argsort_by.
  set (pairs := combine keys (seq 0 (List.length keys))).
  set (sorted := insertion_sort (key_before strict) pairs).
  assert (Hp : Permutation sorted pairs) by apply insertion_sort_perm.
  split.
  - rewrite Hp. unfold pairs. rewrite map_snd_combine; [reflexivity|].
    now rewrite length_seq.
  - apply (StronglySorted_map_in
             (fun a b => desc_before (fst a) (fst b) = true)).
    + intros [k i] [k' i'] Ha Hb. simpl.
      apply (Permutation_in _ Hp) in Ha, Hb.
      apply in_combine_seq in Ha, Hb.
      destruct Ha as [_ Ha], Hb as [_ Hb].
      rewrite Nat.sub_0_r in Ha, Hb. now rewrite Ha, Hb.
    + apply (insertion_sort_sorted (key_before strict)).
      * intros a b. unfold key_before. destruct strict; [|auto].
        rewrite negb_true_iff. intros H.
        destruct (desc_before_total (fst a) (fst b)); congruence.
      * intros a b. unfold key_before. destruct strict.
        -- rewrite negb_false_iff. auto.
        -- intros H. destruct (desc_before_total (fst a) (fst b)); congruence.
      * intros a b c. apply desc_before_trans.
Qed.

(* ===================================================================== *)
(** ** Records and rows *)
(* ===================================================================== *)

Lemma record_get_row (df : DataFrame) (i : nat) (label : string) :
  record_get (row df i) label
  = match getitem df label with
    | Ok c => Ok (cell_at c i)
    | Raise e => Raise e
    end.
Proof.
  unfold record_get, getitem, row.
  induction df as [|c df IH]; simpl; [reflexivity|].
  destruct (String.eqb (name c) label); simpl; [reflexivity|exact IH].
Qed.

Lemma cell_at_take (idx : list nat) (c : Series) (k : nat) :
  k < List.length idx ->
  cell_at (with_values c (map (cell_at c) idx)) k = cell_at c (nth k idx 0).
Proof.
  intros Hk. unfold cell_at at 1. cbn [values with_values].
  rewrite (nth_indep _ nan (cell_at c 0)) by now rewrite length_map.
  now rewrite map_nth.
Qed.

Lemma row_take (idx : list nat) (df : DataFrame) (k : nat) :
  k < List.length idx -> row (take idx df) k = row df (nth k idx 0).
Proof.
  intros Hk. unfold row, take. rewrite map_map.
  apply map_ext. intros c. now rewrite cell_at_take.
Qed.

Lemma to_records_take (idx : list nat) (df : DataFrame) :
  df <> [] -> to_records (take idx df) = map (row df) idx.
Proof.
  intros Hdf. unfold to_records, positions. rewrite (take_nrows idx df Hdf).
  rewrite <- (map_nth_positions (row df) 0 idx).
  apply map_ext_in. intros k Hk. apply in_seq in Hk.
  apply row_take. lia.
Qed.

Lemma head_take (n : Z) (idx : list nat) (df : DataFrame) :
  head n (take idx df) = take (firstn (slice_stop (List.length idx) n) idx) df.
Proof.
  unfold head, take. rewrite map_map. apply map_ext. intros c.
  unfold with_values. simpl. now rewrite length_map, firstn_map.
Qed.

Lemma row_columns (df : DataFrame) (i : nat) : map fst (row df i) = columns df.
Proof. unfold row, columns. rewrite map_map. reflexivity. Qed.

Lemma has_column_nonempty (df : DataFrame) (label : string) :
  has_column df label = true -> df <> [].
Proof. intros H ->. discriminate. Qed.

Lemma column_is_getitem (df : DataFrame) (label : string) (d : dtype) :
  column_is df label d = true ->
  exists c, getitem df label = Ok c /\ In c df /\ name c = label /\ dtype_of c = d.
Proof.
  unfold column_is. destruct (getitem df label) as [c|e] eqn:E; [|discriminate].
  intros H. exists c. destruct (getitem_Ok_inv _ _ _ E) as [Hin Hn].
  repeat split; auto. destruct (dtype_of c), d; (reflexivity || discriminate).
Qed.

Lemma column_is_has_column (df : DataFrame) (label : string) (d : dtype) :
  column_is df label d = true -> has_column df label = true.
Proof.
  intros H. destruct (column_is_getitem _ _ _ H) as (c & _ & Hin & Hn & _).
  apply has_column_In. rewrite <- Hn. unfold columns. now apply in_map.
Qed.

Lemma text_column_cell (df : DataFrame) (label : string) (i : nat) :
  rectangular df = true -> text_column df label = true -> i < nrows df ->
  exists c, getitem df label = Ok c /\ cell_at c i = CStr (text_at df label i).
Proof.
  unfold text_column, text_at, cell_of. intros Hr.
  destruct (getitem df label) as [c|e] eqn:E; [|discriminate].
  intros Hs Hi. exists c. split; [reflexivity|].
  destruct (getitem_Ok_inv _ _ _ E) as [Hin _].
  rewrite forallb_forall in Hs.
  assert (Hc : In (cell_at c i) (values c)).
  { unfold cell_at. apply nth_In. now rewrite (rectangular_length df c Hr Hin). }
  specialize (Hs _ Hc). now destruct (cell_at c i).
Qed.

Lemma float_column_cell (df : DataFrame) (label : string) (i : nat) :
  rectangular df = true -> well_typed df = true ->
  column_is df label float64 = true -> i < nrows df ->
  exists c, getitem df label = Ok c /\ cell_at c i = CFloat (float_at df label i).
Proof.
  intros Hr Ht Hc Hi. destruct (column_is_getitem _ _ _ Hc) as (c & E & Hin & _ & Hd).
  exists c. split; [assumption|]. unfold float_at, cell_of. rewrite E.
  unfold well_typed in Ht. rewrite forallb_forall in Ht. specialize (Ht c Hin).
  unfold well_typed_column in Ht. rewrite Hd, forallb_forall in Ht.
  assert (Hcell : In (cell_at c i) (values c)).
  { unfold cell_at. apply nth_In. now rewrite (rectangular_length df c Hr Hin). }
  specialize (Ht _ Hcell). now destruct (cell_at c i).
Qed.

Lemma plant_table_inv (df : DataFrame) :
  plant_table df = true ->
  distinct (columns df) = true /\ rectangular df = true /\ well_typed df = true
  /\ text_column df "Plant name" = true
  /\ text_column df "Plant state abbreviation" = true.
Proof.
  unfold plant_table, wf_frame. rewrite !andb_true_iff. tauto.
Qed.

Lemma top_power_plant_row (df : DataFrame) (metric : string) (i : nat) :
  plant_table df = true -> column_is df metric float64 = true -> i < nrows df ->
  PowerPlantDataHandler.top_power_plant metric (row df i)
  = Ok (plant_entry df metric i).
Proof.
  intros Hp Hm Hi.
  destruct (plant_table_inv df Hp) as (_ & Hr & Ht & Hn & Hs).
  unfold PowerPlantDataHandler.top_power_plant. rewrite !record_get_row.
  destruct (text_column_cell df _ i Hr Hn Hi) as (cn & -> & En).
  destruct (text_column_cell df _ i Hr Hs Hi) as (cs & -> & Es).
  destruct (float_column_cell df _ i Hr Ht Hm Hi) as (cm & -> & Em).
  simpl. rewrite En, Es, Em. reflexivity.
Qed.

Lemma metric_keys_values (df : DataFrame) (metric : string) (c : Series) :
  rectangular df = true -> getitem df metric = Ok c ->
  map float_of_cell (values c) = metric_keys df metric.
Proof.
  intros Hr E. destruct (getitem_Ok_inv _ _ _ E) as [Hin _].
  unfold metric_keys, positions, float_at, cell_of. rewrite E.
  rewrite <- (rectangular_length df c Hr Hin).
  rewrite <- (map_map (cell_at c) float_of_cell). unfold cell_at.
  now rewrite map_nth_seq.
Qed.

Lemma metric_keys_length (df : DataFrame) (metric : string) :
  List.length (metric_keys df metric) = nrows df.
Proof. unfold metric_keys, positions. now rewrite length_map, length_seq. Qed.

Lemma get_top_n_plants_numeric (argsort_desc : list F64 -> list nat)
      (self : PowerPlantDataHandler.t) (top_number : Z) (metric : string) :
  let df := PowerPlantDataHandler.plant_data self in
  rectangular df = true -> column_is df metric float64 = true ->
  Permutation (argsort_desc (metric_keys df metric)) (positions df) ->
  PowerPlantDataHandler.get_top_n_plants argsort_desc self top_number metric
  = mapM (PowerPlantDataHandler.top_power_plant metric)
         (map (row df) (top_positions argsort_desc df top_number metric)).
Proof.
  intros df Hr Hm Hperm.
  pose proof (column_is_has_column _ _ _ Hm) as Hh.
  destruct (column_is_getitem _ _ _ Hm) as (c & E & Hin & Hn & Hd).
  unfold PowerPlantDataHandler.get_top_n_plants. fold df.
  rewrite Hh, E. simpl.
  unfold PowerPlantDataHandler.is_numeric_dtype. rewrite Hd. simpl.
  unfold PowerPlantDataHandler.sort_values. rewrite E. simpl.
  rewrite (metric_keys_values df metric c Hr E), head_take.
  rewrite to_records_take by (eapply has_column_nonempty; eauto).
  unfold top_positions. rewrite (Permutation_length Hperm).
  unfold positions. now rewrite length_seq.
Qed.

Lemma get_top_n_plants_ok (argsort_desc : list F64 -> list nat)
      (self : PowerPlantDataHandler.t) (top_number : Z) (metric : string) :
  let df := PowerPlantDataHandler.plant_data self in
  plant_table df = true -> column_is df metric float64 = true ->
  Permutation (argsort_desc (metric_keys df metric)) (positions df) ->
  PowerPlantDataHandler.get_top_n_plants argsort_desc self top_number metric
  = Ok (map (plant_entry df metric)
            (top_positions argsort_desc df top_number metric)).
Proof.
  intros df Hp Hm Hperm.
  destruct (plant_table_inv df Hp) as (_ & Hr & _).
  rewrite (get_top_n_plants_numeric argsort_desc self top_number metric Hr Hm Hperm).
  fold df. rewrite mapM_map. apply mapM_ok_map. intros i Hi.
  apply top_power_plant_row; try assumption.
  unfold top_positions in Hi. apply firstn_In in Hi.
  apply (Permutation_in _ Hperm) in Hi. unfold positions in Hi.
  apply in_seq in Hi. lia.
Qed.

(* ===================================================================== *)
(** ** [get_top_n_plants] *)
(* ===================================================================== *)

Lemma nth_metric_keys (df : DataFrame) (metric : string) (i : nat) :
  i < nrows df -> nth i (metric_keys df metric) NaN = float_at df metric i.
Proof.
  intros Hi. unfold metric_keys, positions.
  rewrite (nth_indep _ NaN (float_at df metric 0))
    by now rewrite length_map, length_seq.
  rewrite map_nth, seq_nth; [reflexivity|assumption].
Qed.

Lemma argsort_positions (argsort_desc : list F64 -> list nat)
      (df : DataFrame) (metric : string) :
  sorts_descending argsort_desc ->
  let idx := argsort_desc (metric_keys df metric) in
  Permutation idx (positions df) /\ rows_descending df metric idx.
Proof.
  intros Hs idx. destruct (Hs (metric_keys df metric)) as [Hp Hsorted].
  rewrite metric_keys_length in Hp. split; [exact Hp|].
  unfold rows_descending. rewrite <- (map_id idx).
  apply (StronglySorted_map_in
           (fun i j => desc_before (nth i (metric_keys df metric) NaN)
                                   (nth j (metric_keys df metric) NaN) = true)
           _ (fun i => i)); [|exact Hsorted].
  intros i j Hi Hj.
  apply (Permutation_in _ Hp), in_seq in Hi.
  apply (Permutation_in _ Hp), in_seq in Hj.
  rewrite !nth_metric_keys by lia. auto.
Qed.



Lemma record_get_raises (r : record) (label : string) (e : exn) :
  record_get r label = Raise e -> e = KeyError label.
Proof.
  unfold record_get. destruct (find _ r); [discriminate|]. now intros [= <-].
Qed.

Lemma validate_str_raises (field : string) (c : cell) (e : exn) :
  validate_str field c = Raise e -> e = ValidationError field.
Proof. destruct c; simpl; [now intros [= <-]|discriminate]. Qed.

Lemma validate_float_raises (field : string) (c : cell) (e : exn) :
  validate_float field c = Raise e -> e = ValidationError field.
Proof. destruct c; simpl; [discriminate|now intros [= <-]]. Qed.

Ltac bind_cases H :=
  repeat match type of H with
         | bind ?m _ = Raise _ =>
             let E := fresh "E" in
             destruct m eqn:E; cbn [bind] in H
         end.

Lemma top_power_plant_raises (metric : string) (r : record) (e : exn) :
  PowerPlantDataHandler.top_power_plant metric r = Raise e ->
  forall m, e <> BadMetricError m.
Proof.
  unfold PowerPlantDataHandler.top_power_plant. intros H m.
  bind_cases H; try discriminate; injection H as <-;
    match goal with
    | E : record_get _ _ = Raise _ |- _ => apply record_get_raises in E
    | E : validate_str _ _ = Raise _ |- _ => apply validate_str_raises in E
    | E : validate_float _ _ = Raise _ |- _ => apply validate_float_raises in E
    end; subst; discriminate.
Qed.

Lemma append_inj_l (p a b : string) : (p ++ a = p ++ b)%string -> a = b.
Proof.
  induction p as [|c p IH]; simpl; intros H; [assumption|].
  injection H as H. auto.
Qed.

Lemma messages_differ (metric : string) : msg_absent metric <> msg_not_numerical metric.
Proof.
  unfold msg_absent, msg_not_numerical. intros H.
  apply append_inj_l, append_inj_l in H. discriminate.
Qed.

(** C7.  For [n > 0], [get_top_n_plants] raises [BadMetricError] exactly in
    two cases: the metric is no column of the plant table, and the message says
    it does not exist; or it is a column that is not float64, and the message
    says it is not numerical.  Both messages quote the metric and they differ.
    On a float64 metric column no [BadMetricError] is raised, and on a plant
    table the call returns. *)
Theorem top_n_plants_bad_metric (argsort_desc : list F64 -> list nat)
        (self : PowerPlantDataHandler.t) (n : Z) (metric : string) :
  (0 < n)%Z ->
  let df := PowerPlantDataHandler.plant_data self in
  let r := PowerPlantDataHandler.get_top_n_plants argsort_desc self n metric in
  (has_column df metric = false ->
   r = Raise (BadMetricError (msg_absent metric)))
  /\ (has_column df metric = true -> column_is df metric float64 = false ->
      r = Raise (BadMetricError (msg_not_numerical metric)))
  /\ (column_is df metric float64 = true ->
      forall m, r <> Raise (BadMetricError m))
  /\ (column_is df metric float64 = true -> plant_table df = true ->
      Permutation (argsort_desc (metric_keys df metric)) (positions df) ->
      exists plants, r = Ok plants)
  /\ msg_absent metric <> msg_not_numerical metric.
Proof.
  intros _ df r. unfold r, PowerPlantDataHandler.get_top_n_plants. fold df.
  split; [|split; [|split; [|split]]].
  - intros ->. reflexivity.
  - intros Hh Hc. rewrite Hh. simpl.
    destruct (getitem_has_column df metric Hh) as [c E]. rewrite E. simpl.
    unfold column_is in Hc. rewrite E in Hc.
    unfold PowerPlantDataHandler.is_numeric_dtype. rewrite Hc. reflexivity.
  - intros Hc m. rewrite (column_is_has_column _ _ _ Hc). simpl.
    destruct (column_is_getitem _ _ _ Hc) as (c & E & _ & _ & Hd).
    rewrite E. simpl.
    unfold PowerPlantDataHandler.is_numeric_dtype. rewrite Hd. simpl.
    unfold PowerPlantDataHandler.sort_values. rewrite E. simpl.
    intros H. apply mapM_raise_inv in H. destruct H as (x & _ & Hx).
    exact (top_power_plant_raises _ _ _ Hx m eq_refl).
  - intros Hc Hp Hperm.
    pose proof (get_top_n_plants_ok argsort_desc self n metric Hp Hc Hperm) as H.
    unfold PowerPlantDataHandler.get_top_n_plants in H. fold df in H.
    rewrite H. eauto.
  - apply messages_differ.
Qed.

(** C10.  [get_top_n_plants] does not look at the sign of [top_number]: on a
    float64 metric column, 0 gives the empty list, and [- k] for [k > 0] gives
    the entries of the sorted rows without the last [k] of them, nothing being
    raised in either case. *)
Theorem top_n_plants_nonpositive (argsort_desc : list F64 -> list nat)
        (self : PowerPlantDataHandler.t) (metric : string) :
  let df := PowerPlantDataHandler.plant_data self in
  let idx := argsort_desc (metric_keys df metric) in
  sorts_descending argsort_desc ->
  rectangular df = true ->
  column_is df metric float64 = true ->
  PowerPlantDataHandler.get_top_n_plants argsort_desc self 0 metric = Ok []
  /\ Permutation idx (positions df)
  /\ rows_descending df metric idx
  /\ (plant_table df = true ->
      forall k : Z, (0 < k)%Z ->
        PowerPlantDataHandler.get_top_n_plants argsort_desc self (- k) metric
        = Ok (map (plant_entry df metric)
                  (firstn (List.length idx - Z.to_nat k) idx))).
Proof.
  intros df idx Hs Hr Hm.
  destruct (argsort_positions argsort_desc df metric Hs) as [Hperm Hsorted].
  fold idx in Hperm, Hsorted.
  split; [|split; [exact Hperm|split; [exact Hsorted|]]].
  - rewrite (get_top_n_plants_numeric argsort_desc self 0 metric Hr Hm Hperm).
    reflexivity.
  - intros Hp k Hk.
    rewrite (get_top_n_plants_ok argsort_desc self (- k) metric Hp Hm Hperm).
    fold df. unfold top_positions, slice_stop. fold idx.
    replace (0 <=? - k)%Z with false by (symmetry; apply Z.leb_gt; lia).
    rewrite Z.opp_involutive, (Permutation_length Hperm).
    unfold positions. now rewrite length_seq.
Qed.

(* ===================================================================== *)
(** ** [get_data_by_state] *)
(* ===================================================================== *)

Lemma nonzero_from_filter (mask : list bool) (i0 : nat) :
  nonzero_from i0 mask
  = filter (fun i => nth (i - i0) mask false) (seq i0 (List.length mask)).
Proof.
  revert i0. induction mask as [|b mask IH]; intros i0; [reflexivity|].
  cbn [nonzero_from List.length seq filter]. rewrite Nat.sub_diag.
  change (nth 0 (b :: mask) false) with b.
  assert (E : filter (fun i => nth (i - i0) (b :: mask) false)
                     (seq (S i0) (List.length mask))
              = filter (fun i => nth (i - S i0) mask false)
                       (seq (S i0) (List.length mask))).
  { apply filter_ext_in. intros i Hi. apply in_seq in Hi.
    replace (i - i0) with (S (i - S i0)) by lia. reflexivity. }
  rewrite E, <- IH. now destruct b.
Qed.

Lemma nonzero_map {A : Type} (p : A -> bool) (d : A) (l : list A) :
  nonzero (map p l)
  = filter (fun i => p (nth i l d)) (seq 0 (List.length l)).
Proof.
  unfold nonzero. rewrite nonzero_from_filter, length_map.
  apply filter_ext_in. intros i Hi. apply in_seq in Hi.
  rewrite Nat.sub_0_r.
  rewrite (nth_indep _ false (p d)) by (rewrite length_map; lia).
  apply map_nth.
Qed.

Lemma existsb_map_positions {A : Type} (p : A -> bool) (d : A) (l : list A) :
  existsb (fun b => b) (map p l)
  = existsb (fun i => p (nth i l d)) (seq 0 (List.length l)).
Proof.
  rewrite <- (map_nth_seq d l) at 1. rewrite map_map.
  generalize (seq 0 (List.length l)). intros idx.
  induction idx as [|i idx IH]; simpl; [reflexivity|]. now rewrite IH.
Qed.

Lemma existsb_pointwise {A : Type} (p q : A -> bool) (l : list A) :
  (forall x, p x = q x) -> existsb p l = existsb q l.
Proof.
  intros H. induction l as [|a l IH]; simpl; [reflexivity|]. now rewrite H, IH.
Qed.

Lemma cell_same_state (state : string) (c : cell) :
  cell_same (CStr state) c
  = match c with CStr s => String.eqb s state | CFloat _ => false end.
Proof. destruct c; simpl; [reflexivity|apply String.eqb_sym]. Qed.


(* ===================================================================== *)
(** ** The derived state metric *)
(* ===================================================================== *)

Lemma replace_chars_none (old new : list ascii) :
  forall (s : list ascii) (k : nat),
    Py.count_chars old k s = 0 -> Py.replace_chars old new k s = skipn k s.
Proof.
  induction s as [|c s IH]; intros k H; simpl.
  - now destruct k.
  - destruct k as [|k]; simpl in *.
    + destruct (Py.starts_with old (c :: s)); [discriminate|].
      f_equal. now apply (IH 0).
    + now apply IH.
Qed.




(* ===================================================================== *)
(** ** Keys *)
(* ===================================================================== *)

Lemma feqb_iff (x y : F64) :
  feqb x y = true <->
  match x, y with
  | Fin p, Fin q => Qeq p q
  | PInf, PInf | NInf, NInf => True
  | _, _ => False
  end.
Proof.
  destruct x, y; simpl; try (split; (discriminate || tauto || reflexivity)).
  apply Qeq_bool_iff.
Qed.

Lemma cell_same_sym (a b : cell) : cell_same a b = cell_same b a.
Proof.
  destruct a as [x|s], b as [y|t]; simpl; try reflexivity.
  - rewrite (andb_comm (is_nan x)). f_equal.
    apply eq_true_iff_eq. rewrite !feqb_iff.
    destruct x, y; try tauto. split; intros H; now symmetry.
  - apply String.eqb_sym.
Qed.

Lemma cell_same_trans (a b c : cell) :
  cell_same a b = true -> cell_same b c = true -> cell_same a c = true.
Proof.
  destruct a as [x|s], b as [y|t], c as [z|u]; simpl; try discriminate.
  - rewrite !orb_true_iff, !andb_true_iff, !feqb_iff.
    destruct x, y, z; simpl; try tauto; try (intuition discriminate).
    intros [[? ?]|H1] [[? ?]|H2]; try discriminate. right.
    now rewrite H1.
  - rewrite !String.eqb_eq. congruence.
Qed.

Lemma cell_same_str (s : string) (c : cell) :
  cell_same (CStr s) c = true <-> c = CStr s.
Proof.
  destruct c as [x|t]; simpl; [split; discriminate|].
  rewrite String.eqb_eq. split; congruence.
Qed.

Lemma nonzero_from_none (mask : list bool) (i0 : nat) :
  (forall b, In b mask -> b = false) -> nonzero_from i0 mask = [].
Proof.
  revert i0. induction mask as [|b mask IH]; intros i0 H; simpl; [reflexivity|].
  rewrite (H b (or_introl eq_refl)). apply IH. intros b' Hb'. apply H. now right.
Qed.

Lemma nonzero_from_unique (k : cell) (rkeys : list cell) (i0 : nat) :
  unique_cells rkeys = true ->
  List.length (nonzero_from i0 (map (cell_same k) rkeys)) <= 1.
Proof.
  revert i0. induction rkeys as [|a rkeys IH]; intros i0 Hu; simpl; [lia|].
  simpl in Hu. apply andb_true_iff in Hu. destruct Hu as [Ha Hu].
  destruct (cell_same k a) eqn:E; [|now apply IH].
  rewrite nonzero_from_none; [simpl; lia|].
  intros b Hb. apply in_map_iff in Hb. destruct Hb as (c & <- & Hc).
  apply not_true_is_false. intros Hkc.
  apply negb_true_iff in Ha.
  assert (Hex : existsb (cell_same a) rkeys = true).
  { apply existsb_exists. exists c. split; [assumption|].
    apply (cell_same_trans a k c); [|assumption]. now rewrite cell_same_sym. }
  congruence.
Qed.

Lemma join_row_unique (rkeys : list cell) (ik : nat * cell) :
  unique_cells rkeys = true ->
  PowerPlantDataHandler.join_row rkeys ik
  = [(fst ik, first_match rkeys (snd ik))].
Proof.
  intros Hu. unfold PowerPlantDataHandler.join_row, first_match.
  pose proof (nonzero_from_unique (snd ik) rkeys 0 Hu) as L.
  unfold PowerPlantDataHandler.matches, nonzero.
  destruct (nonzero_from 0 (map (cell_same (snd ik)) rkeys)) as [|j [|j' js]];
    simpl in *; try reflexivity. lia.
Qed.

Lemma left_join_unique (lkeys rkeys : list cell) :
  unique_cells rkeys = true ->
  PowerPlantDataHandler.left_join lkeys rkeys
  = map (fun i => (i, first_match rkeys (nth i lkeys nan)))
        (seq 0 (List.length lkeys)).
Proof.
  intros Hu. unfold PowerPlantDataHandler.left_join.
  rewrite (flat_map_ext _ (fun ik => [(fst ik, first_match rkeys (snd ik))]))
    by (intros ik; now apply join_row_unique).
  rewrite flat_map_concat_map.
  assert (E : forall (l : list cell) (i0 : nat),
             List.concat (map (fun ik : nat * cell =>
                            [(fst ik, first_match rkeys (snd ik))])
                         (combine (seq i0 (List.length l)) l))
             = map (fun i => (i, first_match rkeys (nth (i - i0) l nan)))
                   (seq i0 (List.length l))).
  { induction l as [|a l IH]; intros i0; simpl; [reflexivity|].
    rewrite Nat.sub_diag. f_equal. rewrite IH.
    apply map_ext_in. intros i Hi. apply in_seq in Hi.
    replace (i - i0) with (S (i - S i0)) by lia. reflexivity. }
  rewrite (E lkeys 0). apply map_ext. intros i. now rewrite Nat.sub_0_r.
Qed.

(* ===================================================================== *)
(** ** [get_plant_metric_summary_by_state] *)
(* ===================================================================== *)

Lemma find_app {A : Type} (p : A -> bool) (l l' : list A) :
  find p (l ++ l') = match find p l with
                     | Some x => Some x
                     | None => find p l'
                     end.
Proof.
  induction l as [|a l IH]; simpl; [reflexivity|]. now destruct (p a).
Qed.

Lemma getitem_app_l (a b : DataFrame) (label : string) :
  has_column a label = true -> getitem (a ++ b)%list label = getitem a label.
Proof.
  intros H. destruct (getitem_has_column a label H) as [c E]. rewrite E.
  unfold getitem in *. rewrite find_app.
  destruct (find _ a); [assumption|discriminate].
Qed.

Lemma getitem_app_r (a b : DataFrame) (label : string) :
  has_column a label = false -> getitem (a ++ b)%list label = getitem b label.
Proof.
  intros H. unfold getitem. rewrite find_app.
  destruct (find _ a) as [c|] eqn:E; [|reflexivity].
  apply find_some in E. destruct E as [Hin E]. apply String.eqb_eq in E.
  assert (Hc : has_column a label = true).
  { apply has_column_In. rewrite <- E. unfold columns. now apply in_map. }
  congruence.
Qed.

Lemma getitem_take (idx : list nat) (df : DataFrame) (label : string) (c : Series) :
  getitem df label = Ok c ->
  getitem (take idx df) label = Ok (with_values c (map (cell_at c) idx)).
Proof.
  unfold getitem, take. induction df as [|a df IH]; simpl; [discriminate|].
  destruct (String.eqb (name a) label); [now intros [= ->]|exact IH].
Qed.

Lemma has_column_take (idx : list nat) (df : DataFrame) (label : string) :
  has_column (take idx df) label = has_column df label.
Proof. unfold has_column. now rewrite take_columns. Qed.

Lemma cell_of_getitem (df : DataFrame) (label : string) (c : Series) (i : nat) :
  getitem df label = Ok c -> cell_of df label i = cell_at c i.
Proof. unfold cell_of. now intros ->. Qed.

Lemma values_positions (df : DataFrame) (label : string) (c : Series) :
  rectangular df = true -> getitem df label = Ok c ->
  values c = map (cell_of df label) (positions df).
Proof.
  intros Hr E. destruct (getitem_Ok_inv _ _ _ E) as [Hin _].
  unfold positions. rewrite <- (rectangular_length df c Hr Hin).
  unfold cell_of. rewrite E. unfold cell_at. symmetry. apply map_nth_seq.
Qed.

(** *** The groups *)

Lemma unique_keys_In (ks seen : list cell) (k : cell) :
  Forall (fun c => PowerPlantDataHandler.is_str c = true) ks ->
  In k (unique_keys seen ks) <-> In k ks /\ existsb (cell_same k) seen = false.
Proof.
  revert seen. induction ks as [|a ks IH]; intros seen Hs; simpl.
  - tauto.
  - inversion Hs as [|? ? Ha Hs']; subst.
    destruct a as [x|s]; [discriminate|]. simpl.
    destruct (existsb (cell_same (CStr s)) seen) eqn:E.
    + rewrite (IH seen Hs'). split; [tauto|].
      intros [[<-|Hin] Hk]; [congruence|tauto].
    + simpl. rewrite (IH (CStr s :: seen) Hs'). simpl.
      rewrite orb_false_iff. split.
      * intros [<-|[Hin [Hne Hk]]]; [tauto|tauto].
      * intros [[<-|Hin] Hk]; [now left|].
        destruct (cell_same k (CStr s)) eqn:Eks.
        -- left. rewrite cell_same_sym in Eks.
           apply cell_same_str in Eks. now subst.
        -- right. tauto.
Qed.

Lemma unique_keys_NoDup (ks seen : list cell) :
  Forall (fun c => PowerPlantDataHandler.is_str c = true) ks ->
  NoDup (unique_keys seen ks).
Proof.
  revert seen. induction ks as [|a ks IH]; intros seen Hs; simpl.
  - constructor.
  - inversion Hs as [|? ? Ha Hs']; subst.
    destruct a as [x|s]; [discriminate|]. simpl.
    destruct (existsb (cell_same (CStr s)) seen); [now apply IH|].
    constructor; [|now apply IH].
    rewrite (unique_keys_In ks _ _ Hs'). simpl.
    rewrite String.eqb_refl. simpl. intros [_ H]. discriminate.
Qed.

Lemma unique_keys_str (ks seen : list cell) :
  Forall (fun c => PowerPlantDataHandler.is_str c = true) ks ->
  Forall (fun c => PowerPlantDataHandler.is_str c = true) (unique_keys seen ks).
Proof.
  intros Hs. rewrite Forall_forall in *. intros k Hk.
  assert (Hs' : Forall (fun c => PowerPlantDataHandler.is_str c = true) ks)
    by now rewrite Forall_forall.
  apply (unique_keys_In ks seen k Hs') in Hk. now apply Hs.
Qed.

Lemma key_text_str (k : cell) :
  PowerPlantDataHandler.is_str k = true -> k = CStr (key_text k).
Proof. destruct k; simpl; [discriminate|reflexivity]. Qed.

Lemma NoDup_key_text (ks : list cell) :
  Forall (fun c => PowerPlantDataHandler.is_str c = true) ks ->
  NoDup ks -> NoDup (map key_text ks).
Proof.
  induction ks as [|k ks IH]; intros Hs Hn; simpl; [constructor|].
  inversion Hs as [|? ? Hk Hs']; subst. inversion Hn as [|? ? Hnin Hn']; subst.
  constructor; [|now apply IH].
  intros Hin. apply in_map_iff in Hin. destruct Hin as (k' & E & Hk').
  rewrite Forall_forall in Hs'. apply Hnin.
  rewrite (key_text_str k Hk), <- E, <- (key_text_str k' (Hs' k' Hk')).
  exact Hk'.
Qed.

Lemma column_is_distinct_labels (df : DataFrame) (l l' : string) :
  column_is df l float64 = true -> column_is df l' object = true ->
  String.eqb l l' = false.
Proof.
  intros H H'. apply String.eqb_neq. intros ->.
  destruct (column_is_getitem _ _ _ H) as (c & E & _ & _ & Hd).
  destruct (column_is_getitem _ _ _ H') as (c' & E' & _ & _ & Hd').
  congruence.
Qed.

Lemma combine_map_seq {A B : Type} (f : nat -> A) (g : nat -> B) (idx : list nat) :
  combine (map f idx) (map g idx) = map (fun i => (f i, g i)) idx.
Proof. induction idx as [|i idx IH]; simpl; [reflexivity|]. now rewrite IH. Qed.

Lemma nth_map_seq {A : Type} (f : nat -> A) (d : A) (n i : nat) :
  i < n -> nth i (map f (seq 0 n)) d = f i.
Proof.
  intros Hi. rewrite (nth_indep _ d (f 0)) by now rewrite length_map, length_seq.
  rewrite map_nth, seq_nth; [reflexivity|assumption].
Qed.

Section Summary.
Variable self : PowerPlantDataHandler.t.
Variable plant_metric : string.

Let pdf := PowerPlantDataHandler.plant_data self.
Let sdf := PowerPlantDataHandler.state_data self.
Let state_metric := Py.replace "Plant" "State" plant_metric.

Hypothesis plant_ok : plant_table pdf = true.
Hypothesis state_rectangular : rectangular sdf = true.
Hypothesis plant_metric_ok : column_is pdf plant_metric float64 = true.
Hypothesis state_metric_ok : column_is sdf state_metric float64 = true.
Hypothesis no_clash : has_column pdf state_metric = false.
Hypothesis plant_key_ok : column_is pdf "Plant state abbreviation" object = true.
Hypothesis state_key_ok : column_is sdf "State abbreviation" object = true.
Hypothesis state_keys_unique : unique_cells (state_keys sdf) = true.

Let n := nrows pdf.

(** The state metric joined to plant row [i]. *)
Let joined (i : nat) : cell :=
  match first_match (state_keys sdf) (cell_of pdf "Plant state abbreviation" i) with
  | Some j => cell_of sdf state_metric j
  | None => nan
  end.

Let percentages : list cell :=
  map (fun i => PowerPlantDataHandler.percentage_cell (cell_of pdf plant_metric i) (joined i))
      (seq 0 n).

Let group_keys : list cell :=
  insertion_sort key_leb (unique_keys [] (map (cell_of pdf "Plant state abbreviation") (seq 0 n))).

Lemma summary_unfolded :
  PowerPlantDataHandler.get_plant_metric_summary_by_state self plant_metric
  = mapM (PowerPlantDataHandler.summary_record
            plant_metric
            (map (cell_of pdf "Plant state abbreviation") (seq 0 n))
            (map (cell_of pdf plant_metric) (seq 0 n))
            percentages)
         group_keys.
Proof.
  destruct (plant_table_inv pdf plant_ok) as (_ & Hr & _).
  destruct (column_is_getitem _ _ _ plant_metric_ok) as (pc & Epc & _ & _ & Hdpc).
  destruct (column_is_getitem _ _ _ state_metric_ok) as (sc & Esc & _ & Hnsc & Hdsc).
  destruct (column_is_getitem _ _ _ plant_key_ok) as (lk & Elk & _ & _ & Hdlk).
  destruct (column_is_getitem _ _ _ state_key_ok) as (ab & Eab & _ & Hnab & Hdab).
  pose proof (column_is_has_column _ _ _ plant_metric_ok) as Hhp.
  pose proof (column_is_has_column _ _ _ state_metric_ok) as Hhs.
  pose proof (column_is_has_column _ _ _ plant_key_ok) as Hhk.
  pose proof (column_is_distinct_labels _ _ _ state_metric_ok state_key_ok) as Nsm.
  pose proof (column_is_distinct_labels _ _ _ plant_metric_ok plant_key_ok) as Npm.
  pose proof (values_positions pdf _ pc Hr Epc) as Vpc.
  pose proof (values_positions pdf _ lk Hr Elk) as Vlk.
  pose proof (values_positions sdf _ ab state_rectangular Eab) as Vab.
  unfold positions in Vpc, Vlk. fold n in Vpc, Vlk.
  unfold PowerPlantDataHandler.get_plant_metric_summary_by_state.
  fold pdf sdf state_metric.
  rewrite Hhp, Hhs. cbn [negb]. rewrite Epc, Esc. cbn [bind].
  unfold PowerPlantDataHandler.is_numeric_dtype. rewrite Hdpc, Hdsc.
  cbn [dtype_eqb negb]. rewrite Eab. cbn [bind]. rewrite Nsm.
  unfold PowerPlantDataHandler.merge.
  assert (Eab' : getitem [ab; sc] "State abbreviation" = Ok ab).
  { unfold getitem. cbn [find]. now rewrite Hnab, String.eqb_refl. }
  rewrite Eab', Elk. cbn [bind].
  unfold PowerPlantDataHandler.keys_clash. rewrite Hdlk, Hdab.
  cbn [bind]. rewrite no_clash.
  assert (Ix : PowerPlantDataHandler.left_join (values lk) (values ab)
               = map (fun i => (i, first_match (state_keys sdf)
                                     (cell_of pdf "Plant state abbreviation" i)))
                     (seq 0 n)).
  { rewrite left_join_unique by (rewrite Vab; exact state_keys_unique).
    assert (Hlen : List.length (values lk) = n)
      by now rewrite Vlk, length_map, length_seq.
    rewrite Hlen. apply map_ext_in. intros i Hi. apply in_seq in Hi.
    rewrite Vab. fold (state_keys sdf).
    rewrite Vlk, nth_map_seq by lia. reflexivity. }
  rewrite Ix, !map_map. cbn [fst snd]. rewrite map_id.
  rewrite getitem_app_l by (now rewrite has_column_take).
  rewrite (getitem_take _ _ _ _ Epc). cbn [bind].
  rewrite getitem_app_r by (now rewrite has_column_take).
  assert (Esc' : forall idx,
             getitem (PowerPlantDataHandler.take_opt idx [ab; sc]) state_metric
             = Ok (with_values sc
                     (map (fun o => match o with
                                    | Some j => cell_at sc j
                                    | None => nan
                                    end) idx))).
  { intros idx. unfold getitem, PowerPlantDataHandler.take_opt.
    cbn [map find name with_values].
    rewrite Hnab, (String.eqb_sym "State abbreviation" state_metric), Nsm.
    now rewrite Hnsc, String.eqb_refl. }
  rewrite Esc'. cbn [bind].
  rewrite getitem_app_l by (now rewrite has_column_take).
  rewrite (getitem_take _ _ _ _ Elk). cbn [bind]. rewrite Npm.
  cbn [values with_values].
  assert (Ek : map (cell_at lk) (seq 0 n)
               = map (cell_of pdf "Plant state abbreviation") (seq 0 n)).
  { apply map_ext. intros i. symmetry. now apply cell_of_getitem. }
  assert (Ep : map (cell_at pc) (seq 0 n) = map (cell_of pdf plant_metric) (seq 0 n)).
  { apply map_ext. intros i. symmetry. now apply cell_of_getitem. }
  rewrite Ek, Ep. unfold group_keys.
  f_equal. f_equal. unfold percentages.
  rewrite map_map, combine_map_seq, map_map. apply map_ext. intros i.
  cbn [fst snd]. f_equal. unfold joined.
  destruct (first_match _ _); [|reflexivity].
  symmetry. now apply cell_of_getitem.
Qed.

Lemma plant_keys_text :
  Forall (fun c => PowerPlantDataHandler.is_str c = true)
         (map (cell_of pdf "Plant state abbreviation") (seq 0 n)).
Proof.
  destruct (plant_table_inv pdf plant_ok) as (_ & Hr & _ & _ & Hs).
  apply Forall_forall. intros k Hk. apply in_map_iff in Hk.
  destruct Hk as (i & <- & Hi). apply in_seq in Hi.
  destruct (text_column_cell pdf _ i Hr Hs) as (c & E & Ec); [unfold n in Hi; lia|].
  now rewrite (cell_of_getitem _ _ _ _ E), Ec.
Qed.

Lemma group_keys_perm :
  Permutation group_keys
              (unique_keys [] (map (cell_of pdf "Plant state abbreviation") (seq 0 n))).
Proof. apply insertion_sort_perm. Qed.

Lemma group_rows (s : string) :
  nonzero (map (cell_same (CStr s))
               (map (cell_of pdf "Plant state abbreviation") (seq 0 n)))
  = state_rows pdf s.
Proof.
  rewrite (nonzero_map _ nan), length_map, length_seq.
  unfold state_rows, positions. fold n.
  apply filter_ext_in. intros i Hi. apply in_seq in Hi.
  rewrite nth_map_seq by lia. unfold in_state. apply cell_same_state.
Qed.

Lemma state_rows_inv (s : string) (i : nat) :
  In i (state_rows pdf s) ->
  i < n /\ cell_of pdf "Plant state abbreviation" i = CStr s.
Proof.
  unfold state_rows, positions. intros H. apply filter_In in H.
  destruct H as [Hi Hs]. apply in_seq in Hi. split; [unfold n; lia|].
  unfold in_state in Hs.
  destruct (cell_of pdf "Plant state abbreviation" i) as [x|t]; [discriminate|].
  apply String.eqb_eq in Hs. now subst.
Qed.

Lemma joined_total (s : string) (i : nat) :
  cell_of pdf "Plant state abbreviation" i = CStr s ->
  float_of_cell (joined i) = state_total sdf state_metric s.
Proof.
  intros E. unfold joined, state_total, first_match,
              PowerPlantDataHandler.matches. rewrite E.
  unfold state_keys. rewrite (nonzero_map _ nan), length_map.
  unfold positions. rewrite length_seq.
  rewrite (filter_ext_in
             (fun j => cell_same (CStr s)
                         (nth j (map (cell_of sdf "State abbreviation")
                                     (seq 0 (nrows sdf))) nan))
             (fun j => cell_same (CStr s) (cell_of sdf "State abbreviation" j))).
  - now destruct (filter _ (seq 0 (nrows sdf))).
  - intros j Hj. apply in_seq in Hj. now rewrite nth_map_seq by lia.
Qed.

Lemma summary_record_ok (k : cell) :
  PowerPlantDataHandler.is_str k = true ->
  PowerPlantDataHandler.summary_record
    plant_metric
    (map (cell_of pdf "Plant state abbreviation") (seq 0 n))
    (map (cell_of pdf plant_metric) (seq 0 n))
    percentages k
  = Ok (summary_item self plant_metric (key_text k)).
Proof.
  intros Hk. rewrite (key_text_str k Hk). set (s := key_text k).
  cbn [key_text].
  unfold PowerPlantDataHandler.summary_record, summary_item.
  fold pdf sdf state_metric. cbn [validate_str bind].
  rewrite group_rows. do 2 f_equal.
  - f_equal. unfold PowerPlantDataHandler.cells_at.
    apply map_ext_in. intros i Hi. apply state_rows_inv in Hi.
    now rewrite nth_map_seq by tauto.
  - f_equal. unfold PowerPlantDataHandler.cells_at.
    apply map_ext_in. intros i Hi. apply state_rows_inv in Hi.
    destruct Hi as [Hi Es]. unfold percentages.
    rewrite nth_map_seq by assumption.
    unfold PowerPlantDataHandler.percentage_cell, plant_share.
    cbn [float_of_cell]. now rewrite (joined_total s i Es).
Qed.

Lemma summary_items :
  PowerPlantDataHandler.get_plant_metric_summary_by_state self plant_metric
  = Ok (map (fun k => summary_item self plant_metric (key_text k)) group_keys).
Proof.
  rewrite summary_unfolded. apply mapM_ok_map. intros k Hk.
  apply summary_record_ok.
  apply (Permutation_in _ group_keys_perm) in Hk.
  pose proof (unique_keys_str _ [] plant_keys_text) as Hs.
  rewrite Forall_forall in Hs. now apply Hs.
Qed.

Lemma group_keys_states (s : string) :
  In s (map key_text group_keys)
  <-> exists i, i < n /\ cell_of pdf "Plant state abbreviation" i = CStr s.
Proof.
  pose proof (unique_keys_str _ [] plant_keys_text) as Hs.
  rewrite Forall_forall in Hs.
  assert (Hin : forall k, In k group_keys
                          <-> In k (map (cell_of pdf "Plant state abbreviation")
                                        (seq 0 n))).
  { intros k. split.
    - intros H. apply (Permutation_in _ group_keys_perm) in H.
      now apply (unique_keys_In _ [] k plant_keys_text) in H.
    - intros H. apply (Permutation_in _ (Permutation_sym group_keys_perm)).
      apply (unique_keys_In _ [] k plant_keys_text). now split. }
  split.
  - intros H. apply in_map_iff in H. destruct H as (k & <- & Hk).
    pose proof (proj1 (Hin k) Hk) as Hk'. apply in_map_iff in Hk'.
    destruct Hk' as (i & Ei & Hi). apply in_seq in Hi. exists i.
    split; [lia|]. rewrite Ei. apply key_text_str. apply Hs.
    now apply (Permutation_in _ group_keys_perm).
  - intros (i & Hi & Ei). apply in_map_iff. exists (CStr s). split; [reflexivity|].
    apply Hin. rewrite <- Ei. apply in_map. apply in_seq. lia.
Qed.

Lemma group_keys_NoDup : NoDup (map key_text group_keys).
Proof.
  pose proof (unique_keys_str _ [] plant_keys_text) as Hs.
  apply NoDup_key_text.
  - rewrite Forall_forall in *. intros k Hk. apply Hs.
    now apply (Permutation_in _ group_keys_perm).
  - apply (Permutation_NoDup (Permutation_sym group_keys_perm)).
    apply unique_keys_NoDup. exact plant_keys_text.
Qed.

End Summary.

(** C2, as the code has it.  Take a plant table and a state table whose
    abbreviations are pairwise distinct, with text abbreviation columns on both
    sides, a float64 plant metric, a float64 derived state metric, and no
    column of the plant table under the derived name.  Then the summary has
    one entry per distinct abbreviation of the plant table and no other; an
    entry carries the plant metric's name, the sum of the metric over the
    state's plants, and the sum over those plants of metric / state total *
    100, where a sum leaves NaN terms out and the state total is NaN for an
    abbreviation the state table does not have. *)
Theorem summary_by_state_entries
        (self : PowerPlantDataHandler.t) (plant_metric : string) :
  let pdf := PowerPlantDataHandler.plant_data self in
  let sdf := PowerPlantDataHandler.state_data self in
  let state_metric := Py.replace "Plant" "State" plant_metric in
  plant_table pdf = true ->
  rectangular sdf = true ->
  column_is pdf plant_metric float64 = true ->
  column_is sdf state_metric float64 = true ->
  has_column pdf state_metric = false ->
  column_is pdf "Plant state abbreviation" object = true ->
  column_is sdf "State abbreviation" object = true ->
  unique_cells (state_keys sdf) = true ->
  exists items : StateSummary,
    PowerPlantDataHandler.get_plant_metric_summary_by_state self plant_metric
    = Ok items
    /\ NoDup (map plant_state_abbreviation items)
    /\ (forall s, In s (map plant_state_abbreviation items)
                  <-> exists i, i < nrows pdf
                                /\ cell_of pdf "Plant state abbreviation" i = CStr s)
    /\ (forall it, In it items ->
                   it = summary_item self plant_metric (plant_state_abbreviation it)).
Proof.
  intros pdf sdf state_metric H1 H2 H3 H4 H5 H6 H7 H8.
  eexists. split; [apply (summary_items self plant_metric H1 H2 H3 H4 H5 H6 H7 H8)|].
  rewrite map_map. cbn [plant_state_abbreviation summary_item].
  split; [|split].
  - apply (group_keys_NoDup self H1).
  - apply (group_keys_states self H1).
  - intros it Hit. apply in_map_iff in Hit. destruct Hit as (k & <- & _).
    reflexivity.
Qed.

(* ===================================================================== *)
(** ** The claims on the worked tables *)
(* ===================================================================== *)

Lemma example_handler_init :
  PowerPlantDataHandler.__init__ raw_plants raw_states = Ok example_handler.
Proof. vm_compute. reflexivity. Qed.

(** C1 fails as stated: a percentage cell that is not a number makes
    [clean_data] raise [ValueError] instead of becoming 0.0. *)
Lemma clean_data_unreadable_percentage :
  DataCleaner.clean_data (DataCleaner.__init__ raw_bad_percent)
  = Raise (ValueError "could not convert string to float: 'withheld'").
Proof. vm_compute. reflexivity. Qed.

Lemma clean_data_raises_on_unreadable_percentage_witness :
  distinct (columns raw_plants) = true
  /\ (exists self',
         DataCleaner._convert_percentages
           (DataCleaner._remove_metadata_row (DataCleaner.__init__ raw_plants))
         = Ok self'
         /\ table_of self'
            = map (fun c => if is_percentage (name c)
                            then map_values percent_value c else c)
                  (table_of (DataCleaner._remove_metadata_row
                               (DataCleaner.__init__ raw_plants))))
  /\ exists out, DataCleaner.clean_data (DataCleaner.__init__ raw_plants) = Ok out.
Proof.
  split; [reflexivity|].
  exact (clean_data_raises_on_unreadable_percentage raw_plants eq_refl).
Defined.

(** C2 fails as stated, twice over.  With California listed twice in the
    state sheet, every Californian plant is joined twice and the entry's
    absolute value is 3000, not the 1500 its plants sum to.  And a metric
    whose label both sheets carry is not found after the join: the call raises
    [KeyError]. *)
Lemma summary_by_state_joined_twice :
  (h <- PowerPlantDataHandler.__init__ raw_plants raw_states_twice ;;
   PowerPlantDataHandler.get_plant_metric_summary_by_state h generation)
  = Ok [ mkStateSummaryItem "CA" generation (of_Z 3000) (Fin (45 # 2));
         mkStateSummaryItem "NY" generation (of_Z 2000) (of_Z 10) ]
  /\ (h <- PowerPlantDataHandler.__init__ raw_plants raw_states_twice ;;
      Ok (nansum (map (float_at (PowerPlantDataHandler.plant_data h) generation)
                      (state_rows (PowerPlantDataHandler.plant_data h) "CA"))))
     = Ok (of_Z 1500)
  /\ (h <- PowerPlantDataHandler.__init__ raw_plants_year raw_states_year ;;
      PowerPlantDataHandler.get_plant_metric_summary_by_state h "Data Year")
     = Raise (KeyError "Data Year").
Proof. repeat split; vm_compute; reflexivity. Qed.

Lemma summary_by_state_entries_witness :
  plant_table cleaned_plants = true
  /\ rectangular cleaned_states = true
  /\ column_is cleaned_plants generation float64 = true
  /\ column_is cleaned_states (Py.replace "Plant" "State" generation) float64 = true
  /\ has_column cleaned_plants (Py.replace "Plant" "State" generation) = false
  /\ column_is cleaned_plants "Plant state abbreviation" object = true
  /\ column_is cleaned_states "State abbreviation" object = true
  /\ unique_cells (state_keys cleaned_states) = true
  /\ exists items : StateSummary,
      PowerPlantDataHandler.get_plant_metric_summary_by_state
        example_handler generation = Ok items
      /\ NoDup (map plant_state_abbreviation items)
      /\ (forall s, In s (map plant_state_abbreviation items)
                    <-> exists i, i < nrows cleaned_plants
                                  /\ cell_of cleaned_plants
                                       "Plant state abbreviation" i = CStr s)
      /\ (forall it, In it items ->
                     it = summary_item example_handler generation
                            (plant_state_abbreviation it)).
Proof.
  repeat (split; [reflexivity|]).
  exact (summary_by_state_entries example_handler generation
           eq_refl eq_refl eq_refl eq_refl eq_refl eq_refl eq_refl eq_refl).
Defined.





Lemma top_n_plants_bad_metric_witness :
  (0 < 2)%Z
  /\ PowerPlantDataHandler.get_top_n_plants
       argsort_desc_stable example_handler 2 "Plant name"
     = Raise (BadMetricError (msg_not_numerical "Plant name"))
  /\ PowerPlantDataHandler.get_top_n_plants
       argsort_desc_stable example_handler 2 "Plant age"
     = Raise (BadMetricError (msg_absent "Plant age")).
Proof.
  split; [reflexivity|]. split.
  - exact (proj1 (proj2 (top_n_plants_bad_metric
                           argsort_desc_stable example_handler 2 "Plant name"
                           eq_refl))
             eq_refl eq_refl).
  - exact (proj1 (top_n_plants_bad_metric
                    argsort_desc_stable example_handler 2 "Plant age" eq_refl)
             eq_refl).
Defined.

Lemma clean_data_invariants_witness :
  rectangular raw_plants = true
  /\ 1 <= nrows raw_plants
  /\ DataCleaner.clean_data (DataCleaner.__init__ raw_plants) = Ok cleaned_plants
  /\ columns cleaned_plants = columns raw_plants
  /\ (Z.of_nat (nrows cleaned_plants) <= Z.of_nat (nrows raw_plants) - 1)%Z
  /\ (forall c, In c cleaned_plants -> dtype_of c = float64 ->
                forall x, In x (values c) -> isna x = false).
Proof.
  split; [reflexivity|].
  split; [vm_compute; lia|]. split; [vm_compute; reflexivity|].
  pose proof (clean_data_invariants raw_plants cleaned_plants eq_refl
                ltac:(vm_compute; lia) ltac:(vm_compute; reflexivity)) as H.
  exact (conj (proj1 H) (conj (proj1 (proj2 H)) (proj1 (proj2 (proj2 H))))).
Defined.

Lemma fill_dedup_idempotent_witness :
  rectangular (DataCleaner.data (DataCleaner.__init__ raw_plants)) = true
  /\ fill_and_dedup (fill_and_dedup (DataCleaner.__init__ raw_plants))
     = fill_and_dedup (DataCleaner.__init__ raw_plants).
Proof.
  split; [reflexivity|].
  exact (fill_dedup_idempotent (DataCleaner.__init__ raw_plants) eq_refl).
Defined.

Lemma top_n_plants_nonpositive_witness :
  sorts_descending argsort_desc_stable
  /\ rectangular cleaned_plants = true
  /\ column_is cleaned_plants generation float64 = true
  /\ PowerPlantDataHandler.get_top_n_plants
       argsort_desc_stable example_handler 0 generation = Ok []
  /\ PowerPlantDataHandler.get_top_n_plants
       argsort_desc_stable example_handler (- 1) generation
     = Ok [ mkTopPowerPlant "Plant B" "NY" generation (of_Z 2000);
            mkTopPowerPlant "Plant A" "CA" generation (of_Z 1000) ].
Proof.
  split; [apply argsort_by_sorts|]. split; [reflexivity|]. split; [reflexivity|].
  pose proof (top_n_plants_nonpositive argsort_desc_stable example_handler generation
                (argsort_by_sorts false) eq_refl eq_refl) as H.
  split; [exact (proj1 H)|].
  exact (proj2 (proj2 (proj2 H)) eq_refl 1%Z eq_refl).
Defined.

(* ===================================================================== *)
(** ** More on the cleaning steps *)
(* ===================================================================== *)

Lemma nth_tl {A : Type} (l : list A) (d : A) (i : nat) :
  nth i (tl l) d = nth (S i) l d.
Proof. destruct l; [now destruct i|reflexivity]. Qed.

Lemma row_remove_metadata_row (df : DataFrame) (i : nat) :
  row (map (fun c => with_values c (tl (values c))) df) i = row df (S i).
Proof.
  unfold row. rewrite map_map. apply map_ext. intros c.
  unfold cell_at. cbn [name values with_values]. now rewrite nth_tl.
Qed.

(** X1.  [_remove_metadata_row]: the records of the table are those of the
    sheet without the first one, in the same order and renumbered from zero;
    labels, dtypes and the list of percentage columns stay as they are, and
    an empty sheet stays empty. *)
Theorem remove_metadata_row_drops_first_record (self : DataCleaner.t) :
  let self' := DataCleaner._remove_metadata_row self in
  to_records (table_of self') = tl (to_records (table_of self))
  /\ map (fun c => (name c, dtype_of c)) (table_of self')
     = map (fun c => (name c, dtype_of c)) (table_of self)
  /\ nrows (table_of self') = pred (nrows (table_of self))
  /\ DataCleaner.percentage_columns self' = DataCleaner.percentage_columns self.
Proof.
  destruct self as [df pcs]. cbn [table_of DataCleaner._remove_metadata_row
    DataCleaner.set_data DataCleaner.data DataCleaner.percentage_columns].
  split; [|split; [|split]].
  - unfold to_records, positions. rewrite remove_metadata_row_nrows.
    destruct (nrows df) as [|n]; [reflexivity|].
    cbn [pred seq map tl]. rewrite <- seq_shift, map_map.
    apply map_ext. intros i. apply row_remove_metadata_row.
  - rewrite map_map. reflexivity.
  - apply remove_metadata_row_nrows.
  - reflexivity.
Qed.

Lemma converted_idempotent (c : cell) : converted (converted c) = converted c.
Proof.
  destruct c as [x|s]; [reflexivity|]. unfold converted.
  destruct (Py.float_of_string (Py.remove_commas s)) eqn:E; [reflexivity|].
  now rewrite E.
Qed.

Lemma converted_is_float (c : cell) :
  convertible c = true -> is_float (converted c) = true.
Proof.
  destruct c as [x|s]; [reflexivity|]. unfold convertible, converted.
  now destruct (Py.float_of_string (Py.remove_commas s)).
Qed.

Lemma is_float_convertible (c : cell) : is_float c = true -> convertible c = true.
Proof. now destruct c. Qed.

Lemma is_float_converted (c : cell) : is_float c = true -> converted c = c.
Proof. now destruct c. Qed.

Lemma forallb_map_true {A B : Type} (p : B -> bool) (f : A -> B) (l : list A) :
  (forall x, In x l -> p (f x) = true) -> forallb p (map f l) = true.
Proof.
  intros H. apply forallb_forall. intros y Hy. apply in_map_iff in Hy.
  destruct Hy as [x [<- Hx]]. now apply H.
Qed.

Lemma convert_to_numerical_floats (col : Series) :
  forallb convertible (values col) = true ->
  forallb is_float (values (DataCleaner._convert_to_numerical col)) = true.
Proof.
  intros H. rewrite convert_to_numerical_spec, H. cbn [values].
  apply forallb_map_true. intros x Hx. apply converted_is_float.
  rewrite forallb_forall in H. now apply H.
Qed.

Lemma convert_to_numerical_well_typed (col : Series) :
  well_typed_column col = true ->
  well_typed_column (DataCleaner._convert_to_numerical col) = true.
Proof.
  intros H. destruct (forallb convertible (values col)) eqn:E.
  - pose proof (convert_to_numerical_floats col E) as F.
    rewrite convert_to_numerical_spec, E in *. exact F.
  - rewrite convert_to_numerical_spec, E. exact H.
Qed.

Lemma convert_to_numerical_twice (col : Series) :
  DataCleaner._convert_to_numerical (DataCleaner._convert_to_numerical col)
  = DataCleaner._convert_to_numerical col.
Proof.
  destruct (forallb convertible (values col)) eqn:E.
  - pose proof (convert_to_numerical_floats col E) as F.
    rewrite (convert_to_numerical_spec (DataCleaner._convert_to_numerical col)).
    assert (C : forallb convertible
                        (values (DataCleaner._convert_to_numerical col)) = true).
    { rewrite forallb_forall in *. intros x Hx. apply is_float_convertible.
      now apply F. }
    rewrite C.
    assert (M : map converted (values (DataCleaner._convert_to_numerical col))
                = values (DataCleaner._convert_to_numerical col)).
    { apply map_id_in. intros x Hx. apply is_float_converted.
      rewrite forallb_forall in F. now apply F. }
    rewrite M. rewrite convert_to_numerical_spec, E. reflexivity.
  - rewrite (convert_to_numerical_spec col), E.
    rewrite convert_to_numerical_spec, E. reflexivity.
Qed.

(** X2.  [_convert_to_numerical], [_convert_columns_to_numerical]: converting
    a second time changes nothing, for a column and for the table; the step
    keeps the label and the length of a column, turns the dtype to float64
    exactly when the column was float64 already or every cell reads as a
    number, and leaves a float64 column with floats only. *)
Theorem convert_to_numerical_idempotent :
  (forall col : Series,
      let col' := DataCleaner._convert_to_numerical col in
      DataCleaner._convert_to_numerical col' = col'
      /\ name col' = name col
      /\ List.length (values col') = List.length (values col)
      /\ (dtype_of col' = float64 <->
          dtype_of col = float64 \/ forallb convertible (values col) = true)
      /\ (well_typed_column col = true -> well_typed_column col' = true))
  /\ forall self : DataCleaner.t,
      DataCleaner._convert_columns_to_numerical
        (DataCleaner._convert_columns_to_numerical self)
      = DataCleaner._convert_columns_to_numerical self.
Proof.
  split.
  - intros col col'. split; [apply convert_to_numerical_twice|].
    unfold col'. rewrite convert_to_numerical_spec.
    destruct (forallb convertible (values col)) eqn:E; cbn [name values dtype_of].
    + repeat split; auto using length_map.
      intros H. pose proof (convert_to_numerical_well_typed col H) as W.
      now rewrite convert_to_numerical_spec, E in W.
    + repeat split; auto. intros [H|H]; [exact H|discriminate].
  - intros [df pcs].
    unfold DataCleaner._convert_columns_to_numerical, DataCleaner.set_data.
    cbn [DataCleaner.data DataCleaner.percentage_columns].
    f_equal. rewrite map_map. apply map_ext. intros c.
    apply convert_to_numerical_twice.
Qed.

Lemma cell_same_refl (a : cell) : cell_same a a = true.
Proof.
  destruct a as [x|s]; cbn [cell_same]; [|apply String.eqb_refl].
  destruct x; cbn [is_nan feqb andb orb]; try reflexivity.
  apply Qeq_bool_iff. reflexivity.
Qed.

Lemma row_same_refl (r : list cell) : row_same r r = true.
Proof.
  induction r as [|a r IH]; [reflexivity|].
  cbn [row_same]. now rewrite cell_same_refl, IH.
Qed.

Lemma row_same_trans (r1 : list cell) :
  forall r2 r3, row_same r1 r2 = true -> row_same r2 r3 = true ->
                row_same r1 r3 = true.
Proof.
  induction r1 as [|a r1 IH]; intros [|b r2] [|c r3]; cbn [row_same];
    try discriminate; auto.
  intros H1 H2. apply andb_true_iff in H1, H2.
  destruct H1 as [A1 B1], H2 as [A2 B2].
  rewrite (cell_same_trans _ _ _ A1 A2), (IH _ _ B1 B2). reflexivity.
Qed.

Lemma first_seen_In_bounds (seen rows : list (list cell)) (i0 i : nat) :
  In i (first_seen seen i0 rows) -> i0 <= i < i0 + List.length rows.
Proof.
  intros H. pose proof (first_seen_bounds seen rows i0) as B.
  rewrite Forall_forall in B. now apply B.
Qed.

Lemma nth_cons_offset {A : Type} (r : A) (rows : list A) (d : A) (i0 i : nat) :
  S i0 <= i -> nth (i - i0) (r :: rows) d = nth (i - S i0) rows d.
Proof.
  intros H. replace (i - i0) with (S (i - S i0)) by lia. reflexivity.
Qed.

Lemma first_seen_fresh (rows : list (list cell)) :
  forall (seen : list (list cell)) (i0 i : nat),
    In i (first_seen seen i0 rows) ->
    existsb (row_same (nth (i - i0) rows [])) seen = false
    /\ forall j, In j (first_seen seen i0 rows) -> j < i ->
                 row_same (nth (i - i0) rows []) (nth (j - i0) rows []) = false.
Proof.
  induction rows as [|r rows IH]; intros seen i0 i Hi; [destruct Hi|].
  cbn [first_seen] in *.
  destruct (existsb (row_same r) seen) eqn:E.
  - pose proof (first_seen_In_bounds _ _ _ _ Hi) as Bi.
    destruct (IH _ _ _ Hi) as [F1 F2].
    rewrite (nth_cons_offset r rows [] i0 i) by lia.
    split; [exact F1|]. intros j Hj Hlt.
    pose proof (first_seen_In_bounds _ _ _ _ Hj) as Bj.
    rewrite (nth_cons_offset r rows [] i0 j) by lia. now apply F2.
  - destruct Hi as [<-|Hi].
    + rewrite Nat.sub_diag. cbn [nth]. split; [exact E|].
      intros j [Hj|Hj] Hlt; [lia|].
      pose proof (first_seen_In_bounds _ _ _ _ Hj). lia.
    + pose proof (first_seen_In_bounds _ _ _ _ Hi) as Bi.
      destruct (IH _ _ _ Hi) as [F1 F2].
      rewrite (nth_cons_offset r rows [] i0 i) by lia.
      cbn [existsb] in F1. apply orb_false_iff in F1. destruct F1 as [F0 F1].
      split; [exact F1|]. intros j [<-|Hj] Hlt.
      * rewrite Nat.sub_diag. exact F0.
      * pose proof (first_seen_In_bounds _ _ _ _ Hj) as Bj.
        rewrite (nth_cons_offset r rows [] i0 j) by lia. now apply F2.
Qed.

Lemma first_seen_covers (rows : list (list cell)) :
  forall (seen : list (list cell)) (i0 i : nat),
    i0 <= i < i0 + List.length rows ->
    existsb (row_same (nth (i - i0) rows [])) seen = true
    \/ exists j, In j (first_seen seen i0 rows) /\ j <= i
                 /\ row_same (nth (i - i0) rows []) (nth (j - i0) rows []) = true.
Proof.
  induction rows as [|r rows IH]; intros seen i0 i Hi; [cbn in Hi; lia|].
  cbn [List.length] in Hi. cbn [first_seen].
  destruct (Nat.eq_dec i i0) as [->|Hne].
  - rewrite Nat.sub_diag. cbn [nth].
    destruct (existsb (row_same r) seen) eqn:E; [now left|].
    right. exists i0. split; [now left|]. split; [lia|].
    rewrite Nat.sub_diag. apply row_same_refl.
  - rewrite (nth_cons_offset r rows [] i0 i) by lia.
    destruct (existsb (row_same r) seen) eqn:E.
    + destruct (IH seen (S i0) i ltac:(lia)) as [L|[j [Hj [Hle Hs]]]];
        [now left|].
      right. exists j. split; [exact Hj|]. split; [exact Hle|].
      pose proof (first_seen_In_bounds _ _ _ _ Hj) as Bj.
      rewrite (nth_cons_offset r rows [] i0 j) by lia. exact Hs.
    + destruct (IH (r :: seen) (S i0) i ltac:(lia)) as [L|[j [Hj [Hle Hs]]]].
      * cbn [existsb] in L. apply orb_true_iff in L. destruct L as [L|L];
          [|now left].
        right. exists i0. split; [now left|]. split; [lia|].
        rewrite Nat.sub_diag. exact L.
      * right. exists j. split; [now right|]. split; [exact Hle|].
        pose proof (first_seen_In_bounds _ _ _ _ Hj) as Bj.
        rewrite (nth_cons_offset r rows [] i0 j) by lia. exact Hs.
Qed.

Lemma first_seen_increasing (rows : list (list cell)) :
  forall (seen : list (list cell)) (i0 : nat),
    StronglySorted lt (first_seen seen i0 rows).
Proof.
  induction rows as [|r rows IH]; intros seen i0; cbn [first_seen];
    [constructor|].
  destruct (existsb (row_same r) seen); [apply IH|].
  constructor; [apply IH|].
  apply Forall_forall. intros j Hj.
  pose proof (first_seen_In_bounds _ _ _ _ Hj). lia.
Qed.

Lemma StronglySorted_nth_lt (l : list nat) :
  StronglySorted lt l ->
  forall i j, j < i -> i < List.length l -> nth j l 0 < nth i l 0.
Proof.
  induction 1 as [|a l S IH F]; intros i j Hji Hi; [cbn in Hi; lia|].
  cbn [List.length] in Hi. destruct i as [|i]; [lia|].
  destruct j as [|j]; cbn [nth].
  - rewrite Forall_forall in F. apply F. apply nth_In. lia.
  - apply IH; lia.
Qed.

Lemma nth_rows (df : DataFrame) (i : nat) :
  i < nrows df ->
  nth (i - 0) (map (row_values df) (positions df)) [] = row_values df i.
Proof.
  intros H. rewrite Nat.sub_0_r. unfold positions. now apply nth_map_seq.
Qed.

Lemma first_seen_first_occurrence (df : DataFrame) (i : nat) :
  In i (first_seen [] 0 (map (row_values df) (positions df)))
  <-> first_occurrence df i.
Proof.
  set (rows := map (row_values df) (positions df)).
  assert (Len : List.length rows = nrows df).
  { unfold rows, positions. now rewrite length_map, length_seq. }
  split.
  - intros Hi. pose proof (first_seen_In_bounds _ _ _ _ Hi) as Bi.
    rewrite Len in Bi. split; [lia|]. intros j Hj.
    destruct (first_seen_fresh rows [] 0 i Hi) as [_ F].
    destruct (first_seen_covers rows [] 0 j ltac:(lia)) as [L|[k [Hk [Hle Hs]]]];
      [discriminate|].
    pose proof (first_seen_In_bounds _ _ _ _ Hk) as Bk. rewrite Len in Bk.
    specialize (F k Hk ltac:(lia)). unfold rows in F, Hs.
    rewrite !nth_rows in F, Hs by lia.
    destruct (row_same (row_values df i) (row_values df j)) eqn:E; [|reflexivity].
    now rewrite (row_same_trans _ _ _ E Hs) in F.
  - intros [Hi F].
    destruct (first_seen_covers rows [] 0 i ltac:(lia)) as [L|[k [Hk [Hle Hs]]]];
      [discriminate|].
    pose proof (first_seen_In_bounds _ _ _ _ Hk) as Bk. rewrite Len in Bk.
    unfold rows in Hs. rewrite !nth_rows in Hs by lia.
    destruct (Nat.eq_dec k i) as [->|Hne]; [exact Hk|].
    rewrite (F k ltac:(lia)) in Hs. discriminate.
Qed.

Lemma drop_duplicates_no_duplicate_rows (df : DataFrame) :
  no_duplicate_rows (drop_duplicates df).
Proof.
  unfold no_duplicate_rows, drop_duplicates.
  set (idx := first_seen [] 0 (map (row_values df) (positions df))).
  intros i j Hji Hi.
  pose proof (take_nrows_le idx df) as Le.
  rewrite !row_values_take by lia.
  pose proof (StronglySorted_nth_lt idx (first_seen_increasing _ _ _) i j Hji
                ltac:(lia)) as Lt.
  assert (In (nth i idx 0) idx) as Hin by (apply nth_In; lia).
  apply first_seen_first_occurrence in Hin. destruct Hin as [_ F].
  now apply F.
Qed.

(** X3.  [_remove_duplicates]: the rows that stay are exactly the first
    occurrences, that is the rows that no earlier row equals cell for cell
    (two missing cells count as equal); they stay in their original order,
    the result has no repeated row, and a second pass changes nothing. *)
Theorem remove_duplicates_keeps_first_occurrences (self : DataCleaner.t) :
  let df := table_of self in
  let idx := first_seen [] 0 (map (row_values df) (positions df)) in
  table_of (DataCleaner._remove_duplicates self) = take idx df
  /\ StronglySorted lt idx
  /\ (forall i, In i idx <-> first_occurrence df i)
  /\ no_duplicate_rows (table_of (DataCleaner._remove_duplicates self))
  /\ DataCleaner._remove_duplicates (DataCleaner._remove_duplicates self)
     = DataCleaner._remove_duplicates self.
Proof.
  intros df idx. split; [reflexivity|]. split; [apply first_seen_increasing|].
  split; [apply first_seen_first_occurrence|].
  split; [apply drop_duplicates_no_duplicate_rows|].
  destruct self as [d pcs].
  unfold DataCleaner._remove_duplicates, DataCleaner.set_data.
  cbn [DataCleaner.data DataCleaner.percentage_columns].
  now rewrite drop_duplicates_idempotent.
Qed.

(** X4.  [_fill_missing_values]: the step leaves no missing cell, keeps the
    label, dtype and length of every column (so the [dropna] line removes no
    row), changes nothing in a table without missing cells, and is
    idempotent. *)
Theorem fill_missing_values_fills_only (self : DataCleaner.t) :
  let self' := DataCleaner._fill_missing_values self in
  no_na (table_of self')
  /\ shape (table_of self') = shape (table_of self)
  /\ nrows (table_of self') = nrows (table_of self)
  /\ (no_na (table_of self) -> self' = self)
  /\ DataCleaner._fill_missing_values self' = self'.
Proof.
  intros self'. split; [apply fill_missing_values_no_na|].
  split; [apply fill_missing_values_shape|].
  split; [apply shape_nrows, fill_missing_values_shape|].
  split; [apply fill_missing_values_id|].
  apply fill_missing_values_id, fill_missing_values_no_na.
Qed.

Lemma clean_data_steps (df : DataFrame) :
  distinct (columns df) = true ->
  if percentages_ok (map (fun c => with_values c (tl (values c))) df)
  then DataCleaner.clean_data (DataCleaner.__init__ df)
       = Ok (drop_duplicates (cleaned_with_duplicates df))
  else exists m,
      DataCleaner.clean_data (DataCleaner.__init__ df) = Raise (ValueError m).
Proof.
  intros Hd.
  set (df1 := map (fun c => with_values c (tl (values c))) df).
  assert (Hc1 : columns df1 = columns df) by apply remove_metadata_row_columns.
  assert (Hd1 : distinct (columns df1) = true) by now rewrite Hc1.
  assert (Es : DataCleaner._remove_metadata_row (DataCleaner.__init__ df)
               = DataCleaner.mk df1 (filter is_percentage (columns df1))).
  { rewrite Hc1. reflexivity. }
  pose proof (convert_percentages_spec df1 Hd1) as S. cbn zeta in S.
  unfold DataCleaner.clean_data. rewrite Es.
  destruct (percentages_ok df1).
  - rewrite S. cbn [bind]. f_equal.
    set (df2 := map (fun c => if is_percentage (name c)
                              then map_values percent_value c else c) df1).
    set (self3 := DataCleaner._convert_columns_to_numerical _).
    assert (E3 : table_of self3 = map DataCleaner._convert_to_numerical df2)
      by reflexivity.
    assert (Hd3 : distinct (columns (table_of self3)) = true).
    { rewrite (dims_columns _ df2).
      - unfold df2. replace (columns _) with (columns df1); [exact Hd1|].
        unfold columns. rewrite map_map. apply map_ext. intros c.
        now destruct (is_percentage (name c)).
      - exact (convert_columns_to_numerical_dims
                 (DataCleaner.mk df2 (filter is_percentage (columns df1)))). }
    pose proof (fill_missing_values_spec self3 Hd3) as F. rewrite E3 in F.
    unfold DataCleaner._remove_duplicates, DataCleaner.set_data.
    cbn [DataCleaner.data]. unfold table_of in F. rewrite F. reflexivity.
  - destruct S as [m ->]. cbn [bind]. eauto.
Qed.

(** The four steps on one column. *)
Lemma cleaned_with_duplicates_map (df : DataFrame) :
  cleaned_with_duplicates df
  = map (fun c =>
           let c1 := with_values c (tl (values c)) in
           let c2 := if is_percentage (name c)
                     then map_values percent_value c1 else c1 in
           let c3 := DataCleaner._convert_to_numerical c2 in
           map_values (fillna_cell (fill_value (dtype_of c3))) c3) df.
Proof. unfold cleaned_with_duplicates. cbn zeta. now rewrite !map_map. Qed.

Lemma convert_to_numerical_name (c : Series) :
  name (DataCleaner._convert_to_numerical c) = name c.
Proof.
  rewrite convert_to_numerical_spec. now destruct (forallb convertible (values c)).
Qed.

Lemma convert_to_numerical_length (c : Series) :
  List.length (values (DataCleaner._convert_to_numerical c))
  = List.length (values c).
Proof.
  rewrite convert_to_numerical_spec.
  destruct (forallb convertible (values c)); cbn [values];
    [apply length_map|reflexivity].
Qed.

Lemma cleaned_with_duplicates_dims (df : DataFrame) :
  dims (cleaned_with_duplicates df)
  = dims (map (fun c => with_values c (tl (values c))) df).
Proof.
  rewrite cleaned_with_duplicates_map. unfold dims. rewrite !map_map.
  apply map_ext. intros c. cbn zeta.
  cbn [name values map_values with_values].
  rewrite convert_to_numerical_name, length_map, convert_to_numerical_length.
  destruct (is_percentage (name c)); cbn [name values map_values with_values];
    now rewrite ?length_map.
Qed.

Lemma forallb_tl {A : Type} (p : A -> bool) (l : list A) :
  forallb p l = true -> forallb p (tl l) = true.
Proof. destruct l; [auto|]. cbn. intros H. apply andb_true_iff in H. tauto. Qed.

Lemma percent_value_is_float (c : cell) :
  is_float c = true -> is_float (percent_value c) = true.
Proof.
  destruct c as [x|s]; [|discriminate]. intros _. cbn. unfold percent_of.
  now destruct (is_nan x).
Qed.


Lemma fillna_cell_is_float (v c : cell) :
  is_float v = true -> is_float c = true -> is_float (fillna_cell v c) = true.
Proof. intros Hv Hc. unfold fillna_cell. now destruct (isna c). Qed.

Lemma well_typed_column_map (f : cell -> cell) (c : Series) :
  (forall x, is_float x = true -> is_float (f x) = true) ->
  well_typed_column c = true -> well_typed_column (map_values f c) = true.
Proof.
  unfold well_typed_column. cbn [map_values with_values dtype_of values].
  intros Hf. destruct (dtype_of c); [|auto]. intros H.
  apply forallb_map_true. intros x Hx. apply Hf.
  rewrite forallb_forall in H. now apply H.
Qed.

Lemma cleaned_with_duplicates_well_typed (df : DataFrame) :
  well_typed df = true -> well_typed (cleaned_with_duplicates df) = true.
Proof.
  intros H. rewrite cleaned_with_duplicates_map. unfold well_typed in *.
  apply forallb_map_true. intros c Hc. rewrite forallb_forall in H.
  specialize (H c Hc). cbn zeta.
  assert (W1 : well_typed_column (with_values c (tl (values c))) = true).
  { unfold well_typed_column in *. cbn [with_values dtype_of values].
    destruct (dtype_of c); [now apply forallb_tl|reflexivity]. }
  assert (W2 : well_typed_column
                 (if is_percentage (name c)
                  then map_values percent_value (with_values c (tl (values c)))
                  else with_values c (tl (values c))) = true).
  { destruct (is_percentage (name c)); [|exact W1].
    apply well_typed_column_map; [apply percent_value_is_float|exact W1]. }
  apply convert_to_numerical_well_typed in W2.
  set (c3 := DataCleaner._convert_to_numerical _) in *.
  unfold well_typed_column in *.
  cbn [map_values with_values dtype_of values].
  destruct (dtype_of c3); [|reflexivity].
  apply forallb_map_true. intros x Hx. apply fillna_cell_is_float; [reflexivity|].
  rewrite forallb_forall in W2. now apply W2.
Qed.

Lemma cleaned_with_duplicates_no_na (df : DataFrame) :
  no_na (cleaned_with_duplicates df).
Proof.
  rewrite cleaned_with_duplicates_map. intros c' Hc'.
  apply in_map_iff in Hc'. destruct Hc' as [c [<- _]]. cbn zeta.
  apply map_values_fillna_no_na.
  destruct (dtype_of (DataCleaner._convert_to_numerical _)); reflexivity.
Qed.

Lemma take_rectangular (idx : list nat) (df : DataFrame) :
  rectangular (take idx df) = true.
Proof.
  unfold rectangular. apply forallb_forall. intros c' Hc'.
  apply Nat.eqb_eq. destruct df as [|c0 df]; [destruct Hc'|].
  rewrite take_nrows by discriminate.
  apply take_column in Hc'. destruct Hc' as [c [_ ->]].
  cbn [values with_values]. apply length_map.
Qed.

Lemma is_float_nth (vs : list cell) (i : nat) :
  forallb is_float vs = true -> is_float (nth i vs nan) = true.
Proof.
  intros H. destruct (Nat.lt_ge_cases i (List.length vs)) as [L|L].
  - rewrite forallb_forall in H. apply H. now apply nth_In.
  - now rewrite nth_overflow.
Qed.

Lemma take_well_typed (idx : list nat) (df : DataFrame) :
  well_typed df = true -> well_typed (take idx df) = true.
Proof.
  unfold well_typed, take. intros H. apply forallb_map_true. intros c Hc.
  rewrite forallb_forall in H. specialize (H c Hc).
  unfold well_typed_column in *. cbn [with_values dtype_of values].
  destruct (dtype_of c); [|reflexivity].
  apply forallb_map_true. intros i _. now apply is_float_nth.
Qed.

Lemma clean_data_is_steps (df out : DataFrame) :
  distinct (columns df) = true ->
  DataCleaner.clean_data (DataCleaner.__init__ df) = Ok out ->
  percentages_ok (map (fun c => with_values c (tl (values c))) df) = true
  /\ out = drop_duplicates (cleaned_with_duplicates df).
Proof.
  intros Hd H. pose proof (clean_data_steps df Hd) as S.
  destruct (percentages_ok _).
  - rewrite S in H. injection H as <-. now split.
  - destruct S as [m S]. rewrite S in H. discriminate.
Qed.

Lemma clean_data_wf (df out : DataFrame) :
  wf_frame df = true ->
  DataCleaner.clean_data (DataCleaner.__init__ df) = Ok out ->
  wf_frame out = true /\ no_na out /\ no_duplicate_rows out.
Proof.
  unfold wf_frame. intros W H.
  apply andb_true_iff in W. destruct W as [W Wt].
  apply andb_true_iff in W. destruct W as [Wd Wr].
  destruct (clean_data_is_steps df out Wd H) as [_ ->].
  pose proof (cleaned_with_duplicates_dims df) as D.
  assert (R : rectangular (cleaned_with_duplicates df) = true).
  { rewrite (dims_rectangular _ _ D).
    now apply remove_metadata_row_rectangular. }
  split; [|split].
  - unfold drop_duplicates. rewrite take_columns, (dims_columns _ _ D).
    rewrite remove_metadata_row_columns, Wd, take_rectangular.
    cbn [andb]. apply take_well_typed.
    now apply cleaned_with_duplicates_well_typed.
  - apply drop_duplicates_no_na; [exact R|].
    apply cleaned_with_duplicates_no_na.
  - apply drop_duplicates_no_duplicate_rows.
Qed.





Lemma below_header_table (df : DataFrame) :
  map (fun c => with_values c (tl (values c))) df
  = map (fun t => mkSeries (fst (fst t)) (snd (fst t)) (snd t)) (below_header df).
Proof. unfold below_header. rewrite map_map. reflexivity. Qed.

Lemma below_header_columns (df : DataFrame) :
  columns df = map (fun t => fst (fst t)) (below_header df).
Proof. unfold below_header, columns. rewrite map_map. reflexivity. Qed.

Lemma rectangular_short (df : DataFrame) :
  rectangular df = true -> nrows df <= 1 ->
  map (fun c => with_values c (tl (values c))) df
  = map (fun c => with_values c []) df.
Proof.
  intros R N. apply map_ext_in. intros c Hc. f_equal.
  pose proof (rectangular_length df c R Hc) as L.
  destruct (values c) as [|x [|y vs]]; cbn in *; try reflexivity; lia.
Qed.

(** X7.  [clean_data]: the cells of the first row of a sheet have no effect
    on the outcome, result or error: two sheets with the same labels and
    dtypes and the same cells below the first row clean alike.  A sheet of
    at most one row cleans to a table with the same labels and no row,
    without error. *)
Theorem clean_data_ignores_first_row :
  (forall df df' : DataFrame,
      below_header df = below_header df' ->
      DataCleaner.clean_data (DataCleaner.__init__ df)
      = DataCleaner.clean_data (DataCleaner.__init__ df'))
  /\ (forall df : DataFrame,
         distinct (columns df) = true -> rectangular df = true ->
         nrows df <= 1 ->
         exists out,
           DataCleaner.clean_data (DataCleaner.__init__ df) = Ok out
           /\ columns out = columns df /\ nrows out = 0).
Proof.
  split.
  - intros df df' E. unfold DataCleaner.clean_data.
    assert (E1 : DataCleaner._remove_metadata_row (DataCleaner.__init__ df)
                 = DataCleaner._remove_metadata_row (DataCleaner.__init__ df')).
    { unfold DataCleaner._remove_metadata_row, DataCleaner.__init__,
        DataCleaner.set_data.
      cbn [DataCleaner.data DataCleaner.percentage_columns].
      now rewrite !below_header_table, !below_header_columns, E. }
    now rewrite E1.
  - intros df Hd R N. pose proof (clean_data_steps df Hd) as S.
    pose proof (rectangular_short df R N) as E.
    assert (P : percentages_ok (map (fun c => with_values c (tl (values c))) df)
                = true).
    { rewrite E. unfold percentages_ok. apply forallb_map_true.
      intros c _. cbn [values with_values forallb]. apply orb_true_r. }
    rewrite P in S. eexists. split; [exact S|].
    pose proof (cleaned_with_duplicates_dims df) as D.
    split.
    + unfold drop_duplicates. rewrite take_columns, (dims_columns _ _ D).
      apply remove_metadata_row_columns.
    + pose proof (drop_duplicates_nrows (cleaned_with_duplicates df)) as L.
      rewrite (dims_nrows _ _ D), remove_metadata_row_nrows in L. lia.
Qed.

(* ===================================================================== *)
(** ** More on the handler *)
(* ===================================================================== *)

(** X8.  [PowerPlantDataHandler.__init__]: a handler built from two
    well-formed sheets holds two well-formed tables with the labels of the
    sheets, no missing cell and no repeated row. *)
Theorem handler_init_tables_clean
        (plant_sheet state_sheet : DataFrame) (self : PowerPlantDataHandler.t) :
  wf_frame plant_sheet = true ->
  wf_frame state_sheet = true ->
  PowerPlantDataHandler.__init__ plant_sheet state_sheet = Ok self ->
  let pdf := PowerPlantDataHandler.plant_data self in
  let sdf := PowerPlantDataHandler.state_data self in
  (wf_frame pdf = true /\ no_na pdf /\ no_duplicate_rows pdf
   /\ columns pdf = columns plant_sheet)
  /\ (wf_frame sdf = true /\ no_na sdf /\ no_duplicate_rows sdf
      /\ columns sdf = columns state_sheet).
Proof.
  intros Wp Ws H. unfold PowerPlantDataHandler.__init__ in H.
  destruct (DataCleaner.clean_data (DataCleaner.__init__ plant_sheet))
    as [p|e] eqn:Ep; cbn [bind] in H; [|discriminate].
  destruct (DataCleaner.clean_data (DataCleaner.__init__ state_sheet))
    as [s|e] eqn:Es; cbn [bind] in H; [|discriminate].
  injection H as <-. cbn [PowerPlantDataHandler.plant_data
                           PowerPlantDataHandler.state_data].
  assert (C : forall df out, wf_frame df = true ->
                DataCleaner.clean_data (DataCleaner.__init__ df) = Ok out ->
                columns out = columns df).
  { intros df out W E. unfold wf_frame in W.
    apply andb_true_iff in W. destruct W as [W _].
    apply andb_true_iff in W. destruct W as [Wd _].
    destruct (clean_data_is_steps df out Wd E) as [_ ->].
    unfold drop_duplicates.
    rewrite take_columns, (dims_columns _ _ (cleaned_with_duplicates_dims df)).
    apply remove_metadata_row_columns. }
  destruct (clean_data_wf _ _ Wp Ep) as [A1 [A2 A3]].
  destruct (clean_data_wf _ _ Ws Es) as [B1 [B2 B3]].
  repeat split; auto.
Qed.

Lemma slice_stop_nonneg (len : nat) (n : Z) :
  (0 <= n)%Z -> slice_stop len n = Z.to_nat n.
Proof. intros H. unfold slice_stop. now rewrite (proj2 (Z.leb_le 0 n) H). Qed.

(** X9.  [get_top_n_plants]: a shorter list is the beginning of a longer
    one: for [0 <= m <= n] the answer for [m] is the first [m] entries of
    the answer for [n], computed with the same sort. *)
Theorem top_n_plants_prefix_monotone (argsort_desc : list F64 -> list nat)
        (self : PowerPlantDataHandler.t) (m n : Z) (metric : string) :
  let df := PowerPlantDataHandler.plant_data self in
  sorts_descending argsort_desc ->
  plant_table df = true ->
  column_is df metric float64 = true ->
  (0 <= m <= n)%Z ->
  exists small large,
    PowerPlantDataHandler.get_top_n_plants argsort_desc self m metric = Ok small
    /\ PowerPlantDataHandler.get_top_n_plants argsort_desc self n metric = Ok large
    /\ small = firstn (Z.to_nat m) large.
Proof.
  intros df HK Hp Hc Hmn.
  destruct (argsort_positions argsort_desc df metric HK) as [Perm _].
  do 2 eexists. split; [|split].
  - apply (get_top_n_plants_ok argsort_desc self m metric Hp Hc Perm).
  - apply (get_top_n_plants_ok argsort_desc self n metric Hp Hc Perm).
  - fold df. unfold top_positions.
    rewrite !slice_stop_nonneg by lia.
    rewrite <- firstn_map, <- (firstn_map _ (Z.to_nat n)), firstn_firstn.
    f_equal. lia.
Qed.

Lemma StronglySorted_app_cross {A : Type} (R : A -> A -> Prop) (l1 l2 : list A) :
  StronglySorted R (l1 ++ l2)%list ->
  forall a b, In a l1 -> In b l2 -> R a b.
Proof.
  induction l1 as [|x l1 IH]; intros S a b Ha Hb; [destruct Ha|].
  cbn [app] in S. apply StronglySorted_inv in S. destruct S as [S F].
  destruct Ha as [<-|Ha]; [|now apply IH].
  rewrite Forall_forall in F. apply F. apply in_or_app. now right.
Qed.

Lemma float_at_not_nan (df : DataFrame) (label : string) (i : nat) :
  rectangular df = true -> well_typed df = true -> no_na df ->
  column_is df label float64 = true -> i < nrows df ->
  is_nan (float_at df label i) = false.
Proof.
  intros R W N C Hi.
  destruct (float_column_cell df label i R W C Hi) as [c [G E]].
  destruct (getitem_Ok_inv _ _ _ G) as [Hin _].
  assert (L : List.length (values c) = nrows df) by now apply rectangular_length.
  assert (In (cell_at c i) (values c)) as Hx by (apply nth_In; lia).
  apply (N c Hin) in Hx. rewrite E in Hx. exact Hx.
Qed.

(** X10.  [get_top_n_plants]: no plant left out of the answer outranks one
    that is in it.  For [n >= 0] every returned entry comes before every row
    that is not returned in the descending order of the metric; on a table
    without missing cells this says that the metric of a row left out is at
    most the metric of any returned entry. *)
Theorem top_n_plants_dominate_the_rest (argsort_desc : list F64 -> list nat)
        (self : PowerPlantDataHandler.t) (n : Z) (metric : string) :
  let df := PowerPlantDataHandler.plant_data self in
  sorts_descending argsort_desc ->
  plant_table df = true ->
  column_is df metric float64 = true ->
  (0 <= n)%Z ->
  exists plants,
    PowerPlantDataHandler.get_top_n_plants argsort_desc self n metric = Ok plants
    /\ plants = map (plant_entry df metric)
                    (top_positions argsort_desc df n metric)
    /\ (forall p j,
           In p plants -> j < nrows df ->
           ~ In j (top_positions argsort_desc df n metric) ->
           desc_before (tp_metric_value p) (float_at df metric j) = true)
    /\ (no_na df ->
        forall p j,
          In p plants -> j < nrows df ->
          ~ In j (top_positions argsort_desc df n metric) ->
          fleb (float_at df metric j) (tp_metric_value p) = true).
Proof.
  intros df HK Hp Hc Hn.
  destruct (argsort_positions argsort_desc df metric HK) as [Perm Hsorted].
  cbn zeta in Perm, Hsorted. fold df in Perm, Hsorted.
  set (idx := argsort_desc (metric_keys df metric)) in *.
  assert (Dom : forall p j,
             In p (map (plant_entry df metric)
                       (top_positions argsort_desc df n metric)) ->
             j < nrows df ->
             ~ In j (top_positions argsort_desc df n metric) ->
             exists i, i < nrows df /\ tp_metric_value p = float_at df metric i
                       /\ desc_before (float_at df metric i)
                                      (float_at df metric j) = true).
  { intros p j Hin Hj Hout. apply in_map_iff in Hin.
    destruct Hin as [i [<- Hi]]. exists i.
    unfold top_positions in *. fold idx in Hi, Hout.
    rewrite slice_stop_nonneg in * by lia.
    assert (Hi' : In i idx) by (eapply firstn_In; eauto).
    assert (Hj' : In j idx).
    { apply (Permutation_in j (Permutation_sym Perm)).
      unfold positions. apply in_seq. lia. }
    rewrite <- (firstn_skipn (Z.to_nat n) idx) in Hj'.
    apply in_app_or in Hj'. destruct Hj' as [Hj'|Hj']; [contradiction|].
    split.
    - apply (Permutation_in i Perm) in Hi'. unfold positions in Hi'.
      apply in_seq in Hi'. lia.
    - split; [reflexivity|].
      unfold rows_descending in Hsorted.
      rewrite <- (firstn_skipn (Z.to_nat n) idx) in Hsorted.
      exact (StronglySorted_app_cross _ _ _ Hsorted i j Hi Hj'). }
  eexists. split; [apply (get_top_n_plants_ok argsort_desc self n metric Hp Hc Perm)|].
  fold df. split; [reflexivity|]. split.
  - intros p j Hin Hj Hout.
    destruct (Dom p j Hin Hj Hout) as [i [_ [-> D]]]. exact D.
  - intros N p j Hin Hj Hout.
    destruct (Dom p j Hin Hj Hout) as [i [Hi [-> D]]].
    destruct (plant_table_inv df Hp) as [_ [R [W _]]].
    unfold desc_before in D.
    rewrite (float_at_not_nan df metric j R W N Hc Hj) in D.
    rewrite (float_at_not_nan df metric i R W N Hc Hi) in D.
    exact D.
Qed.

Lemma getitem_raises (df : DataFrame) (label : string) (e : exn) :
  getitem df label = Raise e -> e = KeyError label.
Proof.
  unfold getitem. destruct (find _ df); [discriminate|]. now intros [= <-].
Qed.

Lemma merge_raises (left right : DataFrame) (left_on right_on : string) (e : exn) :
  PowerPlantDataHandler.merge left right left_on right_on = Raise e ->
  forall m, e <> BadMetricError m.
Proof.
  unfold PowerPlantDataHandler.merge. intros H m ->.
  destruct (getitem right right_on) eqn:E1; cbn [bind] in H.
  - destruct (getitem left left_on) eqn:E2; cbn [bind] in H.
    + destruct (PowerPlantDataHandler.keys_clash a0 a); discriminate.
    + apply getitem_raises in E2. subst. discriminate.
  - apply getitem_raises in E1. subst. discriminate.
Qed.

Lemma summary_record_raises (plant_metric : string) (ks vs ps : list cell)
      (k : cell) (e : exn) :
  PowerPlantDataHandler.summary_record plant_metric ks vs ps k = Raise e ->
  e = ValidationError "plant_state_abbreviation".
Proof.
  unfold PowerPlantDataHandler.summary_record.
  destruct (validate_str "plant_state_abbreviation" k) eqn:E; cbn [bind];
    [discriminate|].
  intros [= <-]. now apply validate_str_raises in E.
Qed.

Lemma column_is_false (df : DataFrame) (label : string) (c : Series) :
  getitem df label = Ok c -> column_is df label float64 = false ->
  PowerPlantDataHandler.is_numeric_dtype c = false.
Proof. unfold column_is. now intros ->. Qed.

Lemma column_is_true (df : DataFrame) (label : string) (c : Series) :
  getitem df label = Ok c -> column_is df label float64 = true ->
  PowerPlantDataHandler.is_numeric_dtype c = true.
Proof. unfold column_is. now intros ->. Qed.

(** X11.  [get_plant_metric_summary_by_state]: the four ways it rejects a
    metric, in the order the checks are made: the plant metric is no column
    of the plant table; the state metric is no column of the state table;
    the plant column is not numeric; the state column is not numeric (the
    message then names the plant metric).  When both columns are numeric no
    [BadMetricError] is raised. *)
Theorem summary_by_state_bad_metric
        (self : PowerPlantDataHandler.t) (plant_metric : string) :
  let pdf := PowerPlantDataHandler.plant_data self in
  let sdf := PowerPlantDataHandler.state_data self in
  let state_metric := Py.replace "Plant" "State" plant_metric in
  let r := PowerPlantDataHandler.get_plant_metric_summary_by_state self plant_metric in
  (has_column pdf plant_metric = false ->
   r = Raise (BadMetricError (msg_no_plant_metric plant_metric)))
  /\ (has_column pdf plant_metric = true ->
      has_column sdf state_metric = false ->
      r = Raise (BadMetricError (msg_no_state_metric state_metric)))
  /\ (has_column sdf state_metric = true ->
      has_column pdf plant_metric = true ->
      column_is pdf plant_metric float64 = false ->
      r = Raise (BadMetricError (msg_plant_not_numerical plant_metric)))
  /\ (column_is pdf plant_metric float64 = true ->
      has_column sdf state_metric = true ->
      column_is sdf state_metric float64 = false ->
      r = Raise (BadMetricError (msg_state_not_numerical plant_metric)))
  /\ (column_is pdf plant_metric float64 = true ->
      column_is sdf state_metric float64 = true ->
      forall m, r <> Raise (BadMetricError m)).
Proof.
  intros pdf sdf state_metric r.
  unfold r, PowerPlantDataHandler.get_plant_metric_summary_by_state.
  fold pdf sdf state_metric.
  split; [|split; [|split; [|split]]].
  - intros ->. reflexivity.
  - intros -> ->. reflexivity.
  - intros Hs Hp Hc. rewrite Hs, Hp. cbn [negb].
    destruct (getitem_has_column _ _ Hp) as [pc Ep].
    destruct (getitem_has_column _ _ Hs) as [sc Es].
    rewrite Ep, Es. cbn [bind].
    now rewrite (column_is_false _ _ _ Ep Hc).
  - intros Hc Hs Hcs.
    pose proof (column_is_has_column _ _ _ Hc) as Hp.
    rewrite Hs, Hp. cbn [negb].
    destruct (getitem_has_column _ _ Hp) as [pc Ep].
    destruct (getitem_has_column _ _ Hs) as [sc Es].
    rewrite Ep, Es. cbn [bind].
    rewrite (column_is_true _ _ _ Ep Hc), (column_is_false _ _ _ Es Hcs).
    reflexivity.
  - intros Hc Hcs m.
    pose proof (column_is_has_column _ _ _ Hc) as Hp.
    pose proof (column_is_has_column _ _ _ Hcs) as Hs.
    rewrite Hs, Hp. cbn [negb].
    destruct (getitem_has_column _ _ Hp) as [pc Ep].
    destruct (getitem_has_column _ _ Hs) as [sc Es].
    rewrite Ep, Es. cbn [bind].
    rewrite (column_is_true _ _ _ Ep Hc), (column_is_true _ _ _ Es Hcs).
    cbn [negb].
    destruct (getitem sdf "State abbreviation") as [ab|e] eqn:Eab; cbn [bind];
      [|apply getitem_raises in Eab; subst e; discriminate].
    destruct (String.eqb state_metric "State abbreviation"); [discriminate|].
    destruct (PowerPlantDataHandler.merge pdf [ab; sc] _ _) as [md|e] eqn:Em;
      cbn [bind].
    2:{ intros [= ->]. exact (merge_raises _ _ _ _ _ Em m eq_refl). }
    destruct (has_column pdf state_metric); [discriminate|].
    destruct (getitem md plant_metric) as [p|e] eqn:E1; cbn [bind];
      [|apply getitem_raises in E1; subst e; discriminate].
    destruct (getitem md state_metric) as [s|e] eqn:E2; cbn [bind];
      [|apply getitem_raises in E2; subst e; discriminate].
    destruct (getitem md "Plant state abbreviation") as [k|e] eqn:E3; cbn [bind];
      [|apply getitem_raises in E3; subst e; discriminate].
    destruct (String.eqb plant_metric "Plant state abbreviation");
      [discriminate|].
    intros H. apply mapM_raise_inv in H. destruct H as [x [_ H]].
    apply summary_record_raises in H. discriminate.
Qed.

(** *** The order of the summary *)

Lemma ascii_compare_N (a b : ascii) :
  Ascii.compare a b = (N_of_ascii a ?= N_of_ascii b)%N.
Proof. reflexivity. Qed.

Lemma string_compare_trans (a : string) :
  forall b c, String.compare a b <> Gt -> String.compare b c <> Gt ->
              String.compare a c <> Gt.
Proof.
  induction a as [|x a IH]; intros [|y b] [|z c]; cbn [String.compare];
    try congruence.
  rewrite !ascii_compare_N.
  destruct (N.compare_spec (N_of_ascii x) (N_of_ascii y)) as [E1|L1|G1];
    destruct (N.compare_spec (N_of_ascii y) (N_of_ascii z)) as [E2|L2|G2];
    destruct (N.compare_spec (N_of_ascii x) (N_of_ascii z)) as [E3|L3|G3];
    try congruence; try lia; intros H1 H2; now apply (IH b c).
Qed.

Lemma string_leb_trans (a b c : string) :
  String.leb a b = true -> String.leb b c = true -> String.leb a c = true.
Proof.
  unfold String.leb. intros H1 H2.
  pose proof (string_compare_trans a b c) as T.
  destruct (String.compare a b), (String.compare b c), (String.compare a c);
    try discriminate; try reflexivity; exfalso; apply T; congruence.
Qed.

Lemma string_leb_false (a b : string) :
  String.leb a b = false -> String.leb b a = true.
Proof.
  intros H. destruct (String.leb_total a b) as [T|T]; [congruence|exact T].
Qed.

Lemma string_leb_ltb (a b : string) :
  String.leb a b = true -> a <> b -> String.ltb a b = true.
Proof.
  unfold String.leb, String.ltb. intros H Hne.
  destruct (String.compare a b) eqn:E; try discriminate; [|reflexivity].
  now apply String.compare_eq_iff in E.
Qed.

Section InsertionSortOn.
Context {A : Type} (leb : A -> A -> bool) (R : A -> A -> Prop) (P : A -> Prop).
Hypothesis leb_true : forall a b, P a -> P b -> leb a b = true -> R a b.
Hypothesis leb_false : forall a b, P a -> P b -> leb a b = false -> R b a.
Hypothesis R_trans : forall a b c, R a b -> R b c -> R a c.

Lemma insert_sorted_sorted_on (x : A) (l : list A) :
  P x -> Forall P l -> StronglySorted R l ->
  StronglySorted R (insert_sorted leb x l).
Proof.
  intros Px Pl S. induction S as [|y l S IH F]; cbn [insert_sorted].
  - constructor; constructor.
  - apply Forall_cons_iff in Pl. destruct Pl as [Py Pl].
    destruct (leb x y) eqn:E.
    + constructor; [now constructor|].
      constructor; [now apply leb_true|].
      rewrite Forall_forall in *. intros z Hz.
      apply (R_trans x y z); [now apply leb_true|now apply F].
    + constructor; [now apply IH|].
      apply Forall_forall. intros z Hz.
      apply (Permutation_in z (insert_sorted_perm leb x l)) in Hz.
      destruct Hz as [<-|Hz]; [now apply leb_false|].
      rewrite Forall_forall in F. now apply F.
Qed.

Lemma insertion_sort_sorted_on (l : list A) :
  Forall P l -> StronglySorted R (insertion_sort leb l).
Proof.
  induction l as [|x l IH]; intros Pl; [constructor|].
  apply Forall_cons_iff in Pl. destruct Pl as [Px Pl].
  cbn [insertion_sort fold_right].
  apply insert_sorted_sorted_on; [exact Px| |now apply IH].
  rewrite Forall_forall in *. intros z Hz. apply Pl.
  exact (Permutation_in z (insertion_sort_perm leb l) Hz).
Qed.
End InsertionSortOn.

Lemma group_keys_sorted (ks : list cell) :
  Forall (fun c => PowerPlantDataHandler.is_str c = true) ks ->
  StronglySorted (fun a b => String.leb a b = true)
                 (map key_text (insertion_sort key_leb ks)).
Proof.
  intros H.
  apply (StronglySorted_map_in
           (fun a b => String.leb (key_text a) (key_text b) = true)); [auto|].
  apply (insertion_sort_sorted_on
           key_leb _ (fun c => PowerPlantDataHandler.is_str c = true)).
  - intros [x|s] [y|t]; cbn; congruence.
  - intros [x|s] [y|t]; cbn; try congruence. intros _ _.
    apply string_leb_false.
  - intros a b c. apply string_leb_trans.
  - exact H.
Qed.

Lemma sorted_NoDup_strict (l : list string) :
  StronglySorted (fun a b => String.leb a b = true) l -> NoDup l ->
  strictly_ascending l.
Proof.
  unfold strictly_ascending.
  induction 1 as [|a l S IH F]; intros N; [constructor|].
  apply NoDup_cons_iff in N. destruct N as [Na N].
  constructor; [now apply IH|].
  rewrite Forall_forall in *. intros b Hb. apply string_leb_ltb; [now apply F|].
  intros ->. contradiction.
Qed.

(** X12.  [get_plant_metric_summary_by_state]: the summary lists the states
    in strictly ascending order of their abbreviation, compared by code
    point, whatever the order of the rows of the plant table. *)
Theorem summary_by_state_in_ascending_order
        (self : PowerPlantDataHandler.t) (plant_metric : string) :
  let pdf := PowerPlantDataHandler.plant_data self in
  let sdf := PowerPlantDataHandler.state_data self in
  let state_metric := Py.replace "Plant" "State" plant_metric in
  plant_table pdf = true ->
  rectangular sdf = true ->
  column_is pdf plant_metric float64 = true ->
  column_is sdf state_metric float64 = true ->
  has_column pdf state_metric = false ->
  column_is pdf "Plant state abbreviation" object = true ->
  column_is sdf "State abbreviation" object = true ->
  unique_cells (state_keys sdf) = true ->
  exists items : StateSummary,
    PowerPlantDataHandler.get_plant_metric_summary_by_state self plant_metric
    = Ok items
    /\ strictly_ascending (map plant_state_abbreviation items).
Proof.
  intros pdf sdf state_metric H1 H2 H3 H4 H5 H6 H7 H8.
  eexists. split; [apply (summary_items self plant_metric H1 H2 H3 H4 H5 H6 H7 H8)|].
  rewrite map_map. cbn [plant_state_abbreviation summary_item].
  apply sorted_NoDup_strict; [|apply (group_keys_NoDup self H1)].
  apply group_keys_sorted, unique_keys_str, (plant_keys_text self H1).
Qed.





Lemma getitem_Ok_has_column (df : DataFrame) (label : string) (c : Series) :
  getitem df label = Ok c -> has_column df label = true.
Proof.
  intros H. destruct (getitem_Ok_inv _ _ _ H) as [Hin <-].
  apply has_column_In. unfold columns. now apply in_map.
Qed.

Lemma get_data_by_state_spec (self : PowerPlantDataHandler.t) (state : string) :
  let df := PowerPlantDataHandler.plant_data self in
  rectangular df = true ->
  has_column df "Plant state abbreviation" = true ->
  PowerPlantDataHandler.get_data_by_state self state
  = if existsb (in_state df state) (positions df)
    then Ok (map (row df) (state_rows df state))
    else Raise (DataNotFoundExceptionError (msg_no_data state)).
Proof.
  intros df Hr Hh.
  destruct (getitem_has_column df _ Hh) as [c E].
  destruct (getitem_Ok_inv _ _ _ E) as [Hin _].
  unfold PowerPlantDataHandler.get_data_by_state. fold df. rewrite E.
  cbn [bind].
  assert (Hst : forall i, in_state df state i = cell_same (CStr state) (cell_at c i)).
  { intros i. unfold in_state, cell_of. rewrite E. now rewrite cell_same_state. }
  assert (Hlen : List.length (values c) = nrows df)
    by now apply rectangular_length.
  rewrite (existsb_map_positions _ nan), Hlen.
  assert (Ee : existsb (fun i => cell_same (CStr state) (nth i (values c) nan))
                       (seq 0 (nrows df))
               = existsb (in_state df state) (positions df)).
  { unfold positions. apply existsb_pointwise. intros i. now rewrite Hst. }
  rewrite Ee. destruct (existsb (in_state df state) (positions df)); cbn [negb].
  - unfold getitem_mask.
    rewrite to_records_take by (eapply has_column_nonempty; eauto).
    rewrite (nonzero_map _ nan), Hlen. unfold state_rows, positions.
    do 2 f_equal. apply filter_ext. intros i. now rewrite Hst.
  - reflexivity.
Qed.

Lemma in_state_cell (df : DataFrame) (state : string) (i : nat) :
  in_state df state i = true <->
  cell_of df "Plant state abbreviation" i = CStr state.
Proof.
  unfold in_state.
  destruct (cell_of df "Plant state abbreviation" i) as [x|s].
  - split; discriminate.
  - rewrite String.eqb_eq. split; [now intros ->|now intros [= ->]].
Qed.

Lemma get_data_by_state_Ok (self : PowerPlantDataHandler.t) (state : string)
      (rows : DataFrameModel) :
  let df := PowerPlantDataHandler.plant_data self in
  rectangular df = true ->
  PowerPlantDataHandler.get_data_by_state self state = Ok rows ->
  rows = map (row df) (state_rows df state)
  /\ exists i, i < nrows df
               /\ cell_of df "Plant state abbreviation" i = CStr state.
Proof.
  intros df Hr H.
  assert (Hh : has_column df "Plant state abbreviation" = true).
  { unfold PowerPlantDataHandler.get_data_by_state in H. fold df in H.
    destruct (getitem df "Plant state abbreviation") as [c|e] eqn:E;
      [|discriminate].
    now apply getitem_Ok_has_column in E. }
  rewrite (get_data_by_state_spec self state Hr Hh) in H. fold df in H.
  destruct (existsb (in_state df state) (positions df)) eqn:E; [|discriminate].
  injection H as <-. split; [reflexivity|].
  apply existsb_exists in E. destruct E as [i [Hi Hs]].
  unfold positions in Hi. apply in_seq in Hi.
  exists i. split; [lia|]. now apply in_state_cell.
Qed.

Lemma state_rows_In (df : DataFrame) (state : string) (i : nat) :
  In i (state_rows df state) <->
  i < nrows df /\ cell_of df "Plant state abbreviation" i = CStr state.
Proof.
  unfold state_rows, positions. rewrite filter_In, in_seq, in_state_cell.
  intuition lia.
Qed.

Lemma record_get_row_cell (df : DataFrame) (label : string) (i : nat) :
  has_column df label = true ->
  record_get (row df i) label = Ok (cell_of df label i).
Proof.
  intros H. destruct (getitem_has_column df label H) as [c E].
  rewrite record_get_row, E. now rewrite (cell_of_getitem _ _ _ _ E).
Qed.

Lemma seq_increasing (n : nat) : forall i, StronglySorted lt (seq i n).
Proof.
  induction n as [|n IH]; intros i; cbn [seq]; constructor; [apply IH|].
  apply Forall_forall. intros j Hj. apply in_seq in Hj. lia.
Qed.

Lemma StronglySorted_filter {A : Type} (R : A -> A -> Prop) (p : A -> bool)
      (l : list A) :
  StronglySorted R l -> StronglySorted R (filter p l).
Proof.
  induction 1 as [|a l S IH F]; cbn [filter]; [constructor|].
  destruct (p a); [|exact IH]. constructor; [exact IH|].
  rewrite Forall_forall in *. intros b Hb. apply F.
  apply filter_In in Hb. tauto.
Qed.

(** X14.  [get_data_by_state]: an answer is never empty; each of its records
    is a row of the plant table whose state abbreviation is exactly the
    state asked for, with all the labels of the table, in table order; and
    when the table has no missing cell, no value of a record is missing. *)
Theorem data_by_state_records (self : PowerPlantDataHandler.t) (state : string)
        (rows : DataFrameModel) :
  let df := PowerPlantDataHandler.plant_data self in
  rectangular df = true ->
  PowerPlantDataHandler.get_data_by_state self state = Ok rows ->
  rows <> []
  /\ List.length rows <= nrows df
  /\ rows = map (row df) (state_rows df state)
  /\ StronglySorted lt (state_rows df state)
  /\ (forall r, In r rows ->
                record_get r "Plant state abbreviation" = Ok (CStr state)
                /\ map fst r = columns df)
  /\ (no_na df -> forall r k v, In r rows -> In (k, v) r -> isna v = false).
Proof.
  intros df Hr H.
  assert (Hh : has_column df "Plant state abbreviation" = true).
  { unfold PowerPlantDataHandler.get_data_by_state in H. fold df in H.
    destruct (getitem df "Plant state abbreviation") as [c|e] eqn:E;
      [|discriminate].
    now apply getitem_Ok_has_column in E. }
  destruct (get_data_by_state_Ok self state rows Hr H) as [-> [i [Hi Hc]]].
  fold df. split; [|split; [|split; [|split; [|split]]]].
  - intros E. apply map_eq_nil in E.
    assert (In i (state_rows df state)) as Hin by now apply state_rows_In.
    rewrite E in Hin. destruct Hin.
  - rewrite length_map. unfold state_rows.
    pose proof (filter_length_le (in_state df state) (positions df)) as L.
    unfold positions in L at 2. now rewrite length_seq in L.
  - reflexivity.
  - unfold state_rows, positions. apply StronglySorted_filter, seq_increasing.
  - intros r Hin. apply in_map_iff in Hin. destruct Hin as [j [<- Hj]].
    apply state_rows_In in Hj. destruct Hj as [_ Hj].
    split; [|apply row_columns].
    now rewrite (record_get_row_cell df _ j Hh), Hj.
  - intros N r k v Hin Hkv. apply in_map_iff in Hin. destruct Hin as [j [<- Hj]].
    apply state_rows_In in Hj. destruct Hj as [Hj _].
    unfold row in Hkv. apply in_map_iff in Hkv. destruct Hkv as [c [[= _ <-] Hc']].
    apply (N c Hc'). unfold cell_at. apply nth_In.
    now rewrite (rectangular_length df c Hr Hc').
Qed.

Lemma record_float_row (df : DataFrame) (label : string) (i : nat) :
  record_float label (row df i) = float_at df label i.
Proof.
  unfold record_float, float_at, cell_of. rewrite record_get_row.
  now destruct (getitem df label).
Qed.

(** X15.  [get_plant_metric_summary_by_state] and [get_data_by_state] agree:
    the states of the summary are exactly the states for which the filter
    finds plants, and the absolute value of a summary entry is the sum of the
    metric over the records the filter returns for that state. *)
Theorem summary_by_state_matches_filter
        (self : PowerPlantDataHandler.t) (plant_metric : string) :
  let pdf := PowerPlantDataHandler.plant_data self in
  let sdf := PowerPlantDataHandler.state_data self in
  let state_metric := Py.replace "Plant" "State" plant_metric in
  plant_table pdf = true ->
  rectangular sdf = true ->
  column_is pdf plant_metric float64 = true ->
  column_is sdf state_metric float64 = true ->
  has_column pdf state_metric = false ->
  column_is pdf "Plant state abbreviation" object = true ->
  column_is sdf "State abbreviation" object = true ->
  unique_cells (state_keys sdf) = true ->
  exists items : StateSummary,
    PowerPlantDataHandler.get_plant_metric_summary_by_state self plant_metric
    = Ok items
    /\ (forall s, In s (map plant_state_abbreviation items)
                  <-> exists rows,
                      PowerPlantDataHandler.get_data_by_state self s = Ok rows)
    /\ (forall it, In it items ->
                   exists rows,
                     PowerPlantDataHandler.get_data_by_state
                       self (plant_state_abbreviation it) = Ok rows
                     /\ absolute_value it
                        = nansum (map (record_float plant_metric) rows)).
Proof.
  intros pdf sdf state_metric H1 H2 H3 H4 H5 H6 H7 H8.
  destruct (plant_table_inv pdf H1) as [_ [R _]].
  pose proof (column_is_has_column _ _ _ H6) as Hh.
  assert (F : forall s,
             (exists i, i < nrows pdf
                        /\ cell_of pdf "Plant state abbreviation" i = CStr s) ->
             PowerPlantDataHandler.get_data_by_state self s
             = Ok (map (row pdf) (state_rows pdf s))).
  { intros s [i [Hi Hc]].
    rewrite (get_data_by_state_spec self s R Hh). fold pdf.
    replace (existsb (in_state pdf s) (positions pdf)) with true; [reflexivity|].
    symmetry. apply existsb_exists. exists i. split.
    - unfold positions. apply in_seq. lia.
    - now apply in_state_cell. }
  eexists. split; [apply (summary_items self plant_metric H1 H2 H3 H4 H5 H6 H7 H8)|].
  rewrite map_map. cbn [plant_state_abbreviation summary_item].
  split.
  - intros s. rewrite (group_keys_states self H1 s). fold pdf. split.
    + intros E. eexists. now apply F.
    + intros [rows E]. now destruct (get_data_by_state_Ok self s rows R E).
  - intros it Hit. apply in_map_iff in Hit. destruct Hit as [k [<- Hk]].
    cbn [plant_state_abbreviation absolute_value summary_item].
    assert (E : exists i, i < nrows pdf
                          /\ cell_of pdf "Plant state abbreviation" i
                             = CStr (key_text k)).
    { apply (group_keys_states self H1). now apply in_map. }
    eexists. split; [now apply F|].
    rewrite map_map. f_equal. apply map_ext. intros i.
    now rewrite record_float_row.
Qed.

Lemma getitem_absent (df : DataFrame) (label : string) :
  has_column df label = false -> getitem df label = Raise (KeyError label).
Proof.
  unfold has_column, columns, getitem.
  induction df as [|c df IH]; [reflexivity|].
  cbn [map existsb find]. intros H. apply orb_false_iff in H.
  destruct H as [H1 H2]. rewrite String.eqb_sym, H1. now apply IH.
Qed.

(** X16.  [get_top_n_plants]: on a plant table that has the numeric metric
    but no column "Plant name", a request for at least one plant fails with
    [KeyError] on that label as soon as the table has a row; no entry is
    built, and the error is no [BadMetricError]. *)
Theorem top_n_plants_missing_name_column (argsort_desc : list F64 -> list nat)
        (self : PowerPlantDataHandler.t) (n : Z) (metric : string) :
  let df := PowerPlantDataHandler.plant_data self in
  sorts_descending argsort_desc ->
  rectangular df = true ->
  column_is df metric float64 = true ->
  has_column df "Plant name" = false ->
  (0 < n)%Z ->
  1 <= nrows df ->
  PowerPlantDataHandler.get_top_n_plants argsort_desc self n metric
  = Raise (KeyError "Plant name").
Proof.
  intros df HK R Hc Hn Hpos Hrows.
  destruct (argsort_positions argsort_desc df metric HK) as [Perm _].
  cbn zeta in Perm.
  rewrite (get_top_n_plants_numeric argsort_desc self n metric R Hc Perm).
  fold df. unfold top_positions. rewrite slice_stop_nonneg by lia.
  pose proof (Permutation_length Perm) as L.
  unfold positions in L. rewrite length_seq in L.
  destruct (argsort_desc (metric_keys df metric)) as [|i idx];
    [cbn in L; lia|].
  destruct (Z.to_nat n) as [|k] eqn:E; [lia|].
  cbn [firstn map mapM].
  unfold PowerPlantDataHandler.top_power_plant at 1.
  rewrite record_get_row, (getitem_absent df _ Hn). reflexivity.
Qed.

Lemma replace_without_occurrence (s : string) :
  Py.count "Plant" s = 0 -> Py.replace "Plant" "State" s = s.
Proof.
  unfold Py.count, Py.replace. intros H.
  rewrite (replace_chars_none _ _ _ _ H). cbn [skipn].
  apply string_of_list_ascii_of_string.
Qed.

(** X17.  [get_plant_metric_summary_by_state]: a metric whose name has no
    "Plant" in it is never summarised.  The state metric is then the same
    label, and whatever the two tables hold the call ends in an exception:
    when the label is a numeric column of both tables, the joined table
    carries it twice under suffixed names and the lookup fails with
    [KeyError], unless an earlier step has failed already. *)
Theorem summary_by_state_needs_plant_in_name
        (self : PowerPlantDataHandler.t) (plant_metric : string) :
  Py.count "Plant" plant_metric = 0 ->
  Py.replace "Plant" "State" plant_metric = plant_metric
  /\ (exists e,
         PowerPlantDataHandler.get_plant_metric_summary_by_state self plant_metric
         = Raise e)
  /\ (column_is (PowerPlantDataHandler.plant_data self) plant_metric float64 = true ->
      column_is (PowerPlantDataHandler.state_data self) plant_metric float64 = true ->
      column_is (PowerPlantDataHandler.plant_data self)
                "Plant state abbreviation" object = true ->
      column_is (PowerPlantDataHandler.state_data self)
                "State abbreviation" object = true ->
      PowerPlantDataHandler.get_plant_metric_summary_by_state self plant_metric
      = Raise (KeyError plant_metric)).
Proof.
  intros H0. pose proof (replace_without_occurrence plant_metric H0) as E.
  split; [exact E|].
  unfold PowerPlantDataHandler.get_plant_metric_summary_by_state. rewrite E.
  set (pdf := PowerPlantDataHandler.plant_data self).
  set (sdf := PowerPlantDataHandler.state_data self).
  split.
  - destruct (has_column pdf plant_metric) eqn:Hp; cbn [negb]; [|eauto].
    destruct (has_column sdf plant_metric); cbn [negb]; [|eauto].
    destruct (getitem pdf plant_metric) as [pc|e]; cbn [bind]; [|eauto].
    destruct (getitem sdf plant_metric) as [sc|e]; cbn [bind]; [|eauto].
    destruct (PowerPlantDataHandler.is_numeric_dtype pc); cbn [negb]; [|eauto].
    destruct (PowerPlantDataHandler.is_numeric_dtype sc); cbn [negb]; [|eauto].
    destruct (getitem sdf "State abbreviation") as [ab|e]; cbn [bind]; [|eauto].
    destruct (String.eqb plant_metric "State abbreviation"); [eauto|].
    destruct (PowerPlantDataHandler.merge pdf [ab; sc] _ _) as [md|e];
      cbn [bind]; eauto.
  - intros Cp Cs Kp Ks.
    pose proof (column_is_has_column _ _ _ Cp) as Hp.
    pose proof (column_is_has_column _ _ _ Cs) as Hs.
    rewrite Hp, Hs. cbn [negb].
    destruct (getitem_has_column _ _ Hp) as [pc Ep].
    destruct (getitem_has_column _ _ Hs) as [sc Es].
    rewrite Ep, Es. cbn [bind].
    rewrite (column_is_true _ _ _ Ep Cp), (column_is_true _ _ _ Es Cs).
    cbn [negb].
    destruct (column_is_getitem _ _ _ Ks) as [ab [Eab [_ [_ Dab]]]].
    destruct (column_is_getitem _ _ _ Kp) as [pk [Epk [_ [_ Dpk]]]].
    rewrite Eab. cbn [bind].
    rewrite (column_is_distinct_labels sdf _ _ Cs Ks).
    unfold PowerPlantDataHandler.merge.
    assert (G : getitem [ab; sc] "State abbreviation" = Ok ab).
    { destruct (getitem_Ok_inv _ _ _ Eab) as [_ Nab].
      unfold getitem. cbn [find]. now rewrite Nab, String.eqb_refl. }
    rewrite G, Epk. cbn [bind].
    unfold PowerPlantDataHandler.keys_clash. rewrite Dpk, Dab.
    cbn [bind]. reflexivity.
Qed.

Lemma has_column_head (n : Z) (df : DataFrame) (label : string) :
  has_column (head n df) label = has_column df label.
Proof.
  unfold has_column, columns, head. now rewrite map_map.
Qed.

(** X21.  [get_top_n_plants]: every way it can fail.  It raises
    [BadMetricError] for a metric that is no column or is not numeric, with
    the two messages; past these checks the only errors are those of
    building an entry: [KeyError] when the table has no "Plant name" or no
    "Plant state abbreviation" column, and a validation error when a name or
    a state is not text or a metric value is not a float.  It raises nothing
    else, and in particular never [DataNotFoundExceptionError]. *)
Theorem top_n_plants_errors (argsort_desc : list F64 -> list nat)
        (self : PowerPlantDataHandler.t) (n : Z) (metric : string) (e : exn) :
  let df := PowerPlantDataHandler.plant_data self in
  PowerPlantDataHandler.get_top_n_plants argsort_desc self n metric = Raise e ->
  (has_column df metric = false /\ e = BadMetricError (msg_absent metric))
  \/ (has_column df metric = true /\ column_is df metric float64 = false
      /\ e = BadMetricError (msg_not_numerical metric))
  \/ (column_is df metric float64 = true
      /\ ((has_column df "Plant name" = false /\ e = KeyError "Plant name")
          \/ (has_column df "Plant state abbreviation" = false
              /\ e = KeyError "Plant state abbreviation")
          \/ In e [ ValidationError "name"; ValidationError "state";
                    ValidationError "metric_value" ])).
Proof.
  intros df H. unfold PowerPlantDataHandler.get_top_n_plants in H. fold df in H.
  destruct (has_column df metric) eqn:Hh; cbn [negb] in H.
  2:{ left. split; [reflexivity|]. now injection H as <-. }
  right. destruct (getitem_has_column df metric Hh) as [c E].
  rewrite E in H. cbn [bind] in H.
  assert (Hc : column_is df metric float64
               = PowerPlantDataHandler.is_numeric_dtype c).
  { unfold column_is. now rewrite E. }
  destruct (PowerPlantDataHandler.is_numeric_dtype c); cbn [bind] in H.
  2:{ left. split; [reflexivity|]. split; [exact Hc|]. now injection H as <-. }
  right. split; [exact Hc|].
  unfold PowerPlantDataHandler.sort_values in H. rewrite E in H.
  cbn [bind] in H. apply mapM_raise_inv in H. destruct H as [x [Hx H]].
  unfold to_records in Hx. apply in_map_iff in Hx. destruct Hx as [i [<- _]].
  set (df' := head n _) in *.
  assert (Hcol : forall label, has_column df' label = has_column df label).
  { intros label. unfold df'. now rewrite has_column_head, has_column_take. }
  unfold PowerPlantDataHandler.top_power_plant in H.
  destruct (has_column df "Plant name") eqn:H1.
  2:{ left. split; [reflexivity|].
      rewrite record_get_row, getitem_absent in H by now rewrite Hcol.
      cbn [bind] in H. now injection H as <-. }
  rewrite (record_get_row_cell df' "Plant name" i) in H by now rewrite Hcol.
  cbn [bind] in H.
  destruct (validate_str "name" _) as [nm|e1] eqn:V1 in H; cbn [bind] in H.
  2:{ right. right. apply validate_str_raises in V1. injection H as <-.
      subst. cbn [In]. tauto. }
  destruct (has_column df "Plant state abbreviation") eqn:H2.
  2:{ right. left. split; [reflexivity|].
      rewrite record_get_row, getitem_absent in H by now rewrite Hcol.
      cbn [bind] in H. now injection H as <-. }
  right. right.
  rewrite !(record_get_row_cell df' _ i) in H by now rewrite Hcol.
  cbn [bind] in H.
  bind_cases H; try discriminate; injection H as <-;
    match goal with
    | E : validate_str _ _ = Raise _ |- _ => apply validate_str_raises in E
    | E : validate_float _ _ = Raise _ |- _ => apply validate_float_raises in E
    end; subst; cbn [In]; tauto.
Qed.

Lemma existsb_mask (s : string) (vs : list cell) :
  existsb (fun b => b) (map (cell_same (CStr s)) vs) = true <-> In (CStr s) vs.
Proof.
  rewrite existsb_exists. split.
  - intros [b [Hb ->]]. apply in_map_iff in Hb. destruct Hb as [x [Hx Hin]].
    apply cell_same_str in Hx. now subst.
  - intros H. exists true. split; [|reflexivity]. apply in_map_iff.
    exists (CStr s). split; [|exact H]. now apply cell_same_str.
Qed.

(** X22.  [get_data_by_state]: every way it can fail.  It raises
    [KeyError] when the plant table has no "Plant state abbreviation"
    column, and [DataNotFoundExceptionError], with the state in the message
    as it was asked for, when the column is there and no cell of it is that
    string; in every other case it returns. *)
Theorem data_by_state_errors (self : PowerPlantDataHandler.t) (state : string) :
  let df := PowerPlantDataHandler.plant_data self in
  let r := PowerPlantDataHandler.get_data_by_state self state in
  (has_column df "Plant state abbreviation" = false ->
   r = Raise (KeyError "Plant state abbreviation"))
  /\ (forall c, getitem df "Plant state abbreviation" = Ok c ->
                ~ In (CStr state) (values c) ->
                r = Raise (DataNotFoundExceptionError (msg_no_data state)))
  /\ (forall c, getitem df "Plant state abbreviation" = Ok c ->
                In (CStr state) (values c) ->
                exists rows, r = Ok rows)
  /\ (forall e, r = Raise e ->
                e = KeyError "Plant state abbreviation"
                \/ e = DataNotFoundExceptionError (msg_no_data state)).
Proof.
  intros df r. unfold r, PowerPlantDataHandler.get_data_by_state. fold df.
  split; [|split; [|split]].
  - intros H. now rewrite (getitem_absent df _ H).
  - intros c E Hn. rewrite E. cbn [bind].
    destruct (existsb _ _) eqn:Em; [|reflexivity].
    apply existsb_mask in Em. contradiction.
  - intros c E Hin. rewrite E. cbn [bind].
    apply existsb_mask in Hin. rewrite Hin. cbn [negb]. eauto.
  - intros e. destruct (getitem df "Plant state abbreviation") as [c|e0] eqn:E;
      cbn [bind].
    + destruct (existsb _ _); cbn [negb]; [discriminate|].
      intros [= <-]. now right.
    + apply getitem_raises in E. subst e0. intros [= <-]. now left.
Qed.

(* ===================================================================== *)
(** ** The request models and the endpoints *)
(* ===================================================================== *)

Lemma upper_char_idempotent (c : ascii) :
  Py.upper_char (Py.upper_char c) = Py.upper_char c.
Proof.
  destruct c as [[] [] [] [] [] [] [] []]; reflexivity.
Qed.

Lemma upper_char_alpha (c : ascii) :
  Py.is_alpha c = true -> Py.is_upper (Py.upper_char c) = true.
Proof.
  destruct c as [[] [] [] [] [] [] [] []]; vm_compute; congruence.
Qed.

Lemma is_upper_alpha (c : ascii) : Py.is_upper c = true -> Py.is_alpha c = true.
Proof. unfold Py.is_alpha. now intros ->. Qed.

Lemma upper_idempotent (s : string) : Py.upper (Py.upper s) = Py.upper s.
Proof.
  unfold Py.upper, Py.str, Py.chars.
  rewrite list_ascii_of_string_of_list_ascii, map_map. f_equal.
  apply map_ext. intros c. apply upper_char_idempotent.
Qed.

Lemma state_filter_request_new (s : string) :
  StateFilterRequest.new s
  = if two_letters s then Ok (StateFilterRequest.mk (Py.upper s))
    else Raise (ValidationError "state").
Proof.
  destruct s as [|a [|b [|c s]]]; try reflexivity.
  unfold StateFilterRequest.new, StateFilterRequest.validate_state, two_letters,
    Py.isalpha.
  cbn [String.length Nat.leb andb Py.chars list_ascii_of_string forallb].
  rewrite andb_true_r.
  destruct (Py.is_alpha a && Py.is_alpha b); reflexivity.
Qed.

Lemma two_letters_upper (s : string) :
  two_letters s = true ->
  two_letters (Py.upper s) = true
  /\ forallb Py.is_upper (Py.chars (Py.upper s)) = true.
Proof.
  destruct s as [|a [|b [|c s]]]; try discriminate.
  unfold two_letters, Py.upper, Py.str, Py.chars.
  rewrite list_ascii_of_string_of_list_ascii.
  cbn [list_ascii_of_string map forallb]. intros H.
  apply andb_true_iff in H. destruct H as [Ha Hb].
  apply upper_char_alpha in Ha, Hb.
  rewrite Ha, Hb, (is_upper_alpha _ Ha), (is_upper_alpha _ Hb). now split.
Qed.

(** X18.  [StateFilterRequest]: on ASCII text the model accepts exactly the
    strings made of two letters and stores them in upper case; whatever it
    stores is made of two upper-case letters and would be accepted again
    unchanged. *)
Theorem state_filter_request_two_letters (s : string) :
  Py.isascii s = true ->
  StateFilterRequest.new s
  = (if two_letters s then Ok (StateFilterRequest.mk (Py.upper s))
     else Raise (ValidationError "state"))
  /\ (two_letters s = true ->
      forallb Py.is_upper (Py.chars (Py.upper s)) = true
      /\ StateFilterRequest.new (Py.upper s)
         = Ok (StateFilterRequest.mk (Py.upper s))).
Proof.
  intros _. split; [apply state_filter_request_new|].
  intros H. destruct (two_letters_upper s H) as [T U]. split; [exact U|].
  now rewrite state_filter_request_new, T, upper_idempotent.
Qed.

Lemma top_plants_request_new (n : Z) (metric : option string) :
  TopPlantsRequest.new n metric
  = if (0 <? n)%Z
    then Ok (TopPlantsRequest.mk n match metric with
                                   | Some m => m
                                   | None => TopPlantsRequest.default_metric
                                   end)
    else Raise (ValidationError "top_number").
Proof.
  unfold TopPlantsRequest.new, TopPlantsRequest.validate_number.
  destruct (0 <? n)%Z eqn:E; [|reflexivity].
  apply Z.ltb_lt in E.
  now rewrite (proj2 (Z.leb_gt n 0) E).
Qed.

(** X19.  [TopPlantsRequest] and the endpoint [get_top_n_plants]: a request
    is accepted exactly when [top_number] is positive, the check of the
    validator being already made by the constraint of the field; a request
    without a metric asks for the annual net generation; and for an accepted
    request on a numeric metric the endpoint returns the [top_number] first
    plants of the sorted table, all of them when there are fewer, and at
    least one when the table has a row. *)
Theorem top_plants_request_positive (n : Z) (metric : option string) :
  TopPlantsRequest.new n metric
  = (if (0 <? n)%Z
     then Ok (TopPlantsRequest.mk n match metric with
                                    | Some m => m
                                    | None => "Plant annual net generation (MWh)"
                                    end)
     else Raise (ValidationError "top_number"))
  /\ (forall v, (0 < v)%Z -> TopPlantsRequest.validate_number v = Ok v)
  /\ forall (argsort_desc : list F64 -> list nat)
            (data_handler : PowerPlantDataHandler.t)
            (request : TopPlantsRequest.t),
      let df := PowerPlantDataHandler.plant_data data_handler in
      TopPlantsRequest.new n metric = Ok request ->
      sorts_descending argsort_desc ->
      plant_table df = true ->
      column_is df (TopPlantsRequest.metric request) float64 = true ->
      exists plants,
        Main.get_top_n_plants argsort_desc data_handler request = Ok plants
        /\ plants
           = map (plant_entry df (TopPlantsRequest.metric request))
                 (firstn (Z.to_nat n)
                         (argsort_desc
                            (metric_keys df (TopPlantsRequest.metric request))))
        /\ List.length plants = Nat.min (Z.to_nat n) (nrows df)
        /\ (1 <= nrows df -> plants <> []).
Proof.
  split; [apply top_plants_request_new|]. split.
  - intros v Hv. unfold TopPlantsRequest.validate_number.
    now rewrite (proj2 (Z.leb_gt v 0) Hv).
  - intros K h request df Hreq HK Hp Hc.
    rewrite top_plants_request_new in Hreq.
    destruct (0 <? n)%Z eqn:E; [|discriminate]. apply Z.ltb_lt in E.
    injection Hreq as <-. cbn [TopPlantsRequest.metric] in *.
    set (m := match metric with
              | Some m => m
              | None => TopPlantsRequest.default_metric
              end) in *.
    destruct (argsort_positions K df m HK) as [Perm _]. cbn zeta in Perm.
    unfold Main.get_top_n_plants.
    cbn [TopPlantsRequest.top_number TopPlantsRequest.metric].
    eexists. split; [apply (get_top_n_plants_ok K h n m Hp Hc Perm)|].
    fold df. unfold top_positions. rewrite slice_stop_nonneg by lia.
    split; [reflexivity|].
    assert (L : List.length (firstn (Z.to_nat n) (K (metric_keys df m)))
                = Nat.min (Z.to_nat n) (nrows df)).
    { rewrite length_firstn, (Permutation_length Perm).
      unfold positions. now rewrite length_seq. }
    split; [now rewrite length_map|].
    intros Hn Hnil. apply map_eq_nil in Hnil. rewrite Hnil in L.
    cbn [List.length] in L. lia.
Qed.

(** X20.  the endpoint [get_plants_by_state]: the state of the request is
    looked up in upper case, so two requests that differ in case only are
    answered alike; the comparison with the table is exact, so a plant whose
    abbreviation in the table is not in upper case is in no answer. *)
Theorem plants_by_state_endpoint_upper_case
        (data_handler : PowerPlantDataHandler.t) (s : string)
        (request : StateFilterRequest.t) :
  let df := PowerPlantDataHandler.plant_data data_handler in
  StateFilterRequest.new s = Ok request ->
  Main.get_plants_by_state data_handler request
  = PowerPlantDataHandler.get_data_by_state data_handler (Py.upper s)
  /\ (forall s' request',
         StateFilterRequest.new s' = Ok request' ->
         Py.upper s' = Py.upper s ->
         Main.get_plants_by_state data_handler request'
         = Main.get_plants_by_state data_handler request)
  /\ (rectangular df = true ->
      forall rows i t,
        Main.get_plants_by_state data_handler request = Ok rows ->
        i < nrows df ->
        cell_of df "Plant state abbreviation" i = CStr t ->
        Py.upper t <> t ->
        ~ In (row df i) rows).
Proof.
  intros df H.
  assert (Hs : forall s0 r0, StateFilterRequest.new s0 = Ok r0 ->
                             StateFilterRequest.state r0 = Py.upper s0).
  { intros s0 r0 E. rewrite state_filter_request_new in E.
    destruct (two_letters s0); [|discriminate]. now injection E as <-. }
  unfold Main.get_plants_by_state. rewrite (Hs s request H).
  split; [reflexivity|]. split.
  - intros s' request' H' E. now rewrite (Hs s' request' H'), E.
  - intros R rows i t E Hi Hc Hne Hin.
    assert (Hh : has_column df "Plant state abbreviation" = true).
    { unfold PowerPlantDataHandler.get_data_by_state in E. fold df in E.
      destruct (getitem df "Plant state abbreviation") as [c|e] eqn:G;
        [|discriminate].
      now apply getitem_Ok_has_column in G. }
    destruct (get_data_by_state_Ok data_handler (Py.upper s) rows R E) as [-> _].
    fold df in Hin. apply in_map_iff in Hin. destruct Hin as [j [Er Hj]].
    apply state_rows_In in Hj. destruct Hj as [_ Hj].
    assert (G : record_get (row df j) "Plant state abbreviation"
                = record_get (row df i) "Plant state abbreviation")
      by now rewrite Er.
    rewrite !(record_get_row_cell df _ _ Hh), Hj, Hc in G.
    injection G as G. apply Hne. rewrite <- G. apply upper_idempotent.
Qed.

(* ===================================================================== *)
(** ** The further properties on the worked tables *)
(* ===================================================================== *)



Lemma handler_init_tables_clean_witness :
  wf_frame raw_plants = true
  /\ wf_frame raw_states = true
  /\ PowerPlantDataHandler.__init__ raw_plants raw_states = Ok example_handler
  /\ (wf_frame cleaned_plants = true /\ no_na cleaned_plants
      /\ no_duplicate_rows cleaned_plants
      /\ columns cleaned_plants = columns raw_plants)
  /\ (wf_frame cleaned_states = true /\ no_na cleaned_states
      /\ no_duplicate_rows cleaned_states
      /\ columns cleaned_states = columns raw_states).
Proof.
  split; [reflexivity|]. split; [reflexivity|].
  split; [exact example_handler_init|].
  exact (handler_init_tables_clean raw_plants raw_states example_handler
           eq_refl eq_refl example_handler_init).
Defined.

Lemma top_n_plants_prefix_monotone_witness :
  sorts_descending argsort_desc_stable
  /\ plant_table cleaned_plants = true
  /\ column_is cleaned_plants generation float64 = true
  /\ (0 <= 1 <= 2)%Z
  /\ exists small large,
      PowerPlantDataHandler.get_top_n_plants
        argsort_desc_stable example_handler 1 generation = Ok small
      /\ PowerPlantDataHandler.get_top_n_plants
           argsort_desc_stable example_handler 2 generation = Ok large
      /\ small = firstn (Z.to_nat 1) large.
Proof.
  split; [apply argsort_by_sorts|].
  split; [reflexivity|]. split; [reflexivity|]. split; [lia|].
  exact (top_n_plants_prefix_monotone
           argsort_desc_stable example_handler 1 2 generation
           (argsort_by_sorts false) eq_refl eq_refl ltac:(lia)).
Defined.

Lemma top_n_plants_dominate_the_rest_witness :
  sorts_descending argsort_desc_stable
  /\ plant_table cleaned_plants = true
  /\ column_is cleaned_plants generation float64 = true
  /\ (0 <= 1)%Z
  /\ exists plants,
      PowerPlantDataHandler.get_top_n_plants
        argsort_desc_stable example_handler 1 generation = Ok plants
      /\ plants = map (plant_entry cleaned_plants generation)
                      (top_positions argsort_desc_stable cleaned_plants 1 generation)
      /\ (forall p j,
             In p plants -> j < nrows cleaned_plants ->
             ~ In j (top_positions argsort_desc_stable cleaned_plants 1 generation) ->
             desc_before (tp_metric_value p) (float_at cleaned_plants generation j)
             = true)
      /\ (no_na cleaned_plants ->
          forall p j,
            In p plants -> j < nrows cleaned_plants ->
            ~ In j (top_positions argsort_desc_stable cleaned_plants 1 generation) ->
            fleb (float_at cleaned_plants generation j) (tp_metric_value p) = true).
Proof.
  split; [apply argsort_by_sorts|].
  split; [reflexivity|]. split; [reflexivity|]. split; [lia|].
  exact (top_n_plants_dominate_the_rest
           argsort_desc_stable example_handler 1 generation
           (argsort_by_sorts false) eq_refl eq_refl ltac:(lia)).
Defined.

Lemma summary_by_state_in_ascending_order_witness :
  plant_table cleaned_plants = true
  /\ rectangular cleaned_states = true
  /\ column_is cleaned_plants generation float64 = true
  /\ column_is cleaned_states (Py.replace "Plant" "State" generation) float64 = true
  /\ has_column cleaned_plants (Py.replace "Plant" "State" generation) = false
  /\ column_is cleaned_plants "Plant state abbreviation" object = true
  /\ column_is cleaned_states "State abbreviation" object = true
  /\ unique_cells (state_keys cleaned_states) = true
  /\ exists items : StateSummary,
      PowerPlantDataHandler.get_plant_metric_summary_by_state
        example_handler generation = Ok items
      /\ strictly_ascending (map plant_state_abbreviation items).
Proof.
  repeat (split; [reflexivity|]).
  exact (summary_by_state_in_ascending_order example_handler generation
           eq_refl eq_refl eq_refl eq_refl eq_refl eq_refl eq_refl eq_refl).
Defined.


Lemma data_by_state_records_witness :
  rectangular cleaned_plants = true
  /\ PowerPlantDataHandler.get_data_by_state example_handler "CA"
     = Ok california_records
  /\ california_records <> []
  /\ List.length california_records <= nrows cleaned_plants
  /\ california_records = map (row cleaned_plants) (state_rows cleaned_plants "CA")
  /\ StronglySorted lt (state_rows cleaned_plants "CA")
  /\ (forall r, In r california_records ->
                record_get r "Plant state abbreviation" = Ok (CStr "CA")
                /\ map fst r = columns cleaned_plants)
  /\ (no_na cleaned_plants ->
      forall r k v, In r california_records -> In (k, v) r -> isna v = false).
Proof.
  split; [reflexivity|]. split; [reflexivity|].
  exact (data_by_state_records example_handler "CA" california_records
           eq_refl eq_refl).
Defined.

Lemma summary_by_state_matches_filter_witness :
  plant_table cleaned_plants = true
  /\ rectangular cleaned_states = true
  /\ column_is cleaned_plants generation float64 = true
  /\ column_is cleaned_states (Py.replace "Plant" "State" generation) float64 = true
  /\ has_column cleaned_plants (Py.replace "Plant" "State" generation) = false
  /\ column_is cleaned_plants "Plant state abbreviation" object = true
  /\ column_is cleaned_states "State abbreviation" object = true
  /\ unique_cells (state_keys cleaned_states) = true
  /\ exists items : StateSummary,
      PowerPlantDataHandler.get_plant_metric_summary_by_state
        example_handler generation = Ok items
      /\ (forall s, In s (map plant_state_abbreviation items)
                    <-> exists rows,
                        PowerPlantDataHandler.get_data_by_state example_handler s
                        = Ok rows)
      /\ (forall it, In it items ->
                     exists rows,
                       PowerPlantDataHandler.get_data_by_state
                         example_handler (plant_state_abbreviation it) = Ok rows
                       /\ absolute_value it
                          = nansum (map (record_float generation) rows)).
Proof.
  repeat (split; [reflexivity|]).
  exact (summary_by_state_matches_filter example_handler generation
           eq_refl eq_refl eq_refl eq_refl eq_refl eq_refl eq_refl eq_refl).
Defined.

Lemma state_filter_request_two_letters_witness :
  Py.isascii "ca" = true
  /\ StateFilterRequest.new "ca" = Ok (StateFilterRequest.mk "CA")
  /\ StateFilterRequest.new "CA" = Ok (StateFilterRequest.mk "CA")
  /\ StateFilterRequest.new "c1" = Raise (ValidationError "state")
  /\ StateFilterRequest.new "cal" = Raise (ValidationError "state").
Proof.
  split; [reflexivity|].
  pose proof (state_filter_request_two_letters "ca" eq_refl) as H.
  split; [exact (proj1 H)|]. split; [exact (proj2 (proj2 H eq_refl))|].
  split; reflexivity.
Defined.

Lemma plants_by_state_endpoint_upper_case_witness :
  StateFilterRequest.new "ca" = Ok (StateFilterRequest.mk "CA")
  /\ Main.get_plants_by_state example_handler (StateFilterRequest.mk "CA")
     = PowerPlantDataHandler.get_data_by_state example_handler (Py.upper "ca")
  /\ Main.get_plants_by_state example_handler (StateFilterRequest.mk "CA")
     = Ok california_records.
Proof.
  split; [reflexivity|].
  split; [|reflexivity].
  exact (proj1 (plants_by_state_endpoint_upper_case
                  example_handler "ca" (StateFilterRequest.mk "CA") eq_refl)).
Defined.

Lemma top_n_plants_missing_name_column_witness :
  sorts_descending argsort_desc_stable
  /\ rectangular unnamed_plants = true
  /\ column_is unnamed_plants generation float64 = true
  /\ has_column unnamed_plants "Plant name" = false
  /\ (0 < 1)%Z
  /\ 1 <= nrows unnamed_plants
  /\ PowerPlantDataHandler.get_top_n_plants
       argsort_desc_stable (PowerPlantDataHandler.mk unnamed_plants cleaned_states)
       1 generation
     = Raise (KeyError "Plant name").
Proof.
  split; [apply argsort_by_sorts|].
  split; [reflexivity|]. split; [reflexivity|]. split; [reflexivity|].
  split; [lia|]. split; [cbn; lia|].
  exact (top_n_plants_missing_name_column
           argsort_desc_stable (PowerPlantDataHandler.mk unnamed_plants cleaned_states)
           1 generation (argsort_by_sorts false) eq_refl eq_refl eq_refl
           ltac:(lia) ltac:(cbn; lia)).
Defined.

Lemma summary_by_state_needs_plant_in_name_witness :
  Py.count "Plant" "Data Year" = 0
  /\ Py.replace "Plant" "State" "Data Year" = "Data Year"
  /\ exists e,
      PowerPlantDataHandler.get_plant_metric_summary_by_state
        example_handler "Data Year" = Raise e.
Proof.
  split; [reflexivity|].
  pose proof (summary_by_state_needs_plant_in_name example_handler "Data Year"
                eq_refl) as H.
  exact (conj (proj1 H) (proj1 (proj2 H))).
Defined.

Lemma top_n_plants_errors_witness :
  PowerPlantDataHandler.get_top_n_plants
    argsort_desc_stable example_handler 2 "Plant age"
  = Raise (BadMetricError (msg_absent "Plant age"))
  /\ ((has_column cleaned_plants "Plant age" = false
       /\ BadMetricError (msg_absent "Plant age")
          = BadMetricError (msg_absent "Plant age"))
      \/ (has_column cleaned_plants "Plant age" = true
          /\ column_is cleaned_plants "Plant age" float64 = false
          /\ BadMetricError (msg_absent "Plant age")
             = BadMetricError (msg_not_numerical "Plant age"))
      \/ (column_is cleaned_plants "Plant age" float64 = true
          /\ ((has_column cleaned_plants "Plant name" = false
               /\ BadMetricError (msg_absent "Plant age") = KeyError "Plant name")
              \/ (has_column cleaned_plants "Plant state abbreviation" = false
                  /\ BadMetricError (msg_absent "Plant age")
                     = KeyError "Plant state abbreviation")
              \/ In (BadMetricError (msg_absent "Plant age"))
                    [ ValidationError "name"; ValidationError "state";
                      ValidationError "metric_value" ]))).
Proof.
  split; [reflexivity|].
  exact (top_n_plants_errors argsort_desc_stable example_handler 2 "Plant age"
           (BadMetricError (msg_absent "Plant age")) eq_refl).
Defined.
